(** * installSynApps: data model, clone engine, build orchestrator, version resolver

    A shallow embedding of [installSynApps/data_model.py], [clone.py],
    [build.py] and the helper [utils.get_module_configure_dirs], with the
    properties of the dependency-aware build engine stated over it.

    Conventions of the embedding.
    - Python [str] is [string] (ASCII); Python [int] and [bool] are [Z]
      ([True] is 1, [False] is 0, truthiness is [<> 0]), because the lifecycle
      flags hold both ([False]/[True] and the result of [STATE & 2]).
    - [InstallConfiguration.modules] is an insertion-ordered dict: an
      association list with unique keys. An [InstallModule] object is
      referred to by its key; every function that receives a module object
      in Python receives the key here and reads and writes the object in the
      configuration, so that mutation in place is visible to every holder.
    - Everything outside the process (child processes, the file system) is an
      [Env]: answers are functions of the history of effects performed so
      far, and every effect is appended to that history.
    - Exceptions are explicit: a computation yields [Ret v] or [Raise e]
      together with the state reached, since Python keeps the mutations done
      before an exception. The interpreter's recursion limit is the [depth]
      argument of the recursive functions.
    - An effect in the history is a call that was made and came back: the
      embedding has no run in which [shutil.rmtree], [Popen], [os.remove] or
      a write raises, and [open] for reading fails with [FileNotFoundError]
      only. The properties are therefore stated of what a call leaves
      behind, of the calls that return, and of the exceptions the code
      raises itself; none lists every exception a call may end in. *)

From Stdlib Require Import String Ascii List ZArith Lia Bool.
From Stdlib Require Import DecimalString.
Import ListNotations.
Local Open Scope string_scope.
Local Open Scope list_scope.
Local Open Scope Z_scope.

(** ** Python strings *)

Module PyStr.

(** [s.split(c)] for a one-character separator: never empty. *)
Fixpoint split (c : ascii) (s : string) : list string :=
  match s with
  | EmptyString => [EmptyString]
  | String a s' =>
      if Ascii.eqb a c then EmptyString :: split c s'
      else match split c s' with
           | [] => [String a EmptyString]
           | h :: t => String a h :: t
           end
  end.

(** [l[-1]] and [l[0]] on the result of a split (which is never empty). *)
Definition last_item (l : list string) : string := List.last l EmptyString.
Definition first_item (l : list string) : string := List.hd EmptyString l.

(** [s.startswith(p)] *)
Definition startswith (p s : string) : bool := String.prefix p s.

(** [c in s] for a one-character [c]. *)
Fixpoint contains (c : ascii) (s : string) : bool :=
  match s with
  | EmptyString => false
  | String a s' => Ascii.eqb a c || contains c s'
  end.

Definition is_digit (a : ascii) : bool :=
  let n := nat_of_ascii a in (Nat.leb 48 n && Nat.leb n 57)%bool.

(** [str.isspace] on one ASCII character: TAB..CR, FS..US and the space. *)
Definition is_space (a : ascii) : bool :=
  let n := nat_of_ascii a in
  ((Nat.leb 9 n && Nat.leb n 13) || (Nat.leb 28 n && Nat.leb n 32))%bool.

Fixpoint lstrip (s : string) : string :=
  match s with
  | EmptyString => EmptyString
  | String a s' => if is_space a then lstrip s' else s
  end.

Fixpoint rstrip (s : string) : string :=
  match s with
  | EmptyString => EmptyString
  | String a s' =>
      match rstrip s' with
      | EmptyString => if is_space a then EmptyString else String a EmptyString
      | r => String a r
      end
  end.

(** [s.strip()] *)
Definition strip (s : string) : string := rstrip (lstrip s).

(** [s.isnumeric()] on an ASCII string: not empty, digits only. *)
Fixpoint all_digits (s : string) : bool :=
  match s with
  | EmptyString => true
  | String a s' => is_digit a && all_digits s'
  end.

Definition isnumeric (s : string) : bool :=
  match s with
  | EmptyString => false
  | _ => all_digits s
  end.

(** [int(s)] for a string of digits. *)
Fixpoint int_acc (acc : Z) (s : string) : Z :=
  match s with
  | EmptyString => acc
  | String a s' => int_acc (10 * acc + (Z.of_nat (nat_of_ascii a) - 48)) s'
  end.

Definition int (s : string) : Z := int_acc 0 s.

(** [re.split(r"\D+", s)]: the pieces between the maximal runs of
    non-digits; [cur] is the piece being read, [in_sep] tells that the
    previous character belonged to a separator run. *)
Fixpoint re_split_nondigits_from (cur : string) (in_sep : bool) (s : string)
  : list string :=
  match s with
  | EmptyString => [cur]
  | String a s' =>
      if is_digit a then
        re_split_nondigits_from (String.append cur (String a EmptyString)) false s'
      else if in_sep then re_split_nondigits_from EmptyString true s'
      else cur :: re_split_nondigits_from EmptyString true s'
  end.

Definition re_split_nondigits (s : string) : list string :=
  re_split_nondigits_from EmptyString false s.

(** The three-line idiom of [auto_update_module_tag]:
    [re.split], keep the numeric pieces, [map(int, ...)]. *)
Definition version_numbers (s : string) : list Z :=
  List.map int (List.filter isnumeric (re_split_nondigits s)).

Definition newline : ascii := ascii_of_nat 10.

(** The lines of [s], each with its line end kept. *)
Fixpoint lines_keepends (s : string) : list string :=
  match s with
  | EmptyString => []
  | String a s' =>
      if Ascii.eqb a newline then String a EmptyString :: lines_keepends s'
      else match lines_keepends s' with
           | [] => [String a EmptyString]
           | h :: t => String a h :: t
           end
  end.

(** A line matched at its start by the pattern [ *#]. *)
Fixpoint comment_line (s : string) : bool :=
  match s with
  | String a s' =>
      if Ascii.eqb a " "%char then comment_line s'
      else Ascii.eqb a "#"%char
  | EmptyString => false
  end.

(** [re.sub(r'(?m)^ *#.*\n?', '', s)]: with the multi-line flag [^] matches
    at the start of every line, [.*] runs to the end of that line and [\n?]
    takes its line end, so exactly the comment lines are deleted. *)
Definition re_sub_comment (s : string) : string :=
  String.concat EmptyString
    (List.filter (fun l => negb (comment_line l)) (lines_keepends s)).

(** [str(n)] for an integer. *)
Definition str_of_int (n : Z) : string := NilZero.string_of_int (Z.to_int n).

End PyStr.

(** ["\n"] *)
Definition nl : string := String PyStr.newline EmptyString.

(** [os.path.join(a, b)] on POSIX paths. *)
Fixpoint ends_with_slash (s : string) : bool :=
  match s with
  | EmptyString => false
  | String a EmptyString => Ascii.eqb a "/"%char
  | String _ s' => ends_with_slash s'
  end.

Definition os_path_join (a b : string) : string :=
  if PyStr.startswith "/" b then b
  else match a with
       | EmptyString => b
       | _ => if ends_with_slash a then (a ++ b)%string
              else (a ++ "/" ++ b)%string
       end.

(** [os.path.basename(p)] *)
Definition os_path_basename (p : string) : string :=
  PyStr.last_item (PyStr.split "/" p).

(** ** Python values, exceptions, dicts *)

(** What a Python list may hold in this program: a string, or a reference to
    an [InstallModule] object (identified by its key in the configuration). *)
Inductive pyval : Type :=
| PyStrV (s : string)
| PyModule (ref : string).

(** [a == b]: strings compare by value; [InstallModule] defines no [__eq__],
    so an object equals only itself and never a string. *)
Definition py_eq (a b : pyval) : bool :=
  match a, b with
  | PyStrV s, PyStrV t => String.eqb s t
  | PyModule r, PyModule q => String.eqb r q
  | _, _ => false
  end.

(** [x in l] on a list. *)
Definition py_in (x : pyval) (l : list pyval) : bool := List.existsb (py_eq x) l.

(** [s in l] for a string and a list of strings. *)
Definition str_in (s : string) (l : list string) : bool :=
  List.existsb (String.eqb s) l.

Inductive exn : Type :=
| KeyError (key : string)
| UnboundLocalError (variable : string)
| RecursionError
| FileNotFoundError (path : string)
| FileExistsError (path : string)
| TypeError.

Inductive outcome (A : Type) : Type :=
| Ret (a : A)
| Raise (e : exn).
Arguments Ret {A} a.
Arguments Raise {A} e.

(** Truthiness of an [int]/[bool]. *)
Definition truthy (z : Z) : bool := negb (z =? 0).

Definition dict (V : Type) : Type := list (string * V).

Fixpoint dict_get {V : Type} (k : string) (d : dict V) : option V :=
  match d with
  | [] => None
  | (k', v) :: d' => if String.eqb k k' then Some v else dict_get k d'
  end.

(** [d[k] = v]: replaces the value of an existing key where it stands, or
    appends a new key. *)
Fixpoint dict_set {V : Type} (k : string) (v : V) (d : dict V) : dict V :=
  match d with
  | [] => [(k, v)]
  | (k', v') :: d' =>
      if String.eqb k k' then (k', v) :: d' else (k', v') :: dict_set k v d'
  end.

Definition dict_keys {V : Type} (d : dict V) : list string := List.map fst d.

(** ** data_model.py: InstallModule *)

Definition UPDATE_TAGS_BLACKLIST : list string := ["SSCAN"; "CALC"; "STREAM"].

Record InstallModule : Type := mkInstallModule {
  name : string;
  version : string;
  url : string;
  module_dir_name : string;
  cloned : Z;
  built : Z;
  installed : Z;
  build_cmd : option string;
  recursive_clone : bool;
  dependencies : list string
}.

(** One entry of ["MODULES"] in the configuration document, as [json.loads]
    returns it and [json.dumps] takes it. *)
Record module_config : Type := mkModuleConfig {
  URL : string;
  VERSION : string;
  BUILD_CMD : option string;
  RECURSIVE : option bool;
  STATE : option Z;
  DEPS : option (list string)
}.

(** [InstallModule.__init__] *)
Definition InstallModule_init (module_name : string) (mc : module_config)
  : InstallModule :=
  {| name := module_name;
     version := VERSION mc;
     url := URL mc;
     module_dir_name := PyStr.last_item (PyStr.split "/" (URL mc));
     cloned := match STATE mc with Some s => Z.land s 1 | None => 0 end;
     built := match STATE mc with Some s => Z.land s 2 | None => 0 end;
     installed := match STATE mc with Some s => Z.land s 4 | None => 0 end;
     build_cmd := BUILD_CMD mc;
     recursive_clone := match RECURSIVE mc with Some true => true | _ => false end;
     dependencies := [] |}.

(** [InstallModule.as_dict] *)
Definition as_dict (m : InstallModule) : module_config :=
  {| URL := url m;
     VERSION := version m;
     BUILD_CMD := build_cmd m;
     RECURSIVE := if recursive_clone m then Some true else None;
     STATE := Some (1 * cloned m + 2 * built m + 4 * installed m);
     DEPS := Some (dependencies m) |}.

Definition set_version (v : string) (m : InstallModule) : InstallModule :=
  mkInstallModule (name m) v (url m) (module_dir_name m) (cloned m) (built m)
    (installed m) (build_cmd m) (recursive_clone m) (dependencies m).

Definition set_cloned (z : Z) (m : InstallModule) : InstallModule :=
  mkInstallModule (name m) (version m) (url m) (module_dir_name m) z (built m)
    (installed m) (build_cmd m) (recursive_clone m) (dependencies m).

Definition set_built (z : Z) (m : InstallModule) : InstallModule :=
  mkInstallModule (name m) (version m) (url m) (module_dir_name m) (cloned m) z
    (installed m) (build_cmd m) (recursive_clone m) (dependencies m).

Definition set_installed (z : Z) (m : InstallModule) : InstallModule :=
  mkInstallModule (name m) (version m) (url m) (module_dir_name m) (cloned m)
    (built m) z (build_cmd m) (recursive_clone m) (dependencies m).

(** [module.dependencies.append(dep)] *)
Definition append_dependency (dep : string) (m : InstallModule) : InstallModule :=
  mkInstallModule (name m) (version m) (url m) (module_dir_name m) (cloned m)
    (built m) (installed m) (build_cmd m) (recursive_clone m)
    (dependencies m ++ [dep]).

(** ** data_model.py: InstallConfiguration *)

Record InstallConfiguration : Type := mkInstallConfiguration {
  config_file_path : option string;
  install_location : string;
  build_location : string;
  modules : dict InstallModule;
  build_options : dict string
}.

(** The configuration document. *)
Record configuration_json : Type := mkConfigurationJson {
  BUILD_LOC : string;
  INSTALL_LOC : string;
  CONFIG_MACROS : dict string;
  MODULES : dict module_config
}.

(** [InstallConfiguration.__init__] for a path whose file holds [doc]. *)
Definition InstallConfiguration_init (path : string) (doc : configuration_json)
  : InstallConfiguration :=
  {| config_file_path := Some path;
     install_location := INSTALL_LOC doc;
     build_location := BUILD_LOC doc;
     modules :=
       List.fold_left
         (fun ms entry => dict_set (fst entry)
                            (InstallModule_init (fst entry) (snd entry)) ms)
         (MODULES doc) [];
     build_options := CONFIG_MACROS doc |}.

(** The document [save] writes. *)
Definition configuration_document (cfg : InstallConfiguration) : configuration_json :=
  {| BUILD_LOC := build_location cfg;
     INSTALL_LOC := install_location cfg;
     CONFIG_MACROS := build_options cfg;
     MODULES :=
       List.fold_left
         (fun ms entry => dict_set (fst entry) (as_dict (snd entry)) ms)
         (modules cfg) [] |}.

Definition set_modules (ms : dict InstallModule) (cfg : InstallConfiguration)
  : InstallConfiguration :=
  mkInstallConfiguration (config_file_path cfg) (install_location cfg)
    (build_location cfg) ms (build_options cfg).

(** ** The outside world *)

(** The effects the program performs on the outside, in the order performed. *)
Inductive event : Type :=
| Rmtree (path : string)                       (* shutil.rmtree, clone.py *)
| Git (cmd : list string)                      (* Popen of a git command, clone.py *)
| LsRemote (cmd : list string)                 (* Popen of git ls-remote, data_model.py *)
| Remove (path : string)                       (* os.remove *)
| WriteFile (path : string) (lines : list string)
| Build (module : string) (cmd : list string)  (* Popen of a module's build command, build.py *)
| WriteJson (path : string) (doc : configuration_json).

(** The answers of the outside, each a function of the effects so far. *)
Record Env : Type := mkEnv {
  (** exit code of the child process started by the last event *)
  returncode : list event -> Z;
  (** [out.decode("utf-8").splitlines()] for the child process started by the
      last event *)
  stdout_lines : list event -> list string;
  (** [os.path.exists] *)
  path_exists : list event -> string -> bool;
  (** [os.walk(top)], as (dirpath, filenames) in the order yielded *)
  os_walk : list event -> string -> list (string * list string);
  (** [open(path, "r").readlines()]; [None] when the file cannot be opened *)
  readlines : list event -> string -> option (list string)
}.

Record state : Type := mkState {
  config : InstallConfiguration;
  history : list event
}.

(** ** Computations: state, effects and exceptions *)

Definition M (A : Type) : Type := state -> outcome A * state.

Definition ret {A : Type} (a : A) : M A := fun st => (Ret a, st).

Definition raise {A : Type} (e : exn) : M A := fun st => (Raise e, st).

Definition bind {A B : Type} (c : M A) (k : A -> M B) : M B :=
  fun st =>
    match c st with
    | (Ret a, st') => k a st'
    | (Raise e, st') => (Raise e, st')
    end.

Declare Scope py_scope.
Delimit Scope py_scope with py.
Notation "x <- c ;; k" := (bind c (fun x => k))
  (at level 61, c at next level, right associativity) : py_scope.
Notation "c ;; k" := (bind c (fun _ => k))
  (at level 61, right associativity) : py_scope.
Local Open Scope py_scope.

Definition get_config : M InstallConfiguration := fun st => (Ret (config st), st).

(** Reading an attribute of the module object [k] refers to; a key that
    refers to nothing is the failed lookup [install_config.modules[k]]. *)
Definition get_module (k : string) : M InstallModule :=
  fun st =>
    match dict_get k (modules (config st)) with
    | Some m => (Ret m, st)
    | None => (Raise (KeyError k), st)
    end.

(** Assigning to attributes of the module object [k] refers to. *)
Definition update_module (k : string) (f : InstallModule -> InstallModule) : M unit :=
  fun st =>
    match dict_get k (modules (config st)) with
    | Some m =>
        (Ret tt,
         mkState (set_modules (dict_set k (f m) (modules (config st))) (config st))
                 (history st))
    | None => (Raise (KeyError k), st)
    end.

(** Performing an effect. *)
Definition emit (e : event) : M unit :=
  fun st => (Ret tt, mkState (config st) (history st ++ [e])).

(** Sequential iteration over a list. *)
Fixpoint for_each {A : Type} (body : A -> M unit) (l : list A) : M unit :=
  match l with
  | [] => ret tt
  | a :: l' => body a ;; for_each body l'
  end.

Section Program.

Variable env : Env.

(** [Popen(cmd); proc.wait(); proc.returncode], for a command that starts *)
Definition popen_wait (e : event) : M Z :=
  emit e ;; fun st => (Ret (returncode env (history st)), st).

(** [Popen(cmd, stdout=PIPE, stderr=PIPE).communicate()], decoded and split
    into lines, for a command that starts and an output that decodes. *)
Definition popen_communicate (e : event) : M (list string) :=
  emit e ;; fun st => (Ret (stdout_lines env (history st)), st).

Definition os_path_exists (p : string) : M bool :=
  fun st => (Ret (path_exists env (history st) p), st).

(** [open(p, "r")] followed by [fp.readlines()]; the one failure is the
    file that is not there. *)
Definition open_readlines (p : string) : M (list string) :=
  fun st =>
    match readlines env (history st) p with
    | Some ls => (Ret ls, st)
    | None => (Raise (FileNotFoundError p), st)
    end.

(** [utils.get_module_configure_dirs] *)
Definition get_module_configure_dirs (module_abs_path : string)
  : M (list (string * list string)) :=
  fun st =>
    (Ret (List.filter
            (fun d => String.eqb (os_path_basename (fst d)) "configure")
            (os_walk env (history st) module_abs_path)),
     st).

(** [InstallConfiguration.save] *)
Definition save (save_path : option string) (overwrite_existing : bool) : M unit :=
  cfg <- get_config ;;
  match (match save_path with None => config_file_path cfg | p => p end) with
  | None => raise TypeError          (* os.path.exists(None) *)
  | Some p =>
      ex <- os_path_exists p ;;
      (if overwrite_existing && ex then emit (Remove p)
       else if negb overwrite_existing && ex then raise (FileExistsError p)
       else ret tt) ;;
      cfg <- get_config ;;
      emit (WriteJson p (configuration_document cfg))
  end.

(** ** clone.py *)

Definition NON_DEP_RELEASES : list string :=
  ["SUPPORT"; "UTILS"; "TEMPLATE_TOP"; "TEMPLATE_CONFIG"; "TEMPLATE_RELEASE";
   "TEMPLATE_SITE"; "TEMPLATE_CONFIG_SITE"].

(** [os.path.join(build_loc, module.url.split('/')[-1].split('.')[0])] *)
Definition module_abs_path_of (build_loc : string) (m : InstallModule) : string :=
  os_path_join build_loc
    (PyStr.first_item (PyStr.split "." (PyStr.last_item (PyStr.split "/" (url m))))).

(** The key a line of a RELEASE file sets, when it sets one
    (lines 95 to 97 of clone.py). *)
Definition release_key (line : string) : option string :=
  let line := PyStr.re_sub_comment line in
  if PyStr.contains "="%char line
  then Some (PyStr.strip (PyStr.first_item (PyStr.split "=" line)))
  else None.

(** The condition of line 98 of clone.py. *)
Definition is_dependency (module_name dep : string) : bool :=
  negb (str_in dep NON_DEP_RELEASES)
  && negb (String.eqb dep module_name)
  && negb (String.eqb module_name "EPICS_BASE").

(** The body of [for line in lines]. *)
Definition scan_release_line (k : string) (line : string) : M unit :=
  match release_key line with
  | Some dep =>
      module <- get_module k ;;
      if is_dependency (name module) dep
      then update_module k (append_dependency dep)
      else ret tt
  | None => ret tt
  end.

(** The body of [for file in filenames]. *)
Definition scan_configure_file (k : string) (configure_dir file : string) : M unit :=
  if PyStr.startswith "RELEASE" file then
    lines <- open_readlines (os_path_join configure_dir "RELEASE") ;;
    for_each (scan_release_line k) lines
  else ret tt.

(** [clone_single_module(build_loc, module)] *)
Definition clone_single_module (build_loc : string) (k : string) : M bool :=
  module <- get_module k ;;
  let module_abs_path := module_abs_path_of build_loc module in
  if truthy (cloned module) then ret true
  else
    ex <- os_path_exists module_abs_path ;;
    (if ex then emit (Rmtree module_abs_path) else ret tt) ;;
    r <- popen_wait
           (Git (["git"; "clone"]
                 ++ (if recursive_clone module then ["--recursive"] else [])
                 ++ [url module; module_abs_path])) ;;
    if negb (r =? 0) then ret false
    else
      r <- popen_wait
             (Git ["git"; "-C"; module_abs_path; "checkout"; "-q"; version module]) ;;
      if negb (r =? 0) then ret false
      else
        r <- (if recursive_clone module
              then popen_wait (Git ["git"; "-C"; module_abs_path; "submodule"; "update"])
              else ret r) ;;
        if negb (r =? 0) then ret false
        else
          configure_dirs <- get_module_configure_dirs module_abs_path ;;
          for_each
            (fun d => for_each (scan_configure_file k (fst d)) (snd d))
            configure_dirs ;;
          update_module k (set_cloned 1) ;;
          ret true.

(** The body of the loop of [clone_and_checkout_config]; [failed_modules] is
    the list built so far. *)
Fixpoint clone_and_checkout_loop (keys : list string) (failed_modules : list pyval)
  : M (list pyval) :=
  match keys with
  | [] => ret failed_modules
  | k :: keys' =>
      cfg <- get_config ;;
      successfully_cloned <- clone_single_module (build_location cfg) k ;;
      save None true ;;
      module <- get_module k ;;
      clone_and_checkout_loop keys'
        (if successfully_cloned then failed_modules
         else failed_modules ++ [PyStrV (name module)])
  end.

(** [clone_and_checkout_config(install_config)] *)
Definition clone_and_checkout_config : M (list pyval) :=
  cfg <- get_config ;;
  clone_and_checkout_loop (dict_keys (modules cfg)) [].

(** ** build.py *)

(** The loop [for dep in module.dependencies] of [build_single_module], with
    [rec] the recursive call: the lookup [install_config.modules[dep]] comes
    first, the first failure ends the loop with [False]. *)
Fixpoint build_dependencies (rec : string -> M bool) (deps : list string) : M bool :=
  match deps with
  | [] => ret true
  | dep :: deps' =>
      _ <- get_module dep ;;
      deps_built <- rec dep ;;
      if negb deps_built then ret false else build_dependencies rec deps'
  end.

(** Lines 109 to 119 of build.py: the files of one configure directory. *)
Definition replace_config_files (cfg : InstallConfiguration)
           (d : string * list string) : M unit :=
  let configure_dir := fst d in
  for_each
    (fun file =>
       if PyStr.startswith "CONFIG_SITE" file || PyStr.startswith "RELEASE" file
       then emit (Remove (os_path_join configure_dir file))
       else ret tt)
    (snd d) ;;
  emit (WriteFile (os_path_join configure_dir "CONFIG_SITE")
          (List.map (fun mv => (fst mv ++ "=" ++ snd mv ++ nl)%string)
                    (build_options cfg))) ;;
  emit (WriteFile (os_path_join configure_dir "RELEASE")
          (List.map
             (fun km => (name (snd km) ++ "="
                         ++ module_abs_path_of (build_location cfg) (snd km)
                         ++ nl)%string)
             (modules cfg))).

(** The command of lines 122 to 125 of build.py. *)
Definition build_command (module : InstallModule) (module_abs_path : string)
           (num_threads : Z) : list string :=
  match build_cmd module with
  | Some c => PyStr.split " " c
  | None =>
      ["make"; "-C"; module_abs_path;
       String.append "-sj"
         (if num_threads =? 0 then EmptyString else PyStr.str_of_int num_threads)]
  end.

(** Lines 96 to 99 of build.py: a module not cloned yet is cloned first;
    yields [False] when that fails. *)
Definition clone_unless_cloned (k : string) : M bool :=
  module <- get_module k ;;
  if negb (truthy (cloned module))
  then cfg <- get_config ;; clone_single_module (build_location cfg) k
  else ret true.

(** Lines 106 to 135 of build.py: the configuration files, then the build
    command, then [module.built = True] when it exits with 0. *)
Definition run_build_command (num_threads : Z) (k : string) : M bool :=
  cfg <- get_config ;;
  module <- get_module k ;;
  let module_abs_path := module_abs_path_of (build_location cfg) module in
  (if negb (String.eqb (name module) "EPICS_BASE")
   then
     dirs <- get_module_configure_dirs module_abs_path ;;
     for_each (replace_config_files cfg) dirs
   else ret tt) ;;
  r <- popen_wait (Build k (build_command module module_abs_path num_threads)) ;;
  if r =? 0 then update_module k (set_built 1) ;; ret true
  else ret false.

(** [build_single_module(install_config, module, num_threads)]; [depth] is
    the number of frames the interpreter still allows. *)
Fixpoint build_single_module (depth : nat) (num_threads : Z) (k : string)
  {struct depth} : M bool :=
  match depth with
  | O => raise RecursionError
  | S depth' =>
      module <- get_module k ;;
      if truthy (built module) then ret true
      else
        cloned_ok <- clone_unless_cloned k ;;
        if negb cloned_ok then ret false
        else
          module <- get_module k ;;
          deps_ok <- build_dependencies (build_single_module depth' num_threads)
                       (dependencies module) ;;
          if negb deps_ok then ret false
          else run_build_command num_threads k
  end.

(** The loop of [build_all]; [failed] is the list built so far. *)
Fixpoint build_all_loop (depth : nat) (num_threads : Z) (keys : list string)
         (failed : list pyval) : M (list pyval) :=
  match keys with
  | [] => ret failed
  | k :: keys' =>
      built_successfully <- build_single_module depth num_threads k ;;
      save None true ;;
      build_all_loop depth num_threads keys'
        (if negb built_successfully then failed ++ [PyModule k] else failed)
  end.

(** [build_all(install_config, num_threads)] *)
Definition build_all (depth : nat) (num_threads : Z) : M (list pyval) :=
  cfg <- get_config ;;
  build_all_loop depth num_threads (dict_keys (modules cfg)) [].

(** ** data_model.py: the version resolver *)

(** [InstallConfiguration.clear_clone_and_build_state(modified_module)].
    [module.dependencies] is a list of strings (clone.py appends the keys of
    RELEASE files), [modified_module] is the module object. *)
Fixpoint clear_clone_and_build_state (depth : nat) (modified_module : string)
  {struct depth} : M unit :=
  match depth with
  | O => raise RecursionError
  | S depth' =>
      update_module modified_module (set_cloned 0) ;;
      update_module modified_module (set_built 0) ;;
      update_module modified_module (set_installed 0) ;;
      cfg <- get_config ;;
      for_each
        (fun k =>
           module <- get_module k ;;
           if py_in (PyModule modified_module)
                    (List.map PyStrV (dependencies module))
           then clear_clone_and_build_state depth' k
           else ret tt)
        (dict_keys (modules cfg))
  end.

(** Lines 249 to 261: [for i in range(len(tag_version_numbers))], entered at
    index [i] with [n] indices left; yields [best_tag] and
    [best_tag_version_numbers] after the loop. An index is read only where
    the source reads it, and there it is in range ([i = len] is tested
    first), so the default of [nth] is never used. *)
Fixpoint select_best_tag (n i : nat) (best_tag tag : string)
         (best_tag_version_numbers tag_version_numbers : list Z)
  : string * list Z :=
  match n with
  | O => (best_tag, best_tag_version_numbers)
  | S n' =>
      if PyStr.startswith "R" best_tag && negb (PyStr.startswith "R" tag)
      then (best_tag, best_tag_version_numbers)
      else if negb (PyStr.startswith "R" best_tag) && PyStr.startswith "R" tag
      then (tag, tag_version_numbers)
      else if Nat.eqb i (List.length best_tag_version_numbers)
              || (List.nth i tag_version_numbers 0
                  >? List.nth i best_tag_version_numbers 0)
      then (tag, tag_version_numbers)
      else if List.nth i tag_version_numbers 0
              <? List.nth i best_tag_version_numbers 0
      then (best_tag, best_tag_version_numbers)
      else select_best_tag n' (S i) best_tag tag
             best_tag_version_numbers tag_version_numbers
  end.

(** Lines 268 to 277: [for i in range(len(best_tag_version_numbers))]. *)
Fixpoint update_decision (depth : nat) (k : string) (best_tag : string)
         (best_tag_version_numbers module_version_numbers : list Z)
         (n i : nat) : M unit :=
  match n with
  | O => ret tt
  | S n' =>
      if Nat.eqb i (List.length module_version_numbers)
         || (List.nth i best_tag_version_numbers 0
             >? List.nth i module_version_numbers 0)
      then
        update_module k (set_version best_tag) ;;
        clear_clone_and_build_state depth k
      else if List.nth i best_tag_version_numbers 0
              <? List.nth i module_version_numbers 0
      then ret tt
      else update_decision depth k best_tag best_tag_version_numbers
             module_version_numbers n' (S i)
  end.

(** The loop [for tag_info in ret.splitlines()] of lines 236 to 279, with its
    two local variables; [None] is a variable not assigned yet. *)
Fixpoint scan_tags (depth : nat) (k : string) (lines : list string)
         (best_tag : option string) (best_tag_version_numbers : option (list Z))
  : M unit :=
  match lines with
  | [] => ret tt
  | tag_info :: lines' =>
      let tag := PyStr.last_item (PyStr.split "/" tag_info) in
      let '(best_tag, best_tag_version_numbers) :=
        match best_tag with
        | None => (tag, best_tag_version_numbers)
        | Some best =>
            let tag_version_numbers := PyStr.version_numbers tag in
            let '(b, bn) :=
              select_best_tag (List.length tag_version_numbers) 0 best tag
                (PyStr.version_numbers best) tag_version_numbers in
            (b, Some bn)
        end in
      module <- get_module k ;;
      let module_version_numbers := PyStr.version_numbers (version module) in
      match best_tag_version_numbers with
      | None => raise (UnboundLocalError "best_tag_version_numbers")
      | Some bn =>
          update_decision depth k best_tag bn module_version_numbers
            (List.length bn) 0 ;;
          scan_tags depth k lines' (Some best_tag) (Some bn)
      end
  end.

(** [InstallConfiguration.auto_update_module_tag(module)]; [depth] is the
    number of frames left for [clear_clone_and_build_state]. *)
Definition auto_update_module_tag (depth : nat) (k : string) : M unit :=
  module <- get_module k ;;
  if negb (str_in (version module) ["master"; "main"])
     && negb (str_in (name module) UPDATE_TAGS_BLACKLIST)
  then
    lines <- popen_communicate
               (LsRemote ["git"; "ls-remote"; "--tags"; url module]) ;;
    scan_tags depth k lines None None
  else ret tt.

(** [InstallConfiguration.auto_update_modules] *)
Definition auto_update_modules (depth : nat) : M unit :=
  cfg <- get_config ;;
  for_each (auto_update_module_tag depth) (dict_keys (modules cfg)).

(** ** utils.py: get_commit_hash_given_version, and data_model.py: freeze *)

(** [s[:n]] *)
Fixpoint str_take (n : nat) (s : string) : string :=
  match n, s with
  | S n', String a s' => String a (str_take n' s')
  | _, _ => EmptyString
  end.

(** [s.endswith(suffix)] *)
Definition str_endswith (suffix s : string) : bool :=
  Nat.leb (String.length suffix) (String.length s)
  && String.eqb
       (String.substring (String.length s - String.length suffix)
                         (String.length suffix) s)
       suffix.

(** [sub in s] for two strings. *)
Fixpoint str_contains (sub s : string) : bool :=
  match s with
  | EmptyString => String.prefix sub EmptyString
  | String _ s' => String.prefix sub s || str_contains sub s'
  end.

(** The loop of lines 139 to 144 of utils.py over the lines of the
    listing: [frozen_version] after it. *)
Definition frozen_version_of (version : string) (lines : list string)
  : option string :=
  List.fold_left
    (fun frozen_version branch_info =>
       if str_endswith version branch_info
          && negb (str_contains "refs/tags" branch_info)
       then Some (str_take 8
                    (PyStr.first_item
                       (PyStr.split (ascii_of_nat 9) branch_info)))
       else frozen_version)
    lines None.

(** [get_commit_hash_given_version(module_name, repository, version)].
    Line 136 reads [ret.splitlines[0]]: the method is not called but
    subscripted, which raises [TypeError] whatever the listing is. *)
Definition get_commit_hash_given_version
           (module_name repository version : string) : M string :=
  lines <- popen_communicate (LsRemote ["git"; "ls-remote"; repository]) ;;
  head_commit_hash <- (raise TypeError : M string) ;;
  ret (match frozen_version_of version lines with
       | None => head_commit_hash
       | Some frozen_version => frozen_version
       end).

(** [InstallConfiguration.freeze] *)
Definition freeze : M unit :=
  cfg <- get_config ;;
  for_each
    (fun k =>
       module <- get_module k ;;
       v <- get_commit_hash_given_version (name module) (url module)
              (version module) ;;
       update_module k (set_version v))
    (dict_keys (modules cfg)).

(** ** utils.py: get_active_environment *)

(** The loop [for line in fp] of lines 190 to 192 of utils.py; a line that
    starts with [ACTIVE_ENV=] has a second piece. *)
Fixpoint active_env_of_lines (lines : list string) : option string :=
  match lines with
  | [] => None
  | line :: lines' =>
      if PyStr.startswith "ACTIVE_ENV=" line
      then Some (PyStr.strip (List.nth 1 (PyStr.split "=" line) EmptyString))
      else active_env_of_lines lines'
  end.

(** [get_active_environment()], with the module constant [CONFIG_DIR]. *)
Definition get_active_environment (CONFIG_DIR : string) : M (option string) :=
  let epics_env_settings := os_path_join CONFIG_DIR "epicsenv.ini" in
  ex <- os_path_exists epics_env_settings ;;
  if negb ex then ret None
  else
    lines <- open_readlines epics_env_settings ;;
    ret (active_env_of_lines lines).

(** The line [use_env] writes to [epicsenv.ini] for the path of an
    environment (line 205 of __main__.py); [init_env] writes it with the
    empty path (line 164). *)
Definition active_env_line (epics_env_config_path : string) : string :=
  ("ACTIVE_ENV=" ++ epics_env_config_path ++ nl)%string.

End Program.

(** * Vocabulary of the properties

    Definitions that the statements below are phrased with; none of them is
    part of the program. *)

(** ** Configuration store *)

(** The document held by the file [path] after the effects [h]: what the last
    [WriteJson] to it wrote, unless the file was removed since. *)
Definition written_document (path : string) (h : list event)
  : option configuration_json :=
  List.fold_left
    (fun file e =>
       match e with
       | WriteJson p doc => if String.eqb p path then Some doc else file
       | Remove p => if String.eqb p path then None else file
       | _ => file
       end)
    h None.

(** [InstallConfiguration(path)] after the effects [h]: [None] when there is
    no document to load. *)
Definition reload (path : string) (h : list event) : option InstallConfiguration :=
  option_map (InstallConfiguration_init path) (written_document path h).

(** The module map a reload yields from the one that was saved. *)
Definition reloaded_modules (ms : dict InstallModule) : dict InstallModule :=
  List.map (fun km => (fst km, InstallModule_init (fst km) (as_dict (snd km)))) ms.

(** The state after a successful [save()] to the configuration's own path. *)
Definition saved (env : Env) (p : string) (st : state) : state :=
  mkState (config st)
    (history st
     ++ (if path_exists env (history st) p then [Remove p] else [])
     ++ [WriteJson p (configuration_document (config st))]).

(** ** Version resolver *)

(** The state after the three assignments of [clear_clone_and_build_state]. *)
Definition flags_cleared (k : string) (m : InstallModule) (st : state) : state :=
  mkState
    (set_modules
       (dict_set k (set_installed 0 (set_built 0 (set_cloned 0 m)))
                 (modules (config st)))
       (config st))
    (history st).

(** ** Dependency discovery *)

(** [m] with [ds] appended to its dependencies, one [append] after another. *)
Definition add_dependencies (ds : list string) (m : InstallModule) : InstallModule :=
  mkInstallModule (name m) (version m) (url m) (module_dir_name m) (cloned m)
    (built m) (installed m) (build_cmd m) (recursive_clone m)
    (dependencies m ++ ds).

(** [st'] is [st] with [ds] appended to the dependencies of the module [k],
    which was [m]; nothing else differs. *)
Record scanned (k : string) (m : InstallModule) (ds : list string)
       (st st' : state) : Prop := mkScanned {
  scanned_module :
    dict_get k (modules (config st')) = Some (add_dependencies ds m);
  scanned_others :
    forall f, f <> k ->
      dict_get f (modules (config st')) = dict_get f (modules (config st));
  scanned_keys :
    dict_keys (modules (config st')) = dict_keys (modules (config st));
  scanned_location : build_location (config st') = build_location (config st);
  scanned_history : history st' = history st
}.

(** The keys one line contributes: at most one. *)
Definition line_keys (line : string) : list string :=
  match release_key line with
  | Some dep => [dep]
  | None => []
  end.

(** The keys of a list of items, when each item yields its keys. *)
Fixpoint collect {A : Type} (keys_of : A -> option (list string)) (l : list A)
  : option (list string) :=
  match l with
  | [] => Some []
  | a :: l' =>
      match keys_of a, collect keys_of l' with
      | Some ks, Some ks' => Some (ks ++ ks')
      | _, _ => None
      end
  end.

(** The keys the loop body reads for one file name of a configure
    directory: line 92 of clone.py opens [RELEASE], whatever the name is. *)
Definition opened_keys (env : Env) (h : list event) (configure_dir file : string)
  : option (list string) :=
  if PyStr.startswith "RELEASE" file then
    match readlines env h (os_path_join configure_dir "RELEASE") with
    | Some lines => collect (fun l => Some (line_keys l)) lines
    | None => None
    end
  else Some [].

(** All keys read during the discovery below [module_abs_path], in the
    order in which they are read. *)
Definition discovered_keys (env : Env) (h : list event) (module_abs_path : string)
  : option (list string) :=
  collect (fun d => collect (opened_keys env h (fst d)) (snd d))
    (List.filter (fun d => String.eqb (os_path_basename (fst d)) "configure")
                 (os_walk env h module_abs_path)).

(** The keys parsed from one file of a configure directory, as the
    specification has it: a file whose name starts with RELEASE is parsed,
    that file itself. *)
Definition file_keys (env : Env) (h : list event) (configure_dir file : string)
  : option (list string) :=
  if PyStr.startswith "RELEASE" file then
    match readlines env h (os_path_join configure_dir file) with
    | Some lines => collect (fun l => Some (line_keys l)) lines
    | None => None
    end
  else Some [].

(** All keys parsed from the RELEASE-prefixed files of the configure
    directories below [module_abs_path], in the order of the walk. *)
Definition parsed_keys (env : Env) (h : list event) (module_abs_path : string)
  : option (list string) :=
  collect (fun d => collect (file_keys env h (fst d)) (snd d))
    (List.filter (fun d => String.eqb (os_path_basename (fst d)) "configure")
                 (os_walk env h module_abs_path)).

(** In the configure directories below [module_abs_path], the only file
    whose name starts with RELEASE is the file [RELEASE]. *)
Definition release_files_named_RELEASE (env : Env) (h : list event)
           (module_abs_path : string) : Prop :=
  forall d file,
    In d (os_walk env h module_abs_path) ->
    os_path_basename (fst d) = "configure" ->
    In file (snd d) ->
    PyStr.startswith "RELEASE" file = true ->
    file = "RELEASE".

(** A loop body that appends to the dependencies of [k] the keys of its item
    that pass the test of line 98. *)
Definition appends_keys {A : Type} (k : string) (keys_of : list event -> A -> option (list string))
           (body : A -> M unit) : Prop :=
  forall (a : A) (st : state) (m : InstallModule) (st' : state),
    dict_get k (modules (config st)) = Some m ->
    body a st = (Ret tt, st') ->
    exists ks, keys_of (history st) a = Some ks
               /\ scanned k m (List.filter (is_dependency (name m)) ks) st st'.

(** ** Effects and frames *)

(** The effects [clone_single_module] performs. *)
Definition clone_event (e : event) : Prop :=
  match e with
  | Rmtree _ | Git _ => True
  | _ => False
  end.

(** The history of [st'] is the one of [st] followed by effects that all
    satisfy [P]. *)
Definition extends (P : event -> Prop) (st st' : state) : Prop :=
  exists evs, history st' = history st ++ evs /\ Forall P evs.

(** [st'] is [st] after more effects of cloning, with the same configuration. *)
Definition cloning (st st' : state) : Prop :=
  config st' = config st /\ extends clone_event st st'.

(** The effects of rewriting the configuration files. *)
Definition file_event (e : event) : Prop :=
  match e with
  | Remove _ | WriteFile _ _ => True
  | _ => False
  end.

(** A computation that always returns and does nothing but effects in [P]. *)
Definition emits (P : event -> Prop) (c : M unit) : Prop :=
  forall st, exists st',
    c st = (Ret tt, st') /\ config st' = config st /\ extends P st st'.

(** The module [k] exists and its [built] flag is true. *)
Definition is_built (k : string) (st : state) : Prop :=
  exists m, dict_get k (modules (config st)) = Some m /\ built m <> 0.

(** An effect that is not the build command of a module of [fs]. *)
Definition no_build_of (fs : list string) (e : event) : Prop :=
  match e with
  | Build f _ => ~ In f fs
  | _ => True
  end.

(** From [st] to [st'] the module objects of [fs] were not written and the
    build command of none of them was started. *)
Record untouched (fs : list string) (st st' : state) : Prop := mkUntouched {
  untouched_modules :
    forall f, In f fs ->
      dict_get f (modules (config st')) = dict_get f (modules (config st));
  untouched_history : extends (no_build_of fs) st st'
}.

(** From [st] to [st'] the module map kept its keys and no [built] flag was
    cleared. *)
Record grows (st st' : state) : Prop := mkGrows {
  grows_keys : dict_keys (modules (config st')) = dict_keys (modules (config st));
  grows_built : forall p, is_built p st -> is_built p st'
}.

(** ** Modules whose build is in progress *)

(** The build of [f] is at the entry [x] of its dependencies: [f] is cloned
    and not built, and the entries before [x] are built. *)
Definition waiting (st : state) (f x : string) : Prop :=
  exists mf pre post,
    dict_get f (modules (config st)) = Some mf
    /\ built mf = 0
    /\ cloned mf <> 0
    /\ dependencies mf = pre ++ x :: post
    /\ Forall (fun p => is_built p st) pre.

(** The call stack of builds, innermost first, when [x] is about to be
    built. *)
Inductive chain (st : state) : string -> list string -> Prop :=
| chain_nil (x : string) : chain st x []
| chain_cons (x f : string) (fs : list string) :
    waiting st f x -> chain st f fs -> chain st x (f :: fs).

(** Every module of [c] waits for a module of [c]. *)
Definition closed (st : state) (c : list string) : Prop :=
  forall f, In f c -> exists y, In y c /\ waiting st f y.

(** ** What cloning and building keep *)

(** [m'] is [m] after cloning or building: identity, pin and source are the
    same, a flag that was set is still set, and the dependencies were only
    appended to. *)
Record module_kept (m m' : InstallModule) : Prop := mkModuleKept {
  kept_name : name m' = name m;
  kept_version : version m' = version m;
  kept_url : url m' = url m;
  kept_dir_name : module_dir_name m' = module_dir_name m;
  kept_build_cmd : build_cmd m' = build_cmd m;
  kept_recursive : recursive_clone m' = recursive_clone m;
  kept_installed : installed m' = installed m;
  kept_cloned : cloned m <> 0 -> cloned m' <> 0;
  kept_built : built m <> 0 -> built m' <> 0;
  kept_dependencies : exists ds, dependencies m' = dependencies m ++ ds
}.

(** [st'] is [st] after cloning or building: the paths and macros and the
    keys of the module map, in their order, are the same; every module is
    kept in the sense above; the history was only appended to. *)
Record evolves (st st' : state) : Prop := mkEvolves {
  evolves_path : config_file_path (config st') = config_file_path (config st);
  evolves_install : install_location (config st') = install_location (config st);
  evolves_build : build_location (config st') = build_location (config st);
  evolves_options : build_options (config st') = build_options (config st);
  evolves_keys : dict_keys (modules (config st')) = dict_keys (modules (config st));
  evolves_modules :
    forall k m, dict_get k (modules (config st)) = Some m ->
      exists m', dict_get k (modules (config st')) = Some m' /\ module_kept m m';
  evolves_history : exists evs, history st' = history st ++ evs
}.

(** Whatever the computation [c] yields, a result or an exception, the
    state it leaves is related by [R] to the one it started in. *)
Definition keeps {A : Type} (R : state -> state -> Prop) (c : M A) : Prop :=
  forall st r st', c st = (r, st') -> R st st'.

(** A loop body of the discovery, whatever it yields: it appends some names
    to the dependencies of [k], touches nothing else, and can only fail by
    not finding the file [RELEASE] of a directory. *)
Definition scans {A : Type} (k : string) (body : A -> M unit) : Prop :=
  forall (a : A) (st : state) (m : InstallModule) (r : outcome unit) (st' : state),
    dict_get k (modules (config st)) = Some m ->
    body a st = (r, st') ->
    (exists ds, scanned k m ds st st')
    /\ (r = Ret tt
        \/ exists dir, r = Raise (FileNotFoundError (os_path_join dir "RELEASE"))).

(** The discovery and the end of [clone_single_module] (lines 88 to 103 of
    clone.py), run after the git commands. *)
Definition discover_dependencies (env : Env) (k : string) (module_abs_path : string)
  : M bool :=
  bind (get_module_configure_dirs env module_abs_path)
       (fun configure_dirs =>
          bind (for_each
                  (fun d => for_each (scan_configure_file env k (fst d)) (snd d))
                  configure_dirs)
               (fun _ => bind (update_module k (set_cloned 1)) (fun _ => ret true))).

(** ** Effects of a build *)

(** The effects a build may perform: everything but writing the
    configuration document and listing a remote. *)
Definition build_effect (e : event) : Prop :=
  match e with
  | WriteJson _ _ | LsRemote _ => False
  | _ => True
  end.

Definition is_write_json (e : event) : bool :=
  match e with
  | WriteJson _ _ => true
  | _ => false
  end.

(** [l1] is [l2] with some of its items left out: the items of [l1] are
    items of [l2], in the same order, each position of [l2] used at most
    once. *)
Inductive subsequence {A : Type} : list A -> list A -> Prop :=
| subsequence_nil : subsequence [] []
| subsequence_skip (x : A) (l1 l2 : list A) :
    subsequence l1 l2 -> subsequence l1 (x :: l2)
| subsequence_take (x : A) (l1 l2 : list A) :
    subsequence l1 l2 -> subsequence (x :: l1) (x :: l2).

(** [names] are the names that the modules under the keys [ks] have in
    [st], key by key. *)
Definition names_of_keys (st : state) (ks names : list string) : Prop :=
  Forall2 (fun k n => exists m, dict_get k (modules (config st)) = Some m
                                /\ name m = n)
          ks names.

(** How many times the configuration document was written in [evs]. *)
Definition count_saves (evs : list event) : nat :=
  List.length (List.filter is_write_json evs).

(** The file [p] holds the configuration as it is in memory. *)
Definition in_sync (p : string) (st : state) : Prop :=
  written_document p (history st) = Some (configuration_document (config st)).

(** ** Version resolver: the order on numeric components *)

(** [a] comes before [b] in the lexicographic order on lists of integers,
    where a proper prefix comes before the longer list. *)
Fixpoint lex_ltb (a b : list Z) : bool :=
  match b with
  | [] => false
  | y :: b' =>
      match a with
      | [] => true
      | x :: a' =>
          if x <? y then true else if y <? x then false else lex_ltb a' b'
      end
  end.

(** The state after [module.version = best_tag] and the clearing of the
    three flags of the module [k], which was [m]. *)
Definition updated_to (best_tag : string) (k : string) (m : InstallModule)
           (st : state) : state :=
  mkState
    (set_modules
       (dict_set k
          (set_installed 0 (set_built 0 (set_cloned 0 (set_version best_tag m))))
          (modules (config st)))
       (config st))
    (history st).

(** Line 228 of data_model.py: the tags of the module are looked up on its
    remote. *)
Definition looked_up (m : InstallModule) : bool :=
  negb (str_in (version m) ["master"; "main"])
  && negb (str_in (name m) UPDATE_TAGS_BLACKLIST).

(** The command of line 229. *)
Definition ls_remote_tags (m : InstallModule) : event :=
  LsRemote ["git"; "ls-remote"; "--tags"; url m].

(** The modules [ms] asked for their tags in order, from the history [h]
    on, up to and including the first one whose remote lists a tag: the
    history reached, and the key of that module when there is one. *)
Fixpoint tag_listings (env : Env) (ms : dict InstallModule) (h : list event)
  : list event * option string :=
  match ms with
  | [] => (h, None)
  | (k, m) :: ms' =>
      if looked_up m then
        match stdout_lines env (h ++ [ls_remote_tags m]) with
        | [] => tag_listings env ms' (h ++ [ls_remote_tags m])
        | _ :: _ => (h ++ [ls_remote_tags m], Some k)
        end
      else tag_listings env ms' h
  end.

(** The module [k] exists and its [cloned] flag is true. *)
Definition is_cloned (k : string) (st : state) : Prop :=
  exists m, dict_get k (modules (config st)) = Some m /\ cloned m <> 0.


(** ** Configuration store *)

(** The three flags hold Python booleans, as [clone_single_module],
    [build_single_module] and [clear_clone_and_build_state] assign them. *)
Definition boolean_flags (m : InstallModule) : Prop :=
  (cloned m = 0 \/ cloned m = 1)
  /\ (built m = 0 \/ built m = 1)
  /\ (installed m = 0 \/ installed m = 1).

(** What [InstallModule.__init__] establishes for the module under the key
    [k]: the flags hold the masked bits of STATE, not booleans. *)
Record loaded_module (k : string) (m : InstallModule) : Prop := mkLoadedModule {
  loaded_name : name m = k;
  loaded_dir_name : module_dir_name m = PyStr.last_item (PyStr.split "/" (url m));
  loaded_cloned : cloned m = 0 \/ cloned m = 1;
  loaded_built : built m = 0 \/ built m = 2;
  loaded_installed : installed m = 0 \/ installed m = 4;
  loaded_dependencies : dependencies m = []
}.

(** The module [m'] that a reload yields for the module [m] saved under
    the key [k]. *)
Record reloaded_from (k : string) (m m' : InstallModule) : Prop := mkReloadedFrom {
  reloaded_name : name m' = k;
  reloaded_version : version m' = version m;
  reloaded_url : url m' = url m;
  reloaded_build_cmd : build_cmd m' = build_cmd m;
  reloaded_recursive : recursive_clone m' = recursive_clone m;
  reloaded_dependencies : dependencies m' = [];
  reloaded_flags :
    boolean_flags m ->
    cloned m' = cloned m /\ built m' = 2 * built m /\ installed m' = 4 * installed m
}.

(** ** Strings *)

(** No character of [s] is a digit. *)
Fixpoint no_digits (s : string) : bool :=
  match s with
  | EmptyString => true
  | String a s' => negb (PyStr.is_digit a) && no_digits s'
  end.

(** * Example configurations and environments *)

Module Examples.

Definition tab : string := String (ascii_of_nat 9) EmptyString.

(** A line of [git ls-remote --tags] for a tag. *)
Definition tag_line (tag : string) : string :=
  ("0123456789abcdef" ++ tab ++ "refs/tags/" ++ tag)%string.

(** An environment in which every process succeeds, and nothing exists. *)
Definition quiet_env : Env :=
  {| returncode := fun _ => 0;
     stdout_lines := fun _ => [];
     path_exists := fun _ _ => false;
     os_walk := fun _ _ => [];
     readlines := fun _ _ => None |}.

(** As [quiet_env], with a remote that lists the given tags. *)
Definition remote_env (tags : list string) : Env :=
  {| returncode := fun _ => 0;
     stdout_lines := fun _ => List.map tag_line tags;
     path_exists := fun _ _ => false;
     os_walk := fun _ _ => [];
     readlines := fun _ _ => None |}.

(** Every git command succeeds, every build command exits with 2. *)
Definition failing_build_env : Env :=
  {| returncode :=
       fun h => match List.last h (Rmtree EmptyString) with
                | Build _ _ => 2
                | _ => 0
                end;
     stdout_lines := fun _ => [];
     path_exists := fun _ _ => false;
     os_walk := fun _ _ => [];
     readlines := fun _ _ => None |}.

(** Every process exits with 1. *)
Definition failing_env : Env :=
  {| returncode := fun _ => 1;
     stdout_lines := fun _ => [];
     path_exists := fun _ _ => false;
     os_walk := fun _ _ => [];
     readlines := fun _ _ => None |}.

(** A module without build command override, its three flags set to
    [flags]. *)
Definition module_of (module_name module_url module_version : string)
           (flags : Z) (deps : list string) : InstallModule :=
  {| name := module_name;
     version := module_version;
     url := module_url;
     module_dir_name := PyStr.last_item (PyStr.split "/" module_url);
     cloned := flags; built := flags; installed := flags;
     build_cmd := None;
     recursive_clone := false;
     dependencies := deps |}.

(** A module that is cloned, with the dependencies found then, and not
    built. *)
Definition cloned_module_of (module_name module_url module_version : string)
           (deps : list string) : InstallModule :=
  set_installed 0 (set_built 0 (module_of module_name module_url module_version 1 deps)).

(** A configuration loaded from [/epics/install_config.json] that holds the
    modules [ms], each under its name. *)
Definition configuration_of (ms : list InstallModule) : InstallConfiguration :=
  {| config_file_path := Some "/epics/install_config.json";
     install_location := "/epics/install";
     build_location := "/epics/build";
     modules := List.map (fun m => (name m, m)) ms;
     build_options := [("STATIC_BUILD", "YES")] |}.

(** The configuration of [ms] before any effect. *)
Definition start (ms : list InstallModule) : state :=
  mkState (configuration_of ms) [].

Definition asyn_url : string := "https://github.com/epics-modules/asyn".
Definition base_url : string := "https://github.com/epics-base/epics-base".
Definition calc_url : string := "https://github.com/epics-modules/calc".
Definition busy_url : string := "https://github.com/epics-modules/busy".
Definition sncseq_url : string := "https://github.com/mdavidsaver/sequencer-mirror".

(** ASYN at version R3-7-1, cloned, built and installed. *)
Definition asyn_R3_7_1 : state := start [module_of "ASYN" asyn_url "R3-7-1" 1 []].

(** A is EPICS_BASE, B is ASYN, which lists EPICS_BASE in its dependencies,
    C is BUSY, unrelated; all three cloned, built and installed. *)
Definition base_asyn_busy : state :=
  start [module_of "EPICS_BASE" base_url "R7.0.5" 1 [];
         module_of "ASYN" asyn_url "R4-41" 1 ["EPICS_BASE"];
         module_of "BUSY" busy_url "R1-7-3" 1 []].

Definition flags_of (k : string) (st : state) : option (Z * Z * Z) :=
  option_map (fun m => (cloned m, built m, installed m))
             (dict_get k (modules (config st))).

Definition config_path : string := "/epics/install_config.json".

(** EPICS_BASE and ASYN, both cloned, built and installed (flags [True]);
    ASYN has the discovered dependency EPICS_BASE. *)
Definition built_pair : state :=
  start [module_of "EPICS_BASE" base_url "R7.0.5" 1 [];
         module_of "ASYN" asyn_url "R4-41" 1 ["EPICS_BASE"]].

(** [built_pair] saved and loaded again. *)
Definition reloaded_pair : option InstallConfiguration :=
  reload config_path (history (snd (save quiet_env None true built_pair))).

(** [reloaded_pair] saved and loaded again. *)
Definition reloaded_twice : option InstallConfiguration :=
  match reloaded_pair with
  | Some cfg =>
      reload config_path (history (snd (save quiet_env None true (mkState cfg []))))
  | None => None
  end.

Definition module_field {A : Type} (f : InstallModule -> A) (k : string)
           (cfg : option InstallConfiguration) : option A :=
  match cfg with
  | Some c => option_map f (dict_get k (modules c))
  | None => None
  end.

(** ASYN alone, neither cloned nor built. *)
Definition fresh_asyn : state := start [module_of "ASYN" asyn_url "R4-41" 0 []].

(** A RELEASE file as the modules of synApps have it. *)
Definition release_lines : list string :=
  [("# RELEASE - locations of the modules" ++ nl)%string;
   ("SUPPORT=/epics/build" ++ nl)%string;
   ("  #IPAC=$(SUPPORT)/ipac" ++ nl)%string;
   ("SNCSEQ = $(SUPPORT)/sequencer-mirror" ++ nl)%string;
   ("ASYN=$(SUPPORT)/asyn" ++ nl)%string;
   ("EPICS_BASE=$(SUPPORT)/epics-base" ++ nl)%string].

(** A module tree with two configure directories (the module's own and the
    one of an example IOC), each with a RELEASE file. *)
Definition two_configure_env : Env :=
  {| returncode := fun _ => 0;
     stdout_lines := fun _ => [];
     path_exists := fun _ _ => false;
     os_walk :=
       fun _ top =>
         [(top, ["Makefile"]);
          (os_path_join top "configure", ["CONFIG"; "RELEASE"]);
          (os_path_join top "asynApp", []);
          (os_path_join top "iocBoot/configure", ["RELEASE"])];
     readlines := fun _ _ => Some release_lines |}.

Definition uncloned_asyn : InstallModule := module_of "ASYN" asyn_url "R4-41" 0 [].

Definition cloned_asyn : state :=
  snd (clone_single_module two_configure_env "/epics/build" "ASYN" (start [uncloned_asyn])).

Definition base_built : InstallModule := module_of "EPICS_BASE" base_url "R7.0.5" 1 [].

Definition sncseq : InstallModule := cloned_module_of "SNCSEQ" sncseq_url "R2-2-9" [].

Definition asyn_with_dependencies : InstallModule :=
  cloned_module_of "ASYN" asyn_url "R4-41" ["EPICS_BASE"; "SNCSEQ"].

(** EPICS_BASE is built; SNCSEQ and ASYN are cloned; ASYN depends on both. *)
Definition three_modules : state := start [asyn_with_dependencies; base_built; sncseq].

(** The state after the failed build of SNCSEQ. *)
Definition sncseq_failed : state :=
  snd (build_single_module failing_build_env 2 0 "SNCSEQ" three_modules).

(** EPICS_BASE is built, ASYN is cloned; the RELEASE file of ASYN named
    SNCSEQ, which the configuration does not hold. *)
Definition without_sncseq : state := start [asyn_with_dependencies; base_built].

(** EPICS_BASE is cloned and not built, and its build fails. *)
Definition base_unbuilt : state :=
  start [asyn_with_dependencies; cloned_module_of "EPICS_BASE" base_url "R7.0.5" []].

(** A module tree whose configure directory holds [RELEASE.local] and no
    file [RELEASE]. *)
Definition release_local_env : Env :=
  {| returncode := fun _ => 0;
     stdout_lines := fun _ => [];
     path_exists := fun _ _ => true;
     os_walk := fun _ top => [(os_path_join top "configure", ["RELEASE.local"])];
     readlines := fun _ _ => None |}.

(** The state after the attempt to clone ASYN there. *)
Definition asyn_release_local : state :=
  snd (clone_single_module release_local_env "/epics/build" "ASYN" fresh_asyn).

(** The state and the result of building ASYN in [three_modules], where
    every process succeeds. *)
Definition asyn_built : state :=
  snd (build_single_module quiet_env 3 0 "ASYN" three_modules).

(** A whole run over [three_modules] in which every build command fails. *)
Definition all_failed : state :=
  snd (build_all failing_build_env 3 0 three_modules).

(** The settings file names the environment at [config_path], after a
    comment line. *)
Definition settings_env : Env :=
  {| returncode := fun _ => 0;
     stdout_lines := fun _ => [];
     path_exists := fun _ _ => true;
     os_walk := fun _ _ => [];
     readlines :=
       fun _ _ => Some [("# epicsenv settings" ++ nl)%string;
                        active_env_line config_path] |}.

(** A directory stands at every path, every process succeeds, and the
    module tree has no configure directory. *)
Definition stale_directory_env : Env :=
  {| returncode := fun _ => 0;
     stdout_lines := fun _ => [];
     path_exists := fun _ _ => true;
     os_walk := fun _ _ => [];
     readlines := fun _ _ => None |}.

End Examples.

(** * Properties *)

Import Examples.

(** ** The string functions on examples *)

Example split_url :
  PyStr.split "/" "https://github.com/epics-modules/asyn"
  = ["https:"; EmptyString; "github.com"; "epics-modules"; "asyn"].
Proof. reflexivity. Qed.

Example numbers_R3_7_1 : PyStr.version_numbers "R3-7-1" = [3; 7; 1].
Proof. reflexivity. Qed.

Example re_split_R3 :
  PyStr.re_split_nondigits "R3-7.x" = [EmptyString; "3"; "7"; EmptyString].
Proof. reflexivity. Qed.

Example sub_comment :
  PyStr.re_sub_comment ("  # ASYN=/x" ++ nl)%string = EmptyString
  /\ PyStr.re_sub_comment ("ASYN=/x # y" ++ nl)%string
     = ("ASYN=/x # y" ++ nl)%string.
Proof. split; reflexivity. Qed.

Example sub_comment_lines :
  PyStr.re_sub_comment ("a" ++ nl ++ " #b" ++ nl ++ "c" ++ nl ++ "#d")%string
  = ("a" ++ nl ++ "c" ++ nl)%string
  /\ PyStr.re_sub_comment (Examples.tab ++ "#IPAC=/x" ++ nl)%string
     = (Examples.tab ++ "#IPAC=/x" ++ nl)%string.
Proof. split; reflexivity. Qed.

Example re_split_edges :
  PyStr.re_split_nondigits "3-" = ["3"; EmptyString]
  /\ PyStr.re_split_nondigits "abc" = [EmptyString; EmptyString]
  /\ PyStr.re_split_nondigits EmptyString = [EmptyString].
Proof. repeat split; reflexivity. Qed.

Example strip_key : PyStr.strip ("  ASYN " ++ nl)%string = "ASYN".
Proof. reflexivity. Qed.

Example release_key_lines :
  release_key ("SNCSEQ = $(SUPPORT)/seq" ++ nl)%string = Some "SNCSEQ"
  /\ release_key ("  # SNCSEQ = $(SUPPORT)/seq" ++ nl)%string = None
  /\ release_key ("-include $(TOP)/configure/RELEASE.local" ++ nl)%string = None.
Proof. repeat split; reflexivity. Qed.

Example paths :
  os_path_join "/epics/build" "asyn" = "/epics/build/asyn"
  /\ os_path_join "/epics/build/" "asyn" = "/epics/build/asyn"
  /\ os_path_join "/epics/build" "/abs" = "/abs"
  /\ os_path_basename "/epics/build/asyn/configure" = "configure"
  /\ module_abs_path_of "/epics/build"
       (Examples.module_of "ASYN" "https://github.com/epics-modules/asyn.git"
          "R4-41" 0 [])
     = "/epics/build/asyn".
Proof. repeat split; reflexivity. Qed.

Example build_commands :
  build_command (Examples.module_of "ASYN" Examples.asyn_url "R4-41" 0 [])
    "/epics/build/asyn" 0 = ["make"; "-C"; "/epics/build/asyn"; "-sj"]
  /\ build_command (Examples.module_of "ASYN" Examples.asyn_url "R4-41" 0 [])
       "/epics/build/asyn" 4 = ["make"; "-C"; "/epics/build/asyn"; "-sj4"].
Proof. split; reflexivity. Qed.

Example str_12 : PyStr.str_of_int 12 = "12" /\ PyStr.str_of_int (-3) = "-3".
Proof. split; reflexivity. Qed.

(** ** Basic facts about the store and the computations *)

Lemma dict_get_set_same {V : Type} (k : string) (v : V) (d : dict V) :
  dict_get k (dict_set k v d) = Some v.
Proof.
  induction d as [|[k' v'] d IH]; simpl.
  - now rewrite String.eqb_refl.
  - destruct (String.eqb k k') eqn:E; simpl; rewrite E; auto.
Qed.

Lemma dict_get_set_other {V : Type} (k k' : string) (v : V) (d : dict V) :
  k' <> k -> dict_get k' (dict_set k v d) = dict_get k' d.
Proof.
  intros Hne. induction d as [|[k0 v0] d IH]; simpl.
  - destruct (String.eqb k' k) eqn:E; auto.
    apply String.eqb_eq in E. contradiction.
  - destruct (String.eqb k k0) eqn:E; simpl.
    + apply String.eqb_eq in E. subst k0.
      destruct (String.eqb k' k) eqn:E'; auto.
      apply String.eqb_eq in E'. contradiction.
    + destruct (String.eqb k' k0); auto.
Qed.

Lemma dict_keys_set {V : Type} (k : string) (v : V) (d : dict V) :
  dict_get k d <> None -> dict_keys (dict_set k v d) = dict_keys d.
Proof.
  unfold dict_keys.
  induction d as [|[k0 v0] d IH]; simpl.
  - congruence.
  - destruct (String.eqb k k0) eqn:E; simpl; intros H; auto.
    now rewrite IH.
Qed.

Lemma dict_set_set {V : Type} (k : string) (v v' : V) (d : dict V) :
  dict_set k v (dict_set k v' d) = dict_set k v d.
Proof.
  induction d as [|[k0 v0] d IH]; simpl.
  - now rewrite String.eqb_refl.
  - destruct (String.eqb k k0) eqn:E; simpl; rewrite E; congruence.
Qed.

Lemma dict_get_keys {V : Type} (k : string) (d : dict V) :
  In k (dict_keys d) -> exists v, dict_get k d = Some v.
Proof.
  unfold dict_keys. induction d as [|[k0 v0] d IH]; simpl; intros H.
  - contradiction.
  - destruct (String.eqb k k0) eqn:E; [eauto|].
    destruct H as [H|H]; [|auto].
    subst k0. now rewrite String.eqb_refl in E.
Qed.

Lemma dict_get_None {V : Type} (k : string) (d : dict V) :
  dict_get k d = None <-> ~ In k (dict_keys d).
Proof.
  unfold dict_keys. induction d as [|[k0 v0] d IH]; simpl.
  - tauto.
  - destruct (String.eqb_spec k k0) as [->|Hne].
    + split; [discriminate|]. intros H. exfalso. apply H. now left.
    + rewrite IH. split; [|tauto]. intros H [E|E]; [congruence|tauto].
Qed.

Lemma dict_set_fresh {V : Type} (k : string) (v : V) (d : dict V) :
  ~ In k (dict_keys d) -> dict_set k v d = d ++ [(k, v)].
Proof.
  unfold dict_keys. induction d as [|[k0 v0] d IH]; simpl; intros H; auto.
  destruct (String.eqb_spec k k0) as [->|Hne]; [tauto|].
  rewrite IH; tauto.
Qed.

Lemma truthy_true (z : Z) : truthy z = true <-> z <> 0.
Proof.
  unfold truthy. destruct (Z.eqb_spec z 0); simpl; split; intros; congruence.
Qed.

Lemma truthy_false (z : Z) : truthy z = false <-> z = 0.
Proof.
  unfold truthy. destruct (Z.eqb_spec z 0); simpl; split; intros; congruence.
Qed.

(** A computation that returns went through both halves of a [bind]. *)
Lemma bind_Ret {A B : Type} (c : M A) (f : A -> M B) (st st' : state) (b : B) :
  bind c f st = (Ret b, st') ->
  exists a st1, c st = (Ret a, st1) /\ f a st1 = (Ret b, st').
Proof.
  unfold bind. destruct (c st) as [[a|e] st1]; intros H; [eauto|discriminate].
Qed.

Lemma for_each_skip {A : Type} (body : A -> M unit) (l : list A) (st : state) :
  (forall a, In a l -> body a st = (Ret tt, st)) ->
  for_each body l st = (Ret tt, st).
Proof.
  induction l as [|a l IH]; simpl; intros H; [reflexivity|].
  unfold bind. rewrite H by auto. apply IH. auto.
Qed.

(** A write to the module object [k] that keeps [built] set if it was. *)
Lemma update_module_effect (k : string) (g : InstallModule -> InstallModule)
      (st : state) (m : InstallModule) :
  dict_get k (modules (config st)) = Some m ->
  exists st',
    update_module k g st = (Ret tt, st')
    /\ dict_get k (modules (config st')) = Some (g m)
    /\ (forall f, f <> k ->
          dict_get f (modules (config st')) = dict_get f (modules (config st)))
    /\ dict_keys (modules (config st')) = dict_keys (modules (config st))
    /\ history st' = history st.
Proof.
  intros H. unfold update_module. rewrite H. eexists. split; [reflexivity|].
  simpl. repeat split.
  - apply dict_get_set_same.
  - intros f Hf. now apply dict_get_set_other.
  - apply dict_keys_set. congruence.
Qed.

(** ** Clone engine: idempotence *)

Lemma clone_single_module_cloned (env : Env) (build_loc k : string) (st : state)
      (m : InstallModule) :
  dict_get k (modules (config st)) = Some m ->
  cloned m <> 0 ->
  clone_single_module env build_loc k st = (Ret true, st).
Proof.
  intros Hget Hcl. unfold clone_single_module, bind, get_module. rewrite Hget.
  apply truthy_true in Hcl. now rewrite Hcl.
Qed.

(** C6. For a module whose [cloned] flag is true, [clone_single_module]
    returns success and leaves the configuration and the outside world as
    they were (no effect is performed, in particular none on the file
    system); so two calls in a row return success both times and change
    nothing. *)
Theorem clone_single_module_idempotent
        (env : Env) (build_loc k : string) (st : state) (m : InstallModule) :
  dict_get k (modules (config st)) = Some m ->
  cloned m <> 0 ->
  clone_single_module env build_loc k st = (Ret true, st)
  /\ bind (clone_single_module env build_loc k)
          (fun first =>
             bind (clone_single_module env build_loc k)
                  (fun second => ret (first, second))) st
     = (Ret (true, true), st).
Proof.
  intros Hget Hcl.
  pose proof (clone_single_module_cloned env build_loc k st m Hget Hcl) as H1.
  split; [exact H1|].
  unfold bind at 1. rewrite H1. unfold bind. now rewrite H1.
Qed.

Lemma clone_single_module_idempotent_witness :
  let st := Examples.start [Examples.module_of "ASYN" Examples.asyn_url "R4-41" 1 []] in
  clone_single_module Examples.quiet_env "/epics/build" "ASYN" st = (Ret true, st)
  /\ bind (clone_single_module Examples.quiet_env "/epics/build" "ASYN")
          (fun first =>
             bind (clone_single_module Examples.quiet_env "/epics/build" "ASYN")
                  (fun second => ret (first, second))) st
     = (Ret (true, true), st).
Proof.
  apply (clone_single_module_idempotent Examples.quiet_env "/epics/build" "ASYN"
           (Examples.start [Examples.module_of "ASYN" Examples.asyn_url "R4-41" 1 []])
           (Examples.module_of "ASYN" Examples.asyn_url "R4-41" 1 [])).
  - reflexivity.
  - simpl. lia.
Defined.

(** ** Version resolver *)

(** C8. A module pinned to [master] or [main], or named in the blacklist
    (SSCAN, CALC, STREAM), is left alone by [auto_update_module_tag]: the
    whole configuration (this module's version and flags, and every other
    module) is unchanged, and no process is started. *)
Theorem auto_update_module_tag_noop
        (env : Env) (depth : nat) (k : string) (st : state) (m : InstallModule) :
  dict_get k (modules (config st)) = Some m ->
  version m = "master" \/ version m = "main"
  \/ name m = "SSCAN" \/ name m = "CALC" \/ name m = "STREAM" ->
  auto_update_module_tag env depth k st = (Ret tt, st).
Proof.
  intros Hget Hcase.
  unfold auto_update_module_tag, bind, get_module. rewrite Hget.
  destruct Hcase as [H|[H|[H|[H|H]]]]; rewrite H; simpl;
    rewrite ?andb_false_r; try reflexivity.
  all: destruct (str_in (version m) ["master"; "main"]); reflexivity.
Qed.

Lemma auto_update_module_tag_noop_witness :
  let st := Examples.start [Examples.module_of "CALC" Examples.calc_url "R3-7-3" 1 []] in
  auto_update_module_tag (Examples.remote_env ["R3-7-4"; "R5-1"]) 100 "CALC" st
  = (Ret tt, st).
Proof.
  apply (auto_update_module_tag_noop (Examples.remote_env ["R3-7-4"; "R5-1"]) 100 "CALC"
           (Examples.start [Examples.module_of "CALC" Examples.calc_url "R3-7-3" 1 []])
           (Examples.module_of "CALC" Examples.calc_url "R3-7-3" 1 [])).
  - reflexivity.
  - right. right. right. left. reflexivity.
Defined.

(** A module object is never found in a list of names. *)
Lemma py_in_module_names (r : string) (l : list string) :
  py_in (PyModule r) (List.map PyStrV l) = false.
Proof. induction l; simpl; auto. Qed.

(** Whatever the dependency lists are, [clear_clone_and_build_state] resets
    the flags of its argument and of no other module: the test
    [modified_module in module.dependencies] looks for a module object among
    names and never holds. *)
Lemma clear_clone_and_build_state_resets_argument_only
      (depth : nat) (k : string) (st : state) (m : InstallModule) :
  dict_get k (modules (config st)) = Some m ->
  clear_clone_and_build_state (S depth) k st = (Ret tt, flags_cleared k m st).
Proof.
  intros Hget. simpl.
  unfold bind at 1. unfold update_module at 1. rewrite Hget.
  unfold bind at 1. unfold update_module at 1. simpl.
  rewrite dict_get_set_same.
  unfold bind at 1. unfold update_module at 1. simpl.
  rewrite dict_get_set_same.
  unfold bind at 1. unfold get_config at 1. simpl.
  rewrite !dict_set_set.
  change (mkState _ _) with (flags_cleared k m st).
  apply for_each_skip. intros k' Hin.
  unfold bind, get_module.
  destruct (dict_get_keys k' _ Hin) as [m' Hm']. simpl in Hm'.
  change (modules (config (flags_cleared k m st)))
    with (dict_set k (set_installed 0 (set_built 0 (set_cloned 0 m)))
                   (modules (config st))).
  rewrite Hm'. now rewrite py_in_module_names.
Qed.

(** With at least one line of output from [git ls-remote], the scan stops in
    its first iteration: [best_tag_version_numbers] is read at line 268
    before any assignment to it. *)
Lemma scan_tags_first_iteration
      (depth : nat) (k : string) (st : state) (m : InstallModule)
      (tag_info : string) (lines : list string) :
  dict_get k (modules (config st)) = Some m ->
  scan_tags depth k (tag_info :: lines) None None st
  = (Raise (UnboundLocalError "best_tag_version_numbers"), st).
Proof.
  intros Hget. simpl. unfold bind, get_module. now rewrite Hget.
Qed.

(** No call of [auto_update_module_tag] changes the configuration. *)
Lemma auto_update_module_tag_keeps_configuration
      (env : Env) (depth : nat) (k : string) (st : state) :
  config (snd (auto_update_module_tag env depth k st)) = config st.
Proof.
  unfold auto_update_module_tag, bind, get_module.
  destruct (dict_get k (modules (config st))) as [m|] eqn:Hget; [|reflexivity].
  destruct (negb (str_in (version m) ["master"; "main"])
            && negb (str_in (name m) UPDATE_TAGS_BLACKLIST)); [|reflexivity].
  unfold popen_communicate, bind, emit. simpl.
  destruct (stdout_lines env _) as [|tag_info lines]; [reflexivity|].
  rewrite scan_tags_first_iteration with (m := m); [reflexivity|exact Hget].
Qed.

(** The selection loop alone, on the tags of the spec's example, in order:
    [R3-7-2] displaces [R3-7-1] and is kept against [3-8-0]. *)
Example select_best_tag_R3_7_2 :
  select_best_tag 3 0 "R3-7-1" "R3-7-2" [3; 7; 1] [3; 7; 2] = ("R3-7-2", [3; 7; 2])
  /\ select_best_tag 3 0 "R3-7-2" "3-8-0" [3; 7; 2] [3; 8; 0] = ("R3-7-2", [3; 7; 2]).
Proof. split; reflexivity. Qed.

(** C3. With the remote tags R3-7-1, R3-7-2, 3-8-0 and ASYN at R3-7-1 the
    call does not set the version to R3-7-2: it raises [UnboundLocalError]
    on the first tag, after the [git ls-remote], and the module keeps
    version R3-7-1 and its flags. *)
Theorem auto_update_tag_selection_raises :
  auto_update_module_tag (remote_env ["R3-7-1"; "R3-7-2"; "3-8-0"]) 100 "ASYN"
    asyn_R3_7_1
  = (Raise (UnboundLocalError "best_tag_version_numbers"),
     mkState (config asyn_R3_7_1)
       [LsRemote ["git"; "ls-remote"; "--tags"; asyn_url]])
  /\ option_map version (dict_get "ASYN" (modules (config asyn_R3_7_1)))
     = Some "R3-7-1".
Proof. split; reflexivity. Qed.

(** C10. With two remote tags that are both newer than the module's version
    (R3-7-2, then R3-7-3, for ASYN at R3-7-1) the version is not reassigned
    even once: the update decision of the first iteration raises
    [UnboundLocalError], no later tag is looked at, and the version stays
    R3-7-1. *)
Theorem auto_update_never_reassigns :
  let result :=
    auto_update_module_tag (remote_env ["R3-7-2"; "R3-7-3"]) 100 "ASYN" asyn_R3_7_1 in
  fst result = Raise (UnboundLocalError "best_tag_version_numbers")
  /\ config (snd result) = config asyn_R3_7_1
  /\ option_map version (dict_get "ASYN" (modules (config (snd result))))
     = Some "R3-7-1".
Proof. repeat split; reflexivity. Qed.

(** C1. The cascade does not reach a dependent. Clearing the state of
    EPICS_BASE resets the flags of EPICS_BASE and leaves those of ASYN, whose
    dependencies hold the name EPICS_BASE, as they were; and
    [auto_update_module_tag] on EPICS_BASE with a newer remote tag R7.0.6
    raises before it updates or resets anything. *)
Theorem cascade_misses_dependents :
  let cleared := snd (clear_clone_and_build_state 100 "EPICS_BASE" base_asyn_busy) in
  let updated := auto_update_module_tag (remote_env ["R7.0.6"]) 100 "EPICS_BASE"
                   base_asyn_busy in
  flags_of "EPICS_BASE" cleared = Some (0, 0, 0)
  /\ flags_of "ASYN" cleared = Some (1, 1, 1)
  /\ flags_of "BUSY" cleared = Some (1, 1, 1)
  /\ fst updated = Raise (UnboundLocalError "best_tag_version_numbers")
  /\ config (snd updated) = config base_asyn_busy.
Proof. repeat split; reflexivity. Qed.

(** ** Configuration store: save and reload *)

(** What [InstallModule.__init__] makes of [as_dict]: name, version, URL,
    build command and recursion flag come back; the flags come back masked;
    the dependencies do not come back. *)
Lemma InstallModule_init_as_dict (k : string) (m : InstallModule) :
  InstallModule_init k (as_dict m)
  = {| name := k;
       version := version m;
       url := url m;
       module_dir_name := PyStr.last_item (PyStr.split "/" (url m));
       cloned := Z.land (1 * cloned m + 2 * built m + 4 * installed m) 1;
       built := Z.land (1 * cloned m + 2 * built m + 4 * installed m) 2;
       installed := Z.land (1 * cloned m + 2 * built m + 4 * installed m) 4;
       build_cmd := build_cmd m;
       recursive_clone := recursive_clone m;
       dependencies := [] |}.
Proof.
  unfold InstallModule_init, as_dict. simpl.
  destruct (recursive_clone m); reflexivity.
Qed.

Lemma save_to_own_path (env : Env) (st : state) (p : string) :
  config_file_path (config st) = Some p ->
  save env None true st = (Ret tt, saved env p st).
Proof.
  intros Hp. unfold save, bind, get_config. rewrite Hp.
  unfold os_path_exists, saved. simpl.
  destruct (path_exists env (history st) p); simpl.
  - unfold emit. simpl. now rewrite <- app_assoc.
  - reflexivity.
Qed.

Lemma written_document_app (p : string) (h : list event) (e : event) :
  written_document p (h ++ [e])
  = match e with
    | WriteJson q doc => if String.eqb q p then Some doc else written_document p h
    | Remove q => if String.eqb q p then None else written_document p h
    | _ => written_document p h
    end.
Proof.
  unfold written_document. rewrite List.fold_left_app. simpl.
  destruct e; reflexivity.
Qed.

Lemma fold_dict_set_fresh {A B : Type} (f : string -> A -> B) (l : dict A) :
  forall acc : dict B,
    NoDup (dict_keys acc ++ dict_keys l) ->
    List.fold_left (fun ms e => dict_set (fst e) (f (fst e) (snd e)) ms) l acc
    = acc ++ List.map (fun e => (fst e, f (fst e) (snd e))) l.
Proof.
  unfold dict_keys.
  induction l as [|[k a] l IH]; simpl; intros acc H.
  - now rewrite app_nil_r.
  - assert (Hk : ~ In k (List.map fst acc)).
    { apply NoDup_remove_2 in H. intros Hin. apply H. apply in_or_app. now left. }
    rewrite (dict_set_fresh k _ acc Hk), IH.
    + now rewrite <- app_assoc.
    + rewrite List.map_app, <- app_assoc. exact H.
Qed.

(** Reloading what [save] wrote: every module comes back under its key, made
    by [InstallModule.__init__] from its [as_dict]. *)
Lemma reload_after_save (env : Env) (st : state) (p : string) :
  config_file_path (config st) = Some p ->
  NoDup (dict_keys (modules (config st))) ->
  exists cfg',
    reload p (history (snd (save env None true st))) = Some cfg'
    /\ modules cfg' = reloaded_modules (modules (config st))
    /\ build_location cfg' = build_location (config st)
    /\ install_location cfg' = install_location (config st)
    /\ build_options cfg' = build_options (config st).
Proof.
  intros Hp Hnd. rewrite (save_to_own_path env st p Hp).
  unfold reload, saved. simpl. rewrite app_assoc, written_document_app.
  rewrite String.eqb_refl. simpl. eexists. split; [reflexivity|].
  simpl. repeat split.
  rewrite (fold_dict_set_fresh (fun _ m => as_dict m) (modules (config st)) []) by exact Hnd.
  simpl.
  rewrite (fold_dict_set_fresh InstallModule_init).
  - simpl. unfold reloaded_modules. rewrite List.map_map. reflexivity.
  - simpl. unfold dict_keys in *. rewrite List.map_map. exact Hnd.
Qed.

(** C2. Saving and reloading loses the dependency list and the lifecycle
    bitmask of ASYN: the file holds DEPS [EPICS_BASE] and STATE 7, the
    reloaded module has no dependencies, its flags are 1, 2 and 4, and the
    STATE it is saved with next is 21, from which a second reload reads
    [built] as 0. Name and version do come back. *)
Theorem round_trip_loses_dependencies_and_state :
  module_field dependencies "ASYN" (Some (config built_pair)) = Some ["EPICS_BASE"]
  /\ module_field dependencies "ASYN" reloaded_pair = Some []
  /\ module_field (fun m => STATE (as_dict m)) "ASYN" (Some (config built_pair))
     = Some (Some 7)
  /\ module_field (fun m => (cloned m, built m, installed m)) "ASYN" reloaded_pair
     = Some (1, 2, 4)
  /\ module_field (fun m => STATE (as_dict m)) "ASYN" reloaded_pair
     = Some (Some 21)
  /\ module_field (fun m => (cloned m, built m, installed m)) "ASYN" reloaded_twice
     = Some (1, 0, 4)
  /\ module_field (fun m => (name m, version m)) "ASYN" reloaded_pair
     = Some ("ASYN", "R4-41").
Proof. repeat split; reflexivity. Qed.

(** ** Build orchestrator: what [build_all] does and returns *)

(** One turn of the loop of [build_all]: whatever the build of [k] returns,
    the configuration is saved and the loop goes on with the next module;
    a failure adds the module object to the list. *)
Lemma build_all_loop_turn (env : Env) (depth : nat) (num_threads : Z)
      (k : string) (keys : list string) (failed : list pyval)
      (st st1 : state) (b : bool) (p : string) :
  build_single_module env depth num_threads k st = (Ret b, st1) ->
  config_file_path (config st1) = Some p ->
  build_all_loop env depth num_threads (k :: keys) failed st
  = build_all_loop env depth num_threads keys
      (if b then failed else failed ++ [PyModule k]) (saved env p st1).
Proof.
  intros Hrun Hp. simpl. unfold bind at 1. rewrite Hrun.
  unfold bind at 1. rewrite (save_to_own_path env st1 p Hp).
  destruct b; reflexivity.
Qed.

(** C5. When the build of ASYN fails, [build_all] returns a list that holds
    the module object, not the name ASYN; the configuration was saved after
    the attempt. [clone_and_checkout_config] returns the name in the
    same situation. *)
Theorem build_all_returns_module_objects :
  fst (build_all failing_build_env 100 0 fresh_asyn) = Ret [PyModule "ASYN"]
  /\ fst (build_all failing_build_env 100 0 fresh_asyn) <> Ret [PyStrV "ASYN"]
  /\ (exists doc,
        List.last (history (snd (build_all failing_build_env 100 0 fresh_asyn)))
                  (Rmtree EmptyString)
        = WriteJson "/epics/install_config.json" doc)
  /\ fst (clone_and_checkout_config failing_env fresh_asyn) = Ret [PyStrV "ASYN"].
Proof.
  split; [reflexivity|]. split; [discriminate|].
  split; [eexists; reflexivity|reflexivity].
Qed.

(** ** Clone engine: dependency discovery *)

Lemma add_dependencies_nil (m : InstallModule) : add_dependencies [] m = m.
Proof. destruct m. unfold add_dependencies. simpl. now rewrite app_nil_r. Qed.

Lemma add_dependencies_app (ds1 ds2 : list string) (m : InstallModule) :
  add_dependencies ds2 (add_dependencies ds1 m) = add_dependencies (ds1 ++ ds2) m.
Proof. unfold add_dependencies. simpl. now rewrite app_assoc. Qed.

Lemma append_dependency_add (d : string) (m : InstallModule) :
  append_dependency d m = add_dependencies [d] m.
Proof. reflexivity. Qed.

Lemma scanned_refl (k : string) (m : InstallModule) (st : state) :
  dict_get k (modules (config st)) = Some m -> scanned k m [] st st.
Proof. intros H. split; auto. now rewrite add_dependencies_nil. Qed.

Lemma scanned_trans (k : string) (m : InstallModule) (ds1 ds2 : list string)
      (st st1 st2 : state) :
  scanned k m ds1 st st1 ->
  scanned k (add_dependencies ds1 m) ds2 st1 st2 ->
  scanned k m (ds1 ++ ds2) st st2.
Proof.
  intros [A1 A2 A3 A4 A5] [B1 B2 B3 B4 B5]. split.
  - now rewrite B1, add_dependencies_app.
  - intros f Hf. now rewrite B2, A2.
  - congruence.
  - congruence.
  - congruence.
Qed.

Lemma update_module_scanned (k : string) (m : InstallModule) (d : string) (st : state) :
  dict_get k (modules (config st)) = Some m ->
  exists st', update_module k (append_dependency d) st = (Ret tt, st')
              /\ scanned k m [d] st st'.
Proof.
  intros H. unfold update_module. rewrite H. eexists. split; [reflexivity|].
  split; simpl; auto.
  - now rewrite dict_get_set_same.
  - intros f Hf. now apply dict_get_set_other.
  - apply dict_keys_set. congruence.
Qed.

Section Discovery.

Variable env : Env.

Lemma for_each_appends_keys {A : Type} (k : string)
      (keys_of : list event -> A -> option (list string)) (body : A -> M unit) :
  appends_keys k keys_of body ->
  appends_keys k (fun h => collect (keys_of h)) (for_each body).
Proof.
  intros Hbody l. induction l as [|a l IH]; intros st m st' Hget Hrun.
  - simpl in Hrun. inversion Hrun; subst. exists []. split; [reflexivity|].
    now apply scanned_refl.
  - simpl in Hrun. unfold bind in Hrun.
    destruct (body a st) as [[[]|e] st1] eqn:Ha; [|discriminate].
    destruct (Hbody a st m st1 Hget Ha) as (ks & Hks & Hsc).
    pose proof (scanned_module _ _ _ _ _ Hsc) as Hget1.
    destruct (IH st1 _ st' Hget1 Hrun) as (ks' & Hks' & Hsc').
    rewrite (scanned_history _ _ _ _ _ Hsc) in Hks'. simpl in Hsc'.
    exists (ks ++ ks'). split.
    + simpl. now rewrite Hks, Hks'.
    + rewrite List.filter_app. eapply scanned_trans; eauto.
Qed.

Lemma scan_release_line_appends (k : string) :
  appends_keys k (fun _ l => Some (line_keys l)) (scan_release_line k).
Proof.
  intros line st m st' Hget Hrun. exists (line_keys line). split; [reflexivity|].
  unfold scan_release_line, line_keys in *.
  destruct (release_key line) as [dep|].
  - unfold bind, get_module in Hrun. rewrite Hget in Hrun. simpl.
    destruct (is_dependency (name m) dep).
    + destruct (update_module_scanned k m dep st Hget) as (st1 & Hup & Hsc).
      rewrite Hup in Hrun. inversion Hrun; subst. exact Hsc.
    + inversion Hrun; subst. now apply scanned_refl.
  - inversion Hrun; subst. now apply scanned_refl.
Qed.

Lemma scan_configure_file_appends (k configure_dir : string) :
  appends_keys k (fun h => opened_keys env h configure_dir)
               (scan_configure_file env k configure_dir).
Proof.
  intros file st m st' Hget Hrun.
  unfold scan_configure_file, opened_keys in *.
  destruct (PyStr.startswith "RELEASE" file).
  - unfold bind, open_readlines in Hrun.
    destruct (readlines env (history st) _) as [lines|]; [|discriminate].
    exact (for_each_appends_keys k _ _ (scan_release_line_appends k)
             lines st m st' Hget Hrun).
  - inversion Hrun; subst. exists []. split; [reflexivity|].
    now apply scanned_refl.
Qed.

Lemma scan_configure_dirs_appends (k : string) :
  appends_keys k (fun h => collect (fun d => collect (opened_keys env h (fst d)) (snd d)))
    (for_each (fun d => for_each (scan_configure_file env k (fst d)) (snd d))).
Proof.
  apply (for_each_appends_keys k
           (fun h d => collect (opened_keys env h (fst d)) (snd d))).
  intros d st m st' Hget Hrun.
  exact (for_each_appends_keys k _ _ (scan_configure_file_appends k (fst d))
           (snd d) st m st' Hget Hrun).
Qed.

End Discovery.

Lemma extends_refl (P : event -> Prop) (st : state) : extends P st st.
Proof. exists []. now rewrite app_nil_r. Qed.

Lemma extends_trans (P : event -> Prop) (st1 st2 st3 : state) :
  extends P st1 st2 -> extends P st2 st3 -> extends P st1 st3.
Proof.
  intros (e1 & B & C) (e2 & B' & C'). exists (e1 ++ e2). split.
  - now rewrite B', B, app_assoc.
  - apply Forall_app; auto.
Qed.

Lemma extends_weaken (P Q : event -> Prop) (st st' : state) :
  (forall e, P e -> Q e) -> extends P st st' -> extends Q st st'.
Proof.
  intros H (evs & A & B). exists evs. split; auto.
  eapply Forall_impl; eauto.
Qed.

Lemma extends_same_history (P : event -> Prop) (st st' : state) :
  history st' = history st -> extends P st st'.
Proof. intros H. exists []. now rewrite app_nil_r. Qed.

Lemma cloning_refl st : cloning st st.
Proof. split; auto. apply extends_refl. Qed.

Lemma cloning_trans st1 st2 st3 : cloning st1 st2 -> cloning st2 st3 -> cloning st1 st3.
Proof.
  intros [A B] [A' B']. split; [congruence|]. eapply extends_trans; eauto.
Qed.

Lemma emit_cloning (e : event) st r st' :
  clone_event e -> emit e st = (r, st') -> r = Ret tt /\ cloning st st'.
Proof.
  unfold emit. intros He H. inversion H; subst. split; auto.
  split; auto. exists [e]. simpl. auto.
Qed.

Lemma popen_wait_cloning env (e : event) st r st' :
  clone_event e -> popen_wait env e st = (Ret r, st') -> cloning st st'.
Proof.
  unfold popen_wait, bind, emit. intros He H. inversion H; subst.
  split; auto. exists [e]. simpl. auto.
Qed.

(** What a call of [clone_single_module] on a module not yet cloned has done
    when it returns: on failure only effects of cloning; on success the
    effects, then the discovery, then [module.cloned = True]. *)
Lemma clone_single_module_effect (env : Env) (build_loc k : string)
      (st : state) (m : InstallModule) (b : bool) (st' : state) :
  dict_get k (modules (config st)) = Some m ->
  cloned m = 0 ->
  clone_single_module env build_loc k st = (Ret b, st') ->
  if b then
    exists ks st0 st1,
      cloning st st0
      /\ discovered_keys env (history st0) (module_abs_path_of build_loc m) = Some ks
      /\ scanned k m (List.filter (is_dependency (name m)) ks) st0 st1
      /\ update_module k (set_cloned 1) st1 = (Ret tt, st')
  else cloning st st'.
Proof.
  intros Hget Hcl Hrun.
  unfold clone_single_module in Hrun.
  unfold bind at 1 in Hrun. unfold get_module at 1 in Hrun. rewrite Hget in Hrun.
  rewrite Hcl in Hrun. simpl truthy in Hrun. cbv iota in Hrun.
  apply bind_Ret in Hrun. destruct Hrun as (ex & s1 & Hex & Hrun).
  unfold os_path_exists in Hex. inversion Hex; subst ex s1. clear Hex.
  apply bind_Ret in Hrun. destruct Hrun as ([] & s2 & Hrm & Hrun).
  assert (C2 : cloning st s2).
  { destruct (path_exists env (history st) _).
    - eapply emit_cloning; [|exact Hrm]. exact I.
    - inversion Hrm; subst. apply cloning_refl. }
  apply bind_Ret in Hrun. destruct Hrun as (r1 & s3 & Hp1 & Hrun).
  apply popen_wait_cloning in Hp1; [|exact I].
  pose proof (cloning_trans _ _ _ C2 Hp1) as C3.
  destruct (negb (r1 =? 0)).
  { inversion Hrun; subst. exact C3. }
  apply bind_Ret in Hrun. destruct Hrun as (r2 & s4 & Hp2 & Hrun).
  apply popen_wait_cloning in Hp2; [|exact I].
  pose proof (cloning_trans _ _ _ C3 Hp2) as C4.
  destruct (negb (r2 =? 0)).
  { inversion Hrun; subst. exact C4. }
  apply bind_Ret in Hrun. destruct Hrun as (r3 & s5 & Hp3 & Hrun).
  assert (C5 : cloning st s5).
  { destruct (recursive_clone m).
    - apply popen_wait_cloning in Hp3; [|exact I]. eapply cloning_trans; eauto.
    - inversion Hp3; subst. exact C4. }
  destruct (negb (r3 =? 0)).
  { inversion Hrun; subst. exact C5. }
  apply bind_Ret in Hrun. destruct Hrun as (dirs & s6 & Hd & Hrun).
  unfold get_module_configure_dirs in Hd. inversion Hd; subst dirs s6. clear Hd.
  apply bind_Ret in Hrun. destruct Hrun as ([] & s7 & Hscan & Hrun).
  apply bind_Ret in Hrun. destruct Hrun as ([] & s8 & Hup & Hrun).
  inversion Hrun; subst b s8.
  assert (Hget5 : dict_get k (modules (config s5)) = Some m).
  { destruct C5 as [E _]. now rewrite E. }
  destruct (scan_configure_dirs_appends env k _ s5 m s7 Hget5 Hscan) as (ks & Hks & Hsc).
  exists ks, s5, s7. auto.
Qed.

(** A call that follows a successful call finds the module cloned. *)
Lemma clone_single_module_second_call (env : Env) (build_loc k : string)
      (st st1 : state) :
  clone_single_module env build_loc k st = (Ret true, st1) ->
  clone_single_module env build_loc k st1 = (Ret true, st1).
Proof.
  intros Hrun.
  destruct (dict_get k (modules (config st))) as [m|] eqn:Hget.
  2:{ unfold clone_single_module, bind, get_module in Hrun.
      rewrite Hget in Hrun. discriminate. }
  destruct (Z.eq_dec (cloned m) 0) as [Hcl|Hcl].
  - destruct (clone_single_module_effect env build_loc k st m true st1 Hget Hcl Hrun)
      as (ks & s0 & s1 & _ & _ & Hsc & Hup).
    destruct (update_module_effect k (set_cloned 1) s1 _
                (scanned_module _ _ _ _ _ Hsc)) as (s2 & Hup' & Hk2 & _).
    rewrite Hup in Hup'. inversion Hup'; subst s2.
    apply (clone_single_module_cloned env build_loc k st1 _ Hk2). simpl. lia.
  - rewrite (clone_single_module_cloned env build_loc k st m Hget Hcl) in Hrun.
    inversion Hrun; subst st1.
    now apply (clone_single_module_cloned env build_loc k st m).
Qed.

Lemma str_in_In (s : string) (l : list string) : str_in s l = true <-> In s l.
Proof.
  unfold str_in. rewrite List.existsb_exists. split.
  - intros (x & Hx & E). apply String.eqb_eq in E. now subst.
  - intros H. exists s. split; auto. apply String.eqb_refl.
Qed.

Lemma is_dependency_true (module_name dep : string) :
  is_dependency module_name dep = true
  <-> ~ In dep NON_DEP_RELEASES /\ dep <> module_name /\ module_name <> "EPICS_BASE".
Proof.
  unfold is_dependency. rewrite !andb_true_iff, !negb_true_iff.
  rewrite <- !not_true_iff_false, str_in_In.
  split.
  - intros [[A B] C]. repeat split; auto.
    + intros E. apply B. subst. apply String.eqb_refl.
    + intros E. apply C. subst. reflexivity.
  - intros (A & B & C). repeat split; auto.
    + intros E. apply String.eqb_eq in E. tauto.
    + intros E. apply String.eqb_eq in E. tauto.
Qed.

Lemma is_dependency_base (ks : list string) :
  List.filter (is_dependency "EPICS_BASE") ks = [].
Proof.
  induction ks as [|d ks IH]; simpl; auto.
  unfold is_dependency at 1. simpl. now rewrite andb_false_r.
Qed.

Lemma collect_ext {A : Type} (f g : A -> option (list string)) (l : list A) :
  (forall a, In a l -> f a = g a) -> collect f l = collect g l.
Proof.
  induction l as [|a l IH]; simpl; intros H; [reflexivity|].
  rewrite (H a (or_introl eq_refl)), IH; [reflexivity|].
  intros x Hx. apply H. now right.
Qed.

(** Where the RELEASE-prefixed files are named [RELEASE], the keys read are
    the keys parsed from those files. *)
Lemma discovered_keys_parsed (env : Env) (h : list event) (module_abs_path : string) :
  release_files_named_RELEASE env h module_abs_path ->
  discovered_keys env h module_abs_path = parsed_keys env h module_abs_path.
Proof.
  intros Hnames. unfold discovered_keys, parsed_keys.
  apply collect_ext. intros d Hd. apply List.filter_In in Hd.
  destruct Hd as [Hd Hbase]. apply String.eqb_eq in Hbase.
  apply collect_ext. intros file Hfile.
  unfold opened_keys, file_keys.
  destruct (PyStr.startswith "RELEASE" file) eqn:Hpre; [|reflexivity].
  now rewrite (Hnames d file Hd Hbase Hfile Hpre).
Qed.

(** C7 (amended). When [clone_single_module] clones a module and succeeds,
    and the RELEASE-prefixed files of the configure directories are the
    files named [RELEASE], the dependencies of the module are the ones it
    had, followed by the keys parsed from those files that pass the test, in
    the order parsed and as often as parsed: a parsed key is recorded if and
    only if it is none of the seven sentinel names, is not the module's own
    name, and the module is not EPICS_BASE; so EPICS_BASE acquires no
    dependency. Nothing removes a name recorded before. *)
Theorem clone_discovers_dependencies
        (env : Env) (build_loc k : string) (st : state) (m : InstallModule)
        (st' : state) :
  dict_get k (modules (config st)) = Some m ->
  cloned m = 0 ->
  clone_single_module env build_loc k st = (Ret true, st') ->
  release_files_named_RELEASE env (history st') (module_abs_path_of build_loc m) ->
  exists (ks recorded : list string) (m' : InstallModule),
    parsed_keys env (history st') (module_abs_path_of build_loc m) = Some ks
    /\ dict_get k (modules (config st')) = Some m'
    /\ dependencies m' = dependencies m ++ recorded
    /\ recorded = List.filter (is_dependency (name m)) ks
    /\ (forall d,
          In d recorded <->
          In d ks
          /\ ~ In d ["SUPPORT"; "UTILS"; "TEMPLATE_TOP"; "TEMPLATE_CONFIG";
                     "TEMPLATE_RELEASE"; "TEMPLATE_SITE"; "TEMPLATE_CONFIG_SITE"]
          /\ d <> name m
          /\ name m <> "EPICS_BASE")
    /\ (name m = "EPICS_BASE" -> dependencies m' = dependencies m).
Proof.
  intros Hget Hcl Hrun Hnames.
  pose proof (clone_single_module_effect env build_loc k st m true st' Hget Hcl Hrun)
    as (ks & st0 & st1 & Hc & Hks & Hsc & Hup).
  unfold update_module in Hup.
  rewrite (scanned_module _ _ _ _ _ Hsc) in Hup. inversion Hup; subst st'. clear Hup.
  simpl history in Hnames. rewrite (scanned_history _ _ _ _ _ Hsc) in Hnames.
  rewrite (discovered_keys_parsed _ _ _ Hnames) in Hks.
  exists ks, (List.filter (is_dependency (name m)) ks).
  eexists. simpl. rewrite dict_get_set_same.
  rewrite (scanned_history _ _ _ _ _ Hsc).
  split; [exact Hks|]. split; [reflexivity|]. split; [reflexivity|].
  split; [reflexivity|]. split.
  - intros d. rewrite List.filter_In, is_dependency_true.
    unfold NON_DEP_RELEASES. simpl. tauto.
  - intros Hbase. simpl.
    rewrite Hbase, is_dependency_base. now rewrite app_nil_r.
Qed.

(** C7, as stated, fails: after a successful clone the dependencies of ASYN
    hold SNCSEQ and EPICS_BASE twice each, once per configure directory
    (each holds one file [RELEASE]). *)
Lemma clone_records_duplicates :
  clone_single_module two_configure_env "/epics/build" "ASYN" (start [uncloned_asyn])
  = (Ret true, cloned_asyn)
  /\ exists m',
       dict_get "ASYN" (modules (config cloned_asyn)) = Some m'
       /\ dependencies m' = ["SNCSEQ"; "EPICS_BASE"; "SNCSEQ"; "EPICS_BASE"]
       /\ ~ NoDup (dependencies m').
Proof.
  split; [reflexivity|]. eexists. split; [reflexivity|]. split; [reflexivity|].
  intros H. inversion H as [|x l Hnin _]; subst. apply Hnin. simpl. auto.
Qed.

Lemma clone_discovers_dependencies_witness :
  exists (ks recorded : list string) (m' : InstallModule),
    discovered_keys two_configure_env (history cloned_asyn)
      (module_abs_path_of "/epics/build" uncloned_asyn) = Some ks
    /\ dict_get "ASYN" (modules (config cloned_asyn)) = Some m'
    /\ dependencies m' = dependencies uncloned_asyn ++ recorded
    /\ recorded = List.filter (is_dependency (name uncloned_asyn)) ks
    /\ (forall d,
          In d recorded <->
          In d ks
          /\ ~ In d ["SUPPORT"; "UTILS"; "TEMPLATE_TOP"; "TEMPLATE_CONFIG";
                     "TEMPLATE_RELEASE"; "TEMPLATE_SITE"; "TEMPLATE_CONFIG_SITE"]
          /\ d <> name uncloned_asyn
          /\ name uncloned_asyn <> "EPICS_BASE")
    /\ (name uncloned_asyn = "EPICS_BASE" -> dependencies m' = dependencies uncloned_asyn).
Proof.
  apply (clone_discovers_dependencies two_configure_env "/epics/build" "ASYN"
           (start [uncloned_asyn]) uncloned_asyn cloned_asyn).
  - reflexivity.
  - reflexivity.
  - reflexivity.
  - intros d file Hd _ Hfile Hpre. simpl in Hd.
    destruct Hd as [<-|[<-|[<-|[<-|[]]]]]; simpl in Hfile;
      repeat (destruct Hfile as [<-|Hfile]; [first [reflexivity|discriminate]|]);
      contradiction.
Defined.

(** ** Build orchestrator: invariants of a build *)

Lemma untouched_refl fs st : untouched fs st st.
Proof. split; auto. apply extends_refl. Qed.

Lemma untouched_trans fs st1 st2 st3 :
  untouched fs st1 st2 -> untouched fs st2 st3 -> untouched fs st1 st3.
Proof.
  intros [A B] [A' B']. split.
  - intros f Hf. now rewrite A', A.
  - eapply extends_trans; eauto.
Qed.

Lemma untouched_tail f fs st st' : untouched (f :: fs) st st' -> untouched fs st st'.
Proof.
  intros [A B]. split.
  - intros g Hg. apply A. now right.
  - eapply extends_weaken; [|exact B].
    intros [] H; simpl in *; auto.
Qed.

Lemma grows_refl st : grows st st.
Proof. split; auto. Qed.

Lemma grows_trans st1 st2 st3 : grows st1 st2 -> grows st2 st3 -> grows st1 st3.
Proof. intros [A B] [A' B']. split; [congruence|auto]. Qed.

Lemma cloning_untouched fs st st' : cloning st st' -> untouched fs st st'.
Proof.
  intros [A B]. split.
  - intros f _. now rewrite A.
  - eapply extends_weaken; [|exact B]. intros [] H; simpl in *; tauto.
Qed.

Lemma cloning_grows st st' : cloning st st' -> grows st st'.
Proof.
  intros [A B]. split; [now rewrite A|].
  intros p. unfold is_built. now rewrite A.
Qed.

Lemma scanned_untouched k m ds fs st st' :
  ~ In k fs -> scanned k m ds st st' -> untouched fs st st'.
Proof.
  intros Hk Hsc. split.
  - intros f Hf. apply (scanned_others _ _ _ _ _ Hsc). intros E. now subst.
  - apply extends_same_history. apply (scanned_history _ _ _ _ _ Hsc).
Qed.

Lemma is_built_other k p st st' :
  (forall f, f <> k ->
     dict_get f (modules (config st')) = dict_get f (modules (config st))) ->
  (forall m, dict_get k (modules (config st)) = Some m -> built m <> 0 ->
             is_built k st') ->
  is_built p st -> is_built p st'.
Proof.
  intros Hother Hk (m & Hm & Hb).
  destruct (string_dec p k) as [->|Hne].
  - eauto.
  - exists m. rewrite Hother; auto.
Qed.

Lemma scanned_grows k m ds st st' :
  dict_get k (modules (config st)) = Some m ->
  scanned k m ds st st' -> grows st st'.
Proof.
  intros Hget Hsc. split; [apply (scanned_keys _ _ _ _ _ Hsc)|].
  intros p. apply (is_built_other k).
  - apply (scanned_others _ _ _ _ _ Hsc).
  - intros m0 Hm0 Hb. rewrite Hget in Hm0. inversion Hm0; subst m0.
    eexists. split; [apply (scanned_module _ _ _ _ _ Hsc)|exact Hb].
Qed.

Lemma grows_absent (st st' : state) (d : string) :
  grows st st' ->
  dict_get d (modules (config st)) = None ->
  dict_get d (modules (config st')) = None.
Proof. intros [K _]. rewrite !dict_get_None. now rewrite K. Qed.

Lemma emits_ret (P : event -> Prop) : emits P (ret tt).
Proof. intros st. exists st. repeat split. apply extends_refl. Qed.

Lemma emits_emit (P : event -> Prop) (e : event) : P e -> emits P (emit e).
Proof.
  intros He st. eexists. split; [reflexivity|]. split; [reflexivity|].
  exists [e]. simpl. auto.
Qed.

Lemma emits_seq (P : event -> Prop) (c k : M unit) :
  emits P c -> emits P k -> emits P (bind c (fun _ => k)).
Proof.
  intros Hc Hk st. destruct (Hc st) as (s1 & E1 & C1 & X1).
  destruct (Hk s1) as (s2 & E2 & C2 & X2).
  exists s2. unfold bind. rewrite E1. split; [exact E2|].
  split; [congruence|]. eapply extends_trans; eauto.
Qed.

Lemma emits_for_each {A : Type} (P : event -> Prop) (body : A -> M unit)
      (l : list A) :
  (forall a, emits P (body a)) -> emits P (for_each body l).
Proof.
  intros Hb. induction l as [|a l IH]; simpl.
  - apply emits_ret.
  - apply emits_seq; auto.
Qed.

Lemma replace_config_files_emits (cfg : InstallConfiguration)
      (d : string * list string) :
  emits file_event (replace_config_files cfg d).
Proof.
  unfold replace_config_files. apply emits_seq; [|apply emits_seq].
  - apply emits_for_each. intros file.
    destruct (_ || _); [apply emits_emit; exact I|apply emits_ret].
  - apply emits_emit. exact I.
  - apply emits_emit. exact I.
Qed.

Section Orchestrator.

Variable env : Env.
Variable num_threads : Z.

(** The clone step of a build: nothing but the module itself and the history
    changes, no build command is started, [built] is left alone, and after
    success the module is cloned. *)
Lemma clone_unless_cloned_effect (k : string) (st : state) (m : InstallModule)
      (b : bool) (st' : state) :
  dict_get k (modules (config st)) = Some m ->
  clone_unless_cloned env k st = (Ret b, st') ->
  (forall fs, ~ In k fs -> untouched fs st st')
  /\ extends (no_build_of [k]) st st'
  /\ grows st st'
  /\ exists m',
       dict_get k (modules (config st')) = Some m'
       /\ built m' = built m
       /\ (b = true -> cloned m' <> 0).
Proof.
  intros Hget Hrun. unfold clone_unless_cloned in Hrun.
  unfold bind at 1 in Hrun. unfold get_module at 1 in Hrun. rewrite Hget in Hrun.
  destruct (truthy (cloned m)) eqn:Hcl; simpl in Hrun.
  - inversion Hrun; subst b st'.
    split; [|split; [|split]].
    + intros fs _. apply untouched_refl.
    + apply extends_refl.
    + apply grows_refl.
    + exists m. split; [exact Hget|]. split; [reflexivity|].
      intros _. now apply truthy_true.
  - apply truthy_false in Hcl. unfold bind, get_config in Hrun.
    pose proof (clone_single_module_effect env _ k st m b st' Hget Hcl Hrun) as H.
    destruct b.
    + destruct H as (ks & st0 & st1 & Hc & _ & Hsc & Hup).
      assert (Hget0 : dict_get k (modules (config st0)) = Some m).
      { destruct Hc as [E _]. now rewrite E. }
      destruct (update_module_effect k (set_cloned 1) st1 _
                  (scanned_module _ _ _ _ _ Hsc))
        as (st2 & Hup' & Hk2 & Ho2 & Hkeys2 & Hh2).
      rewrite Hup in Hup'. inversion Hup'; subst st2. clear Hup'.
      assert (U01 : forall fs, ~ In k fs -> untouched fs st0 st').
      { intros fs Hfs. eapply untouched_trans.
        - eapply scanned_untouched; eauto.
        - split.
          + intros f Hf. apply Ho2. intros E. now subst.
          + now apply extends_same_history. }
      split; [|split; [|split]].
      * intros fs Hfs. eapply untouched_trans; [apply cloning_untouched; eauto|auto].
      * eapply extends_trans.
        -- eapply extends_weaken; [|apply Hc]. intros [] He; simpl in *; tauto.
        -- apply extends_same_history.
           now rewrite Hh2, (scanned_history _ _ _ _ _ Hsc).
      * eapply grows_trans; [apply cloning_grows; eauto|].
        eapply grows_trans; [eapply scanned_grows; eauto|].
        split; [exact Hkeys2|].
        intros p. apply (is_built_other k); auto.
        intros m0 Hm0 Hb. rewrite (scanned_module _ _ _ _ _ Hsc) in Hm0.
        inversion Hm0; subst m0. eexists. split; [exact Hk2|exact Hb].
      * eexists. split; [exact Hk2|]. simpl. split; auto. intros _. lia.
    + split; [|split; [|split]].
      * intros fs _. now apply cloning_untouched.
      * destruct H as [_ E]. eapply extends_weaken; [|exact E].
        intros [] He; simpl in *; tauto.
      * now apply cloning_grows.
      * exists m. destruct H as [E _]. rewrite E.
        split; [exact Hget|]. split; [reflexivity|discriminate].
Qed.

(** The build step proper: only the module itself may be written, only its
    own build command is started, and success sets [built]. *)
Lemma run_build_command_effect (k : string) (st : state) (m : InstallModule)
      (b : bool) (st' : state) :
  dict_get k (modules (config st)) = Some m ->
  run_build_command env num_threads k st = (Ret b, st') ->
  (forall fs, ~ In k fs -> untouched fs st st')
  /\ grows st st'
  /\ (b = true -> is_built k st').
Proof.
  intros Hget Hrun. unfold run_build_command in Hrun.
  unfold bind at 1, get_config at 1 in Hrun.
  unfold bind at 1, get_module at 1 in Hrun. rewrite Hget in Hrun.
  apply bind_Ret in Hrun. destruct Hrun as ([] & s1 & Hfiles & Hrun).
  assert (F1 : config s1 = config st /\ extends file_event st s1).
  { destruct (negb (String.eqb (name m) "EPICS_BASE")).
    - unfold bind at 1, get_module_configure_dirs at 1 in Hfiles.
      destruct (emits_for_each file_event _
                  (List.filter
                     (fun d => String.eqb (os_path_basename (fst d)) "configure")
                     (os_walk env (history st)
                        (module_abs_path_of (build_location (config st)) m)))
                  (replace_config_files_emits (config st)) st)
        as (s & E & C & X).
      rewrite E in Hfiles. inversion Hfiles; subst s. auto.
    - inversion Hfiles; subst s1. split; auto. apply extends_refl. }
  destruct F1 as [C1 X1].
  apply bind_Ret in Hrun. destruct Hrun as (r & s2 & Hp & Hrun).
  unfold popen_wait, bind, emit in Hp. inversion Hp; subst r s2. clear Hp.
  simpl in Hrun.
  set (s2 := mkState (config s1) (history s1 ++ [Build k
             (build_command m (module_abs_path_of (build_location (config st)) m)
                num_threads)])) in *.
  assert (X2 : forall fs, ~ In k fs -> extends (no_build_of fs) st s2).
  { intros fs Hfs. eapply extends_trans.
    - eapply extends_weaken; [|exact X1]. intros [] He; simpl in *; tauto.
    - eexists. split; [reflexivity|]. constructor; [exact Hfs|constructor]. }
  assert (Hget2 : dict_get k (modules (config s2)) = Some m).
  { simpl. now rewrite C1. }
  destruct (returncode env _ =? 0).
  - apply bind_Ret in Hrun. destruct Hrun as ([] & s3 & Hup & Hrun).
    inversion Hrun; subst b s3. clear Hrun.
    destruct (update_module_effect k (set_built 1) s2 m Hget2)
      as (s3 & Hup' & Hk3 & Ho3 & Hkeys3 & Hh3).
    rewrite Hup in Hup'. inversion Hup'; subst s3. clear Hup'.
    split; [|split].
    + intros fs Hfs. split.
      * intros f Hf. rewrite Ho3; [simpl; now rewrite C1|].
        intros E. now subst.
      * eapply extends_trans; [apply X2; auto|].
        now apply extends_same_history.
    + split.
      * rewrite Hkeys3. simpl. now rewrite C1.
      * intros p. apply (is_built_other k).
        -- intros f Hf. rewrite Ho3; auto. simpl. now rewrite C1.
        -- intros _ _ _. eexists. split; [exact Hk3|]. simpl. lia.
    + intros _. eexists. split; [exact Hk3|]. simpl. lia.
  - inversion Hrun; subst b st'. clear Hrun.
    split; [|split].
    + intros fs Hfs. split; [|now apply X2].
      intros f _. simpl. now rewrite C1.
    + split; [simpl; now rewrite C1|].
      intros p. unfold is_built. simpl. now rewrite C1.
    + discriminate.
Qed.

(** Any build that returns kept the keys and the [built] flags already set,
    and returns [True] only with the module built. *)
Lemma build_dependencies_grows (rec : string -> M bool) (deps : list string) :
  (forall x st b st', rec x st = (Ret b, st') -> grows st st') ->
  forall st b st',
    build_dependencies rec deps st = (Ret b, st') -> grows st st'.
Proof.
  intros Hrec. induction deps as [|y deps IH]; intros st b st' Hrun.
  - inversion Hrun; subst. apply grows_refl.
  - simpl in Hrun.
    apply bind_Ret in Hrun. destruct Hrun as (my & s0 & Hy & Hrun).
    unfold get_module in Hy.
    destruct (dict_get y (modules (config st))); inversion Hy; subst s0.
    apply bind_Ret in Hrun. destruct Hrun as (by' & s1 & Hb & Hrun).
    apply Hrec in Hb. destruct (negb by').
    + inversion Hrun; subst. exact Hb.
    + eapply grows_trans; eauto.
Qed.

Lemma build_single_module_grows (depth : nat) :
  forall k st b st',
    build_single_module env depth num_threads k st = (Ret b, st') ->
    grows st st' /\ (b = true -> is_built k st').
Proof.
  induction depth as [|d IH]; intros k st b st' Hrun; [discriminate|].
  simpl in Hrun.
  apply bind_Ret in Hrun. destruct Hrun as (m & s0 & Hm & Hrun).
  unfold get_module in Hm.
  destruct (dict_get k (modules (config st))) as [m0|] eqn:Hget;
    inversion Hm; subst m0 s0. clear Hm.
  destruct (truthy (built m)) eqn:Hb.
  { inversion Hrun; subst. split; [apply grows_refl|].
    intros _. exists m. split; auto. now apply truthy_true. }
  apply bind_Ret in Hrun. destruct Hrun as (ok & s1 & Hclone & Hrun).
  destruct (clone_unless_cloned_effect k st m ok s1 Hget Hclone)
    as (_ & _ & G1 & m1 & Hget1 & _ & _).
  destruct ok; simpl in Hrun.
  2:{ inversion Hrun; subst. split; [exact G1|discriminate]. }
  unfold bind at 1, get_module at 1 in Hrun. rewrite Hget1 in Hrun.
  apply bind_Ret in Hrun. destruct Hrun as (ok2 & s2 & Hdeps & Hrun).
  assert (G2 : grows s1 s2).
  { eapply build_dependencies_grows; [|exact Hdeps].
    intros x sa bx sb Hx. now apply IH in Hx. }
  destruct ok2; simpl in Hrun.
  2:{ inversion Hrun; subst. split; [eapply grows_trans; eauto|discriminate]. }
  assert (Hget2 : exists m2, dict_get k (modules (config s2)) = Some m2).
  { unfold run_build_command, bind, get_config, get_module in Hrun.
    destruct (dict_get k (modules (config s2))); [eauto|discriminate]. }
  destruct Hget2 as (m2 & Hget2).
  destruct (run_build_command_effect k s2 m2 b st' Hget2 Hrun) as (_ & G3 & B3).
  split; [|exact B3].
  eapply grows_trans; [exact G1|]. eapply grows_trans; eauto.
Qed.

(** *** Modules whose build is in progress *)

Lemma waiting_preserved (st st' : state) (f x : string) :
  dict_get f (modules (config st')) = dict_get f (modules (config st)) ->
  grows st st' -> waiting st f x -> waiting st' f x.
Proof.
  intros E G (mf & pre & post & A & B & C & D & F).
  exists mf, pre, post. rewrite E. repeat split; auto.
  eapply Forall_impl; [|exact F]. intros p. apply (grows_built _ _ G).
Qed.

Lemma chain_preserved (st st' : state) (x : string) (fs : list string) :
  untouched fs st st' -> grows st st' -> chain st x fs -> chain st' x fs.
Proof.
  intros U G H. induction H as [x|x f fs W H IH].
  - constructor.
  - constructor.
    + apply (waiting_preserved st st' f x); [|exact G|exact W].
      apply (untouched_modules _ _ _ U). now left.
    + apply IH. eapply untouched_tail; eauto.
Qed.

Lemma chain_segment (st : state) (x : string) (s1 s2 : list string) :
  forall y, chain st y (s1 ++ x :: s2) ->
  forall f, In f (s1 ++ [x]) -> exists z, In z (y :: s1) /\ waiting st f z.
Proof.
  induction s1 as [|f0 s1 IH]; intros y H f Hf; simpl in *.
  - destruct Hf as [<-|[]]. inversion H; subst. eauto.
  - inversion H as [|? ? ? W H']; subst.
    destruct Hf as [<-|Hf]; [eauto|].
    destruct (IH f0 H' f Hf) as (z & Hz & Wz). eauto.
Qed.

Lemma chain_closed (st : state) (x : string) (fs : list string) :
  chain st x fs -> In x fs -> exists c, closed st c /\ In x c.
Proof.
  intros H Hin. apply in_split in Hin. destruct Hin as (s1 & s2 & ->).
  exists (s1 ++ [x]). split.
  - intros f Hf. destruct (chain_segment st x s1 s2 x H f Hf) as (z & Hz & W).
    exists z. split; [|exact W]. apply in_or_app.
    destruct Hz as [<-|Hz]; [right; now left|now left].
  - apply in_or_app. right. now left.
Qed.

(** A built module is not rebuilt. *)
Lemma build_single_module_built (depth : nat) (k : string) (st : state) :
  is_built k st ->
  build_single_module env (S depth) num_threads k st = (Ret true, st).
Proof.
  intros (m & Hget & Hb). simpl. unfold bind, get_module. rewrite Hget.
  apply truthy_true in Hb. now rewrite Hb.
Qed.

(** One turn of the loop over the dependencies, for a name that is a key. *)
Lemma build_dependencies_cons (rec : string -> M bool) (p : string)
      (l : list string) (st : state) (mp : InstallModule) :
  dict_get p (modules (config st)) = Some mp ->
  build_dependencies rec (p :: l) st
  = match rec p st with
    | (Ret b, s1) => if b then build_dependencies rec l s1 else (Ret false, s1)
    | (Raise e, s1) => (Raise e, s1)
    end.
Proof.
  intros Hget. simpl. unfold bind, get_module. rewrite Hget.
  destruct (rec p st) as [[[|]|e] s1]; reflexivity.
Qed.

Lemma build_dependencies_built_prefix (depth : nat) (st : state)
      (pre rest : list string) :
  Forall (fun p => is_built p st) pre ->
  build_dependencies (build_single_module env depth num_threads) (pre ++ rest) st
  = (Raise RecursionError, st)
  \/ build_dependencies (build_single_module env depth num_threads) (pre ++ rest) st
     = build_dependencies (build_single_module env depth num_threads) rest st.
Proof.
  induction 1 as [|p pre Hp Hpre IH]; [now right|].
  destruct Hp as (mp & Hget & Hb).
  rewrite <- app_comm_cons, (build_dependencies_cons _ p _ st mp Hget).
  destruct depth as [|d]; [now left|].
  rewrite build_single_module_built by (exists mp; auto). exact IH.
Qed.

(** The build of a module that is cloned and not built goes straight to
    its dependencies. *)
Lemma build_single_module_cloned (depth : nat) (k : string) (st : state)
      (m : InstallModule) :
  dict_get k (modules (config st)) = Some m ->
  built m = 0 ->
  cloned m <> 0 ->
  build_single_module env (S depth) num_threads k st
  = match build_dependencies (build_single_module env depth num_threads)
            (dependencies m) st with
    | (Ret b, s1) =>
        if b then run_build_command env num_threads k s1 else (Ret false, s1)
    | (Raise e, s1) => (Raise e, s1)
    end.
Proof.
  intros Hget Hb Hcl. apply truthy_true in Hcl.
  simpl. unfold bind at 1, get_module at 1. rewrite Hget, Hb. simpl.
  unfold bind at 1, clone_unless_cloned at 1, bind at 1, get_module at 1.
  rewrite Hget, Hcl. simpl.
  unfold bind at 1, get_module at 1. rewrite Hget.
  unfold bind at 1.
  destruct (build_dependencies _ _ st) as [[[|]|e] s1]; reflexivity.
Qed.

(** A dependency cycle among modules in progress exhausts the stack. *)
Lemma build_single_module_cycle (st : state) (c : list string) :
  closed st c ->
  forall depth f, In f c ->
    build_single_module env depth num_threads f st = (Raise RecursionError, st).
Proof.
  intros Hc. induction depth as [|d IH]; intros f Hf; [reflexivity|].
  destruct (Hc f Hf) as (y & Hy & mf & pre & post & Hget & Hb & Hcl & Hdeps & Hpre).
  rewrite (build_single_module_cloned d f st mf Hget Hb Hcl), Hdeps.
  destruct (build_dependencies_built_prefix d st pre (y :: post) Hpre) as [E|E];
    rewrite E; [reflexivity|].
  destruct (Hc y Hy) as (_ & _ & my & _ & _ & Hgety & _).
  rewrite (build_dependencies_cons _ y post st my Hgety).
  now rewrite (IH y Hy).
Qed.

(** The loop over the dependencies of [k], run over the entries [rest] that
    follow [pre], when every recursive build leaves the modules in progress
    alone. *)
Lemma build_dependencies_frames (depth : nat) (k : string) (fs : list string)
      (mk : InstallModule) (post : list string) :
  (forall x st fs b st',
      chain st x fs ->
      build_single_module env depth num_threads x st = (Ret b, st') ->
      untouched fs st st') ->
  built mk = 0 -> cloned mk <> 0 ->
  forall rest pre st b st',
    dependencies mk = pre ++ rest ++ post ->
    dict_get k (modules (config st)) = Some mk ->
    Forall (fun p => is_built p st) pre ->
    chain st k fs ->
    build_dependencies (build_single_module env depth num_threads) rest st
    = (Ret b, st') ->
    untouched (k :: fs) st st'
    /\ grows st st'
    /\ (b = true -> Forall (fun p => is_built p st') (pre ++ rest)).
Proof.
  intros Hrec Hb Hcl.
  induction rest as [|y rest IH]; intros pre st b st' Hdeps Hget Hpre Hch Hrun.
  - inversion Hrun; subst. rewrite app_nil_r.
    split; [apply untouched_refl|]. split; [apply grows_refl|auto].
  - simpl in Hrun.
    apply bind_Ret in Hrun. destruct Hrun as (my & s0 & Hy & Hrun).
    unfold get_module in Hy.
    destruct (dict_get y (modules (config st))); inversion Hy; subst s0. clear Hy.
    apply bind_Ret in Hrun. destruct Hrun as (by' & s1 & Hcall & Hrun).
    assert (Hch' : chain st y (k :: fs)).
    { constructor; [|exact Hch]. exists mk, pre, (rest ++ post). auto. }
    pose proof (Hrec y st (k :: fs) by' s1 Hch' Hcall) as U1.
    destruct (build_single_module_grows depth y st by' s1 Hcall) as [G1 B1].
    destruct by'; simpl in Hrun.
    2:{ inversion Hrun; subst. split; [exact U1|]. split; [exact G1|discriminate]. }
    assert (Hget1 : dict_get k (modules (config s1)) = Some mk).
    { rewrite (untouched_modules _ _ _ U1); [exact Hget|now left]. }
    assert (Hpre1 : Forall (fun p => is_built p s1) (pre ++ [y])).
    { apply Forall_app. split.
      - eapply Forall_impl; [|exact Hpre]. intros p. apply (grows_built _ _ G1).
      - constructor; auto. }
    assert (Hch1 : chain s1 k fs).
    { eapply chain_preserved; eauto. eapply untouched_tail; eauto. }
    destruct (IH (pre ++ [y]) s1 b st') as (U2 & G2 & F2); auto.
    { now rewrite <- app_assoc. }
    split; [eapply untouched_trans; eauto|].
    split; [eapply grows_trans; eauto|].
    intros Hbt. rewrite <- app_assoc in F2. auto.
Qed.

(** A build that returns has not written the modules whose build is in
    progress, nor started their build command. *)
Lemma build_single_module_frames (depth : nat) :
  forall x st fs b st',
    chain st x fs ->
    build_single_module env depth num_threads x st = (Ret b, st') ->
    untouched fs st st'.
Proof.
  induction depth as [|d IH]; intros x st fs b st' Hch Hrun; [discriminate|].
  destruct (in_dec string_dec x fs) as [Hin|Hnin].
  { destruct (chain_closed st x fs Hch Hin) as (c & Hc & Hx).
    rewrite (build_single_module_cycle st c Hc (S d) x Hx) in Hrun. discriminate. }
  simpl in Hrun.
  apply bind_Ret in Hrun. destruct Hrun as (m & s0 & Hm & Hrun).
  unfold get_module in Hm.
  destruct (dict_get x (modules (config st))) as [m0|] eqn:Hget;
    inversion Hm; subst m0 s0. clear Hm.
  destruct (truthy (built m)) eqn:Hb.
  { inversion Hrun; subst. apply untouched_refl. }
  apply truthy_false in Hb.
  apply bind_Ret in Hrun. destruct Hrun as (ok & s1 & Hclone & Hrun).
  destruct (clone_unless_cloned_effect x st m ok s1 Hget Hclone)
    as (U1 & _ & G1 & m1 & Hget1 & Hb1 & Hcl1).
  specialize (U1 fs Hnin).
  destruct ok; simpl in Hrun.
  2:{ inversion Hrun; subst. exact U1. }
  unfold bind at 1, get_module at 1 in Hrun. rewrite Hget1 in Hrun.
  apply bind_Ret in Hrun. destruct Hrun as (ok2 & s2 & Hdeps & Hrun).
  assert (Hch1 : chain s1 x fs) by (eapply chain_preserved; eauto).
  destruct (build_dependencies_frames d x fs m1 [] IH) with
    (rest := dependencies m1) (pre := @nil string) (st := s1) (b := ok2) (st' := s2)
    as (U2 & G2 & _); auto; try congruence.
  { now rewrite app_nil_r. }
  apply untouched_tail in U2.
  destruct ok2; simpl in Hrun.
  2:{ inversion Hrun; subst. eapply untouched_trans; eauto. }
  assert (Hget2 : exists m2, dict_get x (modules (config s2)) = Some m2).
  { unfold run_build_command, bind, get_config, get_module in Hrun.
    destruct (dict_get x (modules (config s2))); [eauto|discriminate]. }
  destruct Hget2 as (m2 & Hget2).
  destruct (run_build_command_effect x s2 m2 b st' Hget2 Hrun) as (U3 & _ & _).
  eapply untouched_trans; [exact U1|]. eapply untouched_trans; eauto.
Qed.

(** The loop over a list of dependencies whose first part all built. *)
Lemma build_dependencies_app (rec : string -> M bool) (pre rest : list string) :
  forall st st',
    build_dependencies rec pre st = (Ret true, st') ->
    build_dependencies rec (pre ++ rest) st = build_dependencies rec rest st'.
Proof.
  induction pre as [|p pre IH]; intros st st' Hrun.
  - inversion Hrun; subst. reflexivity.
  - simpl in Hrun.
    apply bind_Ret in Hrun. destruct Hrun as (mp & s0 & Hp & Hrun).
    unfold get_module in Hp.
    destruct (dict_get p (modules (config st))) as [mp'|] eqn:Hget;
      inversion Hp; subst mp' s0. clear Hp.
    apply bind_Ret in Hrun. destruct Hrun as (bp & s1 & Hcall & Hrun).
    rewrite <- app_comm_cons, (build_dependencies_cons rec p _ st mp Hget), Hcall.
    destruct bp; simpl in Hrun; [|discriminate].
    now apply IH.
Qed.

(** The start of a build of a module that is not built and that is cloned,
    or whose cloning succeeds. *)
Lemma build_single_module_after_clone (depth : nat) (k : string)
      (st st1 : state) (m m1 : InstallModule) :
  dict_get k (modules (config st)) = Some m ->
  built m = 0 ->
  clone_unless_cloned env k st = (Ret true, st1) ->
  dict_get k (modules (config st1)) = Some m1 ->
  build_single_module env (S depth) num_threads k st
  = match build_dependencies (build_single_module env depth num_threads)
            (dependencies m1) st1 with
    | (Ret b, s2) =>
        if b then run_build_command env num_threads k s2 else (Ret false, s2)
    | (Raise e, s2) => (Raise e, s2)
    end.
Proof.
  intros Hget Hb Hclone Hget1.
  simpl. unfold bind at 1, get_module at 1. rewrite Hget, Hb. simpl.
  unfold bind at 1. rewrite Hclone. simpl.
  unfold bind at 1, get_module at 1. rewrite Hget1.
  unfold bind at 1.
  destruct (build_dependencies _ _ st1) as [[[|]|e] s2]; reflexivity.
Qed.

(** C9 (amended). A name [d] in the dependencies of a module that is not a
    key of the module map makes [build_single_module] raise [KeyError] at
    the dependency-recursion step for [d], with no boolean returned,
    provided the loop over the dependencies gets to [d]: the module is not
    built, it is cloned or its cloning succeeds, and the entries before [d]
    build successfully. The call then ends with [KeyError d] in the state
    the loop had reached. *)
Theorem build_single_module_missing_dependency
        (depth : nat) (k : string) (st st1 st2 : state) (m m1 : InstallModule)
        (pre post : list string) (d : string) :
  dict_get k (modules (config st)) = Some m ->
  built m = 0 ->
  clone_unless_cloned env k st = (Ret true, st1) ->
  dict_get k (modules (config st1)) = Some m1 ->
  dependencies m1 = pre ++ d :: post ->
  build_dependencies (build_single_module env depth num_threads) pre st1
  = (Ret true, st2) ->
  dict_get d (modules (config st)) = None ->
  build_single_module env (S depth) num_threads k st = (Raise (KeyError d), st2).
Proof.
  intros Hget Hb Hclone Hget1 Hdeps Hpre Hd.
  rewrite (build_single_module_after_clone depth k st st1 m m1 Hget Hb Hclone Hget1).
  rewrite Hdeps, (build_dependencies_app _ pre (d :: post) st1 st2 Hpre).
  destruct (clone_unless_cloned_effect k st m true st1 Hget Hclone)
    as (_ & _ & G1 & _).
  assert (G2 : grows st1 st2).
  { eapply build_dependencies_grows; [|exact Hpre].
    intros x sa bx sb Hx. now apply build_single_module_grows in Hx. }
  apply (grows_absent _ _ d G1) in Hd. apply (grows_absent _ _ d G2) in Hd.
  simpl. unfold bind, get_module. now rewrite Hd.
Qed.

(** C4. If, in the build of [m], the recursive build of a dependency [d]
    returns failure, then the build of [m] returns failure with the state
    that build of [d] left; the build command of [m] was started neither
    before that point nor during the builds of the dependencies; and [built]
    of [m] is still false. *)
Theorem build_single_module_fail_fast
        (depth : nat) (k : string) (st st1 st2 st3 : state) (m m1 : InstallModule)
        (pre post : list string) (d : string) :
  dict_get k (modules (config st)) = Some m ->
  built m = 0 ->
  clone_unless_cloned env k st = (Ret true, st1) ->
  dict_get k (modules (config st1)) = Some m1 ->
  dependencies m1 = pre ++ d :: post ->
  build_dependencies (build_single_module env depth num_threads) pre st1
  = (Ret true, st2) ->
  build_single_module env depth num_threads d st2 = (Ret false, st3) ->
  build_single_module env (S depth) num_threads k st = (Ret false, st3)
  /\ (exists m3, dict_get k (modules (config st3)) = Some m3 /\ built m3 = 0)
  /\ (exists evs, history st3 = history st ++ evs
                  /\ forall cmd, ~ In (Build k cmd) evs).
Proof.
  intros Hget Hb Hclone Hget1 Hdeps Hpre Hd.
  destruct (clone_unless_cloned_effect k st m true st1 Hget Hclone)
    as (_ & X1 & G1 & m1' & Hget1' & Hb1 & Hcl1).
  rewrite Hget1 in Hget1'. inversion Hget1'; subst m1'. clear Hget1'.
  specialize (Hcl1 eq_refl). rewrite Hb in Hb1.
  destruct (build_dependencies_frames depth k [] m1 (d :: post)
              (build_single_module_frames depth) Hb1 Hcl1
              pre [] st1 true st2 Hdeps Hget1 (Forall_nil _) (chain_nil st1 k) Hpre)
    as (U2 & G2 & F2).
  specialize (F2 eq_refl). simpl in F2.
  assert (Hget2 : dict_get k (modules (config st2)) = Some m1).
  { rewrite (untouched_modules _ _ _ U2); [exact Hget1|now left]. }
  assert (Hch : chain st2 d [k]).
  { constructor; [|constructor]. exists m1, pre, post. auto. }
  pose proof (build_single_module_frames depth d st2 [k] false st3 Hch Hd) as U3.
  split; [|split].
  - rewrite (build_single_module_after_clone depth k st st1 m m1 Hget Hb Hclone Hget1).
    rewrite Hdeps, (build_dependencies_app _ pre (d :: post) st1 st2 Hpre).
    assert (Hgetd : exists md, dict_get d (modules (config st2)) = Some md).
    { destruct depth as [|n]; [discriminate|]. simpl in Hd.
      unfold bind at 1, get_module at 1 in Hd.
      destruct (dict_get d (modules (config st2))); [eauto|discriminate]. }
    destruct Hgetd as (md & Hgetd).
    now rewrite (build_dependencies_cons _ d post st2 md Hgetd), Hd.
  - exists m1. split; [|exact Hb1].
    rewrite (untouched_modules _ _ _ U3); [exact Hget2|now left].
  - pose proof (extends_trans _ _ _ _ X1
                  (extends_trans _ _ _ _ (untouched_history _ _ _ U2)
                                 (untouched_history _ _ _ U3))) as (evs & Hh & Hev).
    exists evs. split; [exact Hh|].
    intros cmd Hin. rewrite Forall_forall in Hev. apply (Hev _ Hin). now left.
Qed.

End Orchestrator.

Lemma build_single_module_fail_fast_witness :
  build_single_module failing_build_env 3 0 "ASYN" three_modules
  = (Ret false, sncseq_failed)
  /\ (exists m3, dict_get "ASYN" (modules (config sncseq_failed)) = Some m3
                 /\ built m3 = 0)
  /\ (exists evs, history sncseq_failed = history three_modules ++ evs
                  /\ forall cmd, ~ In (Build "ASYN" cmd) evs).
Proof.
  apply (build_single_module_fail_fast failing_build_env 0 2 "ASYN"
           three_modules three_modules three_modules sncseq_failed asyn_with_dependencies asyn_with_dependencies
           ["EPICS_BASE"] [] "SNCSEQ"); reflexivity.
Defined.

Lemma build_single_module_missing_dependency_witness :
  build_single_module quiet_env 3 0 "ASYN" without_sncseq
  = (Raise (KeyError "SNCSEQ"), without_sncseq).
Proof.
  apply (build_single_module_missing_dependency quiet_env 0 2 "ASYN"
           without_sncseq without_sncseq without_sncseq asyn_with_dependencies asyn_with_dependencies
           ["EPICS_BASE"] [] "SNCSEQ"); reflexivity.
Defined.

(** C9, as stated, fails: the lookup is made only when the loop gets to the
    name. Here the dependencies of ASYN hold SNCSEQ, which is not a key; the
    build of ASYN returns [False] when the build of the earlier dependency
    EPICS_BASE fails, and [True] when ASYN is built already: a boolean, no
    exception. *)
Lemma missing_dependency_not_reached :
  In "SNCSEQ" (dependencies asyn_with_dependencies)
  /\ dict_get "ASYN" (modules (config base_unbuilt)) = Some asyn_with_dependencies
  /\ dict_get "SNCSEQ" (modules (config base_unbuilt)) = None
  /\ fst (build_single_module failing_build_env 100 0 "ASYN" base_unbuilt)
     = Ret false
  /\ fst (build_single_module quiet_env 100 0 "ASYN"
            (start [set_built 1 asyn_with_dependencies; base_built]))
     = Ret true.
Proof.
  split; [simpl; auto|]. repeat split; reflexivity.
Qed.

(** * Further properties of the code *)

(** ** Relations kept by every outcome *)

Section Keeps.

Variable R : state -> state -> Prop.
Hypothesis R_refl : forall st, R st st.
Hypothesis R_trans : forall s1 s2 s3, R s1 s2 -> R s2 s3 -> R s1 s3.

Lemma keeps_ret {A : Type} (a : A) : keeps R (ret a).
Proof. intros st r st' H. inversion H; subst. apply R_refl. Qed.

Lemma keeps_raise {A : Type} (e : exn) : keeps R (@raise A e).
Proof. intros st r st' H. inversion H; subst. apply R_refl. Qed.

Lemma keeps_bind {A B : Type} (c : M A) (k : A -> M B) :
  keeps R c -> (forall a, keeps R (k a)) -> keeps R (bind c k).
Proof.
  intros Hc Hk st r st' H. unfold bind in H.
  destruct (c st) as [[a|e] s1] eqn:E.
  - eapply R_trans; [eapply Hc; eauto|eapply Hk; eauto].
  - inversion H; subst. eapply Hc; eauto.
Qed.

Lemma keeps_for_each {A : Type} (body : A -> M unit) (l : list A) :
  (forall a, keeps R (body a)) -> keeps R (for_each body l).
Proof.
  intros Hb. induction l as [|a l IH]; simpl.
  - apply keeps_ret.
  - apply keeps_bind; auto.
Qed.

Lemma keeps_get_config : keeps R get_config.
Proof. intros st r st' H. inversion H; subst. apply R_refl. Qed.

Lemma keeps_get_module (k : string) : keeps R (get_module k).
Proof.
  intros st r st' H. unfold get_module in H.
  destruct (dict_get k (modules (config st))); inversion H; subst; apply R_refl.
Qed.

Lemma keeps_os_path_exists (env : Env) (p : string) : keeps R (os_path_exists env p).
Proof. intros st r st' H. inversion H; subst. apply R_refl. Qed.

Lemma keeps_open_readlines (env : Env) (p : string) : keeps R (open_readlines env p).
Proof.
  intros st r st' H. unfold open_readlines in H.
  destruct (readlines env (history st) p); inversion H; subst; apply R_refl.
Qed.

Lemma keeps_get_module_configure_dirs (env : Env) (p : string) :
  keeps R (get_module_configure_dirs env p).
Proof. intros st r st' H. inversion H; subst. apply R_refl. Qed.

Lemma keeps_popen_wait (env : Env) (e : event) :
  keeps R (emit e) -> keeps R (popen_wait env e).
Proof.
  intros He. unfold popen_wait. apply keeps_bind; [exact He|].
  intros _ st r st' H. inversion H; subst. apply R_refl.
Qed.

Lemma keeps_build_dependencies (rec : string -> M bool) (deps : list string) :
  (forall x, keeps R (rec x)) -> keeps R (build_dependencies rec deps).
Proof.
  intros Hrec. induction deps as [|d deps IH]; simpl.
  - apply keeps_ret.
  - apply keeps_bind; [apply keeps_get_module|]. intros _.
    apply keeps_bind; [apply Hrec|]. intros b.
    destruct (negb b); [apply keeps_ret|exact IH].
Qed.

End Keeps.

(** ** What cloning and building keep *)

Lemma module_kept_refl (m : InstallModule) : module_kept m m.
Proof. split; auto. exists []. now rewrite app_nil_r. Qed.

Lemma module_kept_trans (m1 m2 m3 : InstallModule) :
  module_kept m1 m2 -> module_kept m2 m3 -> module_kept m1 m3.
Proof.
  intros [A1 A2 A3 A4 A5 A6 A7 A8 A9 (d1 & A10)]
         [B1 B2 B3 B4 B5 B6 B7 B8 B9 (d2 & B10)].
  split; try congruence; auto.
  exists (d1 ++ d2). now rewrite B10, A10, app_assoc.
Qed.

Lemma evolves_refl (st : state) : evolves st st.
Proof.
  split; auto.
  - intros k m H. exists m. split; [exact H|apply module_kept_refl].
  - exists []. now rewrite app_nil_r.
Qed.

Lemma evolves_trans (s1 s2 s3 : state) : evolves s1 s2 -> evolves s2 s3 -> evolves s1 s3.
Proof.
  intros [A1 A2 A3 A4 A5 A6 (e1 & A7)] [B1 B2 B3 B4 B5 B6 (e2 & B7)].
  split; try congruence.
  - intros k m H. destruct (A6 k m H) as (m2 & H2 & K2).
    destruct (B6 k m2 H2) as (m3 & H3 & K3).
    exists m3. split; [exact H3|]. eapply module_kept_trans; eauto.
  - exists (e1 ++ e2). now rewrite B7, A7, app_assoc.
Qed.

Lemma evolves_emit (e : event) : keeps evolves (emit e).
Proof.
  intros st r st' H. unfold emit in H. inversion H; subst.
  split; simpl; auto.
  - intros k m Hm. exists m. split; [exact Hm|apply module_kept_refl].
  - now exists [e].
Qed.

Lemma evolves_update_module (k : string) (f : InstallModule -> InstallModule) :
  (forall m, module_kept m (f m)) -> keeps evolves (update_module k f).
Proof.
  intros Hf st r st' H. unfold update_module in H.
  destruct (dict_get k (modules (config st))) as [m|] eqn:Hget.
  2:{ inversion H; subst. apply evolves_refl. }
  inversion H; subst. split; simpl; auto.
  - apply dict_keys_set. congruence.
  - intros k' m' Hm'. destruct (string_dec k' k) as [->|Hne].
    + rewrite dict_get_set_same. rewrite Hget in Hm'. inversion Hm'; subst.
      eexists. split; [reflexivity|apply Hf].
    + rewrite dict_get_set_other by exact Hne.
      exists m'. split; [exact Hm'|apply module_kept_refl].
  - exists []. now rewrite app_nil_r.
Qed.

Lemma module_kept_append (dep : string) (m : InstallModule) :
  module_kept m (append_dependency dep m).
Proof. split; simpl; auto. now exists [dep]. Qed.

Lemma module_kept_set_cloned (m : InstallModule) : module_kept m (set_cloned 1 m).
Proof.
  split; simpl; auto; [intros _; lia|]. exists []. now rewrite app_nil_r.
Qed.

Lemma module_kept_set_built (m : InstallModule) : module_kept m (set_built 1 m).
Proof.
  split; simpl; auto; [intros _; lia|]. exists []. now rewrite app_nil_r.
Qed.

(** Steps through a computation made of the program's primitives, for a
    relation with the given proofs of reflexivity and transitivity; [known]
    closes the steps that write a module or perform an effect. *)
Ltac keeps_steps Rrefl Rtrans known :=
  repeat first
    [ known
    | apply (keeps_ret _ Rrefl)
    | apply (keeps_raise _ Rrefl)
    | apply (keeps_get_config _ Rrefl)
    | apply (keeps_get_module _ Rrefl)
    | apply (keeps_os_path_exists _ Rrefl)
    | apply (keeps_open_readlines _ Rrefl)
    | apply (keeps_get_module_configure_dirs _ Rrefl)
    | apply (keeps_popen_wait _ Rrefl Rtrans)
    | apply (keeps_for_each _ Rrefl Rtrans); intros ?
    | apply (keeps_bind _ Rtrans); [|intros ?]
    | match goal with
      | |- keeps _ (if ?b then _ else _) => destruct b
      | |- keeps _ (match ?o with Some _ => _ | None => _ end) => destruct o
      end ].

Ltac evolves_writes :=
  first [ apply evolves_emit
        | apply evolves_update_module; intros ?;
          first [ apply module_kept_append
                | apply module_kept_set_cloned
                | apply module_kept_set_built ] ].

Ltac keeps_evolves_with known :=
  keeps_steps evolves_refl evolves_trans ltac:(first [known | evolves_writes]).

Ltac keeps_evolves := keeps_evolves_with fail.

Lemma save_evolves (env : Env) (save_path : option string) (overwrite : bool) :
  keeps evolves (save env save_path overwrite).
Proof.
  unfold save. apply (keeps_bind evolves evolves_trans).
  - keeps_evolves.
  - intros cfg.
    destruct (match save_path with Some _ => save_path | None => config_file_path cfg end);
      keeps_evolves.
Qed.

Lemma clone_single_module_keeps (env : Env) (build_loc k : string) :
  keeps evolves (clone_single_module env build_loc k).
Proof.
  unfold clone_single_module, scan_configure_file, scan_release_line.
  keeps_evolves.
Qed.

Lemma build_single_module_keeps (env : Env) (num_threads : Z) (depth : nat) :
  forall k, keeps evolves (build_single_module env depth num_threads k).
Proof.
  induction depth as [|d IH]; intros k; simpl.
  - apply (keeps_raise evolves evolves_refl).
  - unfold clone_unless_cloned, run_build_command, replace_config_files.
    keeps_evolves_with
      ltac:(first [ apply clone_single_module_keeps
                  | apply (keeps_build_dependencies evolves evolves_refl evolves_trans);
                    exact IH ]).
Qed.

Lemma build_all_loop_keeps (env : Env) (num_threads : Z) (depth : nat)
      (keys : list string) :
  forall failed, keeps evolves (build_all_loop env depth num_threads keys failed).
Proof.
  induction keys as [|k keys IH]; intros failed; simpl.
  - apply (keeps_ret evolves evolves_refl).
  - apply (keeps_bind evolves evolves_trans);
      [apply build_single_module_keeps|intros b].
    apply (keeps_bind evolves evolves_trans); [apply save_evolves|intros _].
    apply IH.
Qed.

Lemma build_all_keeps (env : Env) (num_threads : Z) (depth : nat) :
  keeps evolves (build_all env depth num_threads).
Proof.
  unfold build_all. apply (keeps_bind evolves evolves_trans).
  - apply (keeps_get_config evolves evolves_refl).
  - intros cfg. apply build_all_loop_keeps.
Qed.

Lemma evolves_is_built (st st' : state) (k : string) :
  evolves st st' -> is_built k st -> is_built k st'.
Proof.
  intros E (m & Hm & Hb). destruct (evolves_modules _ _ E k m Hm) as (m' & Hm' & K).
  exists m'. split; [exact Hm'|]. now apply (kept_built _ _ K).
Qed.

(** X1. Whatever [clone_single_module] returns or raises, it leaves the
    paths, the macros and the keys of the module map as they were, changes
    no module's name, version, URL, build command, recursion flag or
    [installed] flag, clears no [cloned] or [built] flag, removes nothing
    from a dependency list, and only appends to the history of effects. *)
Theorem clone_single_module_evolves
        (env : Env) (build_loc k : string) (st : state) (r : outcome bool)
        (st' : state) :
  clone_single_module env build_loc k st = (r, st') -> evolves st st'.
Proof. apply clone_single_module_keeps. Qed.

(** X2. Whatever [build_single_module] returns or raises (also [KeyError]
    for a missing dependency and [RecursionError] for a cycle), the clones
    and builds it has made so far left the paths, the macros and the keys
    of the module map as they were, changed no module's name, version, URL,
    build command, recursion flag or [installed] flag, cleared no [cloned]
    or [built] flag and only appended to dependency lists and history. *)
Theorem build_single_module_evolves
        (env : Env) (num_threads : Z) (depth : nat) (k : string)
        (st : state) (r : outcome bool) (st' : state) :
  build_single_module env depth num_threads k st = (r, st') -> evolves st st'.
Proof. apply build_single_module_keeps. Qed.

(** X3. However a whole run of [build_all] ends, with a list or with an
    exception, it left the paths, the macros and the keys of the module map
    as they were, changed no module's name, version, URL, build command,
    recursion flag or [installed] flag, cleared no [cloned] or [built] flag
    and only appended to dependency lists and history. *)
Theorem build_all_evolves
        (env : Env) (num_threads : Z) (depth : nat)
        (st : state) (r : outcome (list pyval)) (st' : state) :
  build_all env depth num_threads st = (r, st') -> evolves st st'.
Proof. apply build_all_keeps. Qed.

Lemma build_single_module_evolves_witness : evolves three_modules sncseq_failed.
Proof.
  apply (build_single_module_evolves failing_build_env 0 2 "SNCSEQ" three_modules
           (Ret false) sncseq_failed).
  reflexivity.
Defined.

Lemma build_all_evolves_witness : evolves three_modules all_failed.
Proof.
  apply (build_all_evolves failing_build_env 0 3 three_modules
           (Ret [PyModule "ASYN"; PyModule "SNCSEQ"]) all_failed).
  reflexivity.
Defined.

(** ** Clone engine: outcomes *)

Lemma bind_inv {A B : Type} (c : M A) (f : A -> M B) (st st' : state)
      (r : outcome B) :
  bind c f st = (r, st') ->
  (exists a s1, c st = (Ret a, s1) /\ f a s1 = (r, st'))
  \/ (exists e, c st = (Raise e, st') /\ r = Raise e).
Proof.
  unfold bind. destruct (c st) as [[a|e] s1]; intros H.
  - left. eauto.
  - right. inversion H; subst. eauto.
Qed.

Lemma popen_wait_returns (env : Env) (e : event) (st : state) :
  popen_wait env e st
  = (Ret (returncode env (history st ++ [e])), mkState (config st) (history st ++ [e])).
Proof. reflexivity. Qed.

Lemma popen_wait_outcome (env : Env) (e : event) (st st' : state) (r : outcome Z) :
  popen_wait env e st = (r, st') ->
  r = Ret (returncode env (history st')) /\ st' = mkState (config st) (history st ++ [e]).
Proof. rewrite popen_wait_returns. intros H. inversion H; subst. auto. Qed.

Lemma popen_wait_git (env : Env) (cmd : list string) (st st' : state) (r : outcome Z) :
  popen_wait env (Git cmd) st = (r, st') ->
  (exists z, r = Ret z) /\ cloning st st'.
Proof.
  intros H. apply popen_wait_outcome in H. destruct H as [-> ->].
  split; [eauto|]. split; [reflexivity|].
  exists [Git cmd]. split; [reflexivity|]. repeat constructor.
Qed.

(** The two halves of a clone: the git commands, which fail or succeed
    without touching the configuration, then the discovery. *)
Lemma clone_single_module_phases (env : Env) (build_loc k : string)
      (st : state) (m : InstallModule) (r : outcome bool) (st' : state) :
  dict_get k (modules (config st)) = Some m ->
  cloned m = 0 ->
  clone_single_module env build_loc k st = (r, st') ->
  exists s5,
    cloning st s5
    /\ ((r = Ret false /\ st' = s5)
        \/ discover_dependencies env k (module_abs_path_of build_loc m) s5 = (r, st')).
Proof.
  intros Hget Hcl Hrun.
  unfold clone_single_module in Hrun.
  unfold bind at 1 in Hrun. unfold get_module at 1 in Hrun. rewrite Hget in Hrun.
  rewrite Hcl in Hrun. simpl truthy in Hrun. cbv iota in Hrun.
  set (p := module_abs_path_of build_loc m) in *.
  unfold bind at 1, os_path_exists at 1 in Hrun.
  apply bind_inv in Hrun.
  destruct Hrun as [([] & s2 & Hrm & Hrun)|(e & Hrm & _)].
  2:{ destruct (path_exists env (history st) p); discriminate. }
  assert (C2 : cloning st s2).
  { destruct (path_exists env (history st) p).
    - eapply emit_cloning; [|exact Hrm]. exact I.
    - inversion Hrm; subst. apply cloning_refl. }
  apply bind_inv in Hrun.
  destruct Hrun as [(r1 & s3 & Hp1 & Hrun)|(e & Hp1 & _)].
  2:{ apply popen_wait_git in Hp1. destruct Hp1 as [(z & Hz) _]. discriminate. }
  apply popen_wait_git in Hp1. destruct Hp1 as [_ C3'].
  pose proof (cloning_trans _ _ _ C2 C3') as C3.
  destruct (negb (r1 =? 0)).
  { inversion Hrun; subst. eexists. split; [exact C3|]. now left. }
  apply bind_inv in Hrun.
  destruct Hrun as [(r2 & s4 & Hp2 & Hrun)|(e & Hp2 & _)].
  2:{ apply popen_wait_git in Hp2. destruct Hp2 as [(z & Hz) _]. discriminate. }
  apply popen_wait_git in Hp2. destruct Hp2 as [_ C4'].
  pose proof (cloning_trans _ _ _ C3 C4') as C4.
  destruct (negb (r2 =? 0)).
  { inversion Hrun; subst. eexists. split; [exact C4|]. now left. }
  apply bind_inv in Hrun.
  assert (Hsub : forall o s, (if recursive_clone m
                              then popen_wait env (Git ["git"; "-C"; p; "submodule"; "update"])
                              else ret r2) s4 = (o, s) ->
                             (exists z, o = Ret z) /\ cloning s4 s).
  { intros o s H. destruct (recursive_clone m).
    - now apply popen_wait_git in H.
    - inversion H; subst. split; [eauto|apply cloning_refl]. }
  destruct Hrun as [(r3 & s5 & Hp3 & Hrun)|(e & Hp3 & _)].
  2:{ apply Hsub in Hp3. destruct Hp3 as [(z & Hz) _]. discriminate. }
  apply Hsub in Hp3. destruct Hp3 as [_ C5'].
  pose proof (cloning_trans _ _ _ C4 C5') as C5.
  destruct (negb (r3 =? 0)).
  { inversion Hrun; subst. eexists. split; [exact C5|]. now left. }
  exists s5. split; [exact C5|]. right. exact Hrun.
Qed.

Lemma scans_for_each {A : Type} (k : string) (body : A -> M unit) (l : list A) :
  scans k body -> scans k (fun _ : unit => for_each body l) .
Proof.
  intros Hbody. induction l as [|a l IH]; intros u st m r st' Hget Hrun.
  - inversion Hrun; subst. split; [|now left].
    exists []. now apply scanned_refl.
  - simpl in Hrun. apply bind_inv in Hrun.
    destruct Hrun as [([] & s1 & Ha & Hrun)|(e & Ha & ->)].
    + destruct (Hbody a st m _ s1 Hget Ha) as [(ds & Hsc) _].
      destruct (IH u s1 _ r st' (scanned_module _ _ _ _ _ Hsc) Hrun)
        as [(ds' & Hsc') Hr].
      split; [|exact Hr]. exists (ds ++ ds'). eapply scanned_trans; eauto.
    + exact (Hbody a st m _ st' Hget Ha).
Qed.

Lemma scan_release_line_scans (k : string) : scans k (scan_release_line k).
Proof.
  intros line st m r st' Hget Hrun. unfold scan_release_line in Hrun.
  destruct (release_key line) as [dep|].
  - unfold bind, get_module in Hrun. rewrite Hget in Hrun.
    destruct (is_dependency (name m) dep).
    + destruct (update_module_scanned k m dep st Hget) as (s1 & Hup & Hsc).
      rewrite Hup in Hrun. inversion Hrun; subst. split; [eauto|now left].
    + inversion Hrun; subst. split; [|now left].
      exists []. now apply scanned_refl.
  - inversion Hrun; subst. split; [|now left]. exists []. now apply scanned_refl.
Qed.

Lemma scan_configure_file_scans (env : Env) (k configure_dir : string) :
  scans k (scan_configure_file env k configure_dir).
Proof.
  intros file st m r st' Hget Hrun. unfold scan_configure_file in Hrun.
  destruct (PyStr.startswith "RELEASE" file).
  - unfold bind, open_readlines in Hrun.
    destruct (readlines env (history st) _) as [lines|].
    + exact (scans_for_each k _ lines (scan_release_line_scans k) tt st m r st'
               Hget Hrun).
    + inversion Hrun; subst. split; [|right; eauto].
      exists []. now apply scanned_refl.
  - inversion Hrun; subst. split; [|now left]. exists []. now apply scanned_refl.
Qed.

Lemma scan_configure_dirs_scans (env : Env) (k : string)
      (dirs : list (string * list string)) :
  scans k (fun _ : unit =>
             for_each (fun d => for_each (scan_configure_file env k (fst d)) (snd d))
                      dirs).
Proof.
  apply scans_for_each. intros d st m r st' Hget Hrun.
  exact (scans_for_each k _ (snd d) (scan_configure_file_scans env k (fst d))
           tt st m r st' Hget Hrun).
Qed.

(** What the discovery leaves, whatever it yields. *)
Lemma discover_dependencies_outcome (env : Env) (k p : string) (st : state)
      (m : InstallModule) (r : outcome bool) (st' : state) :
  dict_get k (modules (config st)) = Some m ->
  discover_dependencies env k p st = (r, st') ->
  exists ds,
    (forall f, f <> k ->
       dict_get f (modules (config st')) = dict_get f (modules (config st)))
    /\ history st' = history st
    /\ ((r = Ret true
         /\ dict_get k (modules (config st'))
            = Some (set_cloned 1 (add_dependencies ds m)))
        \/ ((exists dir, r = Raise (FileNotFoundError (os_path_join dir "RELEASE")))
            /\ dict_get k (modules (config st')) = Some (add_dependencies ds m))).
Proof.
  intros Hget Hrun. unfold discover_dependencies in Hrun.
  unfold bind at 1, get_module_configure_dirs at 1 in Hrun.
  apply bind_inv in Hrun.
  destruct Hrun as [([] & s1 & Hscan & Hrun)|(e & Hscan & ->)].
  - destruct (scan_configure_dirs_scans env k _ tt st m _ s1 Hget Hscan)
      as [(ds & Hsc) _].
    destruct (update_module_effect k (set_cloned 1) s1 _
                (scanned_module _ _ _ _ _ Hsc))
      as (s2 & Hup & Hk2 & Ho2 & _ & Hh2).
    unfold bind in Hrun. rewrite Hup in Hrun. inversion Hrun; subst r s2.
    exists ds. split; [|split].
    + intros f Hf. rewrite Ho2 by exact Hf. now apply (scanned_others _ _ _ _ _ Hsc).
    + now rewrite Hh2, (scanned_history _ _ _ _ _ Hsc).
    + left. auto.
  - destruct (scan_configure_dirs_scans env k _ tt st m _ st' Hget Hscan)
      as [(ds & Hsc) [Hr|Hr]]; [discriminate|].
    exists ds. split; [|split].
    + apply (scanned_others _ _ _ _ _ Hsc).
    + apply (scanned_history _ _ _ _ _ Hsc).
    + right. split; [|apply (scanned_module _ _ _ _ _ Hsc)].
      destruct Hr as (dir & Hr). inversion Hr; subst. eauto.
Qed.

(** The ways a call of [clone_single_module] can end. *)
Lemma clone_single_module_ends
        (env : Env) (build_loc k : string) (st : state) (m : InstallModule)
        (r : outcome bool) (st' : state) :
  dict_get k (modules (config st)) = Some m ->
  clone_single_module env build_loc k st = (r, st') ->
  (forall f, f <> k ->
     dict_get f (modules (config st')) = dict_get f (modules (config st)))
  /\ extends clone_event st st'
  /\ exists m',
       dict_get k (modules (config st')) = Some m'
       /\ ((r = Ret true /\ cloned m' <> 0)
           \/ (r = Ret false /\ cloned m = 0 /\ config st' = config st)
           \/ ((exists dir,
                  r = Raise (FileNotFoundError (os_path_join dir "RELEASE")))
               /\ cloned m' = 0)).
Proof.
  intros Hget Hrun.
  destruct (Z.eq_dec (cloned m) 0) as [Hcl|Hcl].
  2:{ rewrite (clone_single_module_cloned env build_loc k st m Hget Hcl) in Hrun.
      inversion Hrun; subst. split; [auto|]. split; [apply extends_refl|].
      exists m. split; [exact Hget|]. left. auto. }
  destruct (clone_single_module_phases env build_loc k st m r st' Hget Hcl Hrun)
    as (s5 & [C5 X5] & [[-> ->]|Hdisc]).
  - split; [intros f _; now rewrite C5|]. split; [exact X5|].
    exists m. split; [now rewrite C5|]. right. left. auto.
  - assert (Hget5 : dict_get k (modules (config s5)) = Some m) by now rewrite C5.
    destruct (discover_dependencies_outcome env k _ s5 m r st' Hget5 Hdisc)
      as (ds & Ho & Hh & Hk).
    split; [intros f Hf; now rewrite Ho, C5|]. split.
    { eapply extends_trans; [exact X5|]. now apply extends_same_history. }
    destruct Hk as [[-> Hk]|[Hr Hk]].
    + eexists. split; [exact Hk|]. left. split; [reflexivity|]. simpl. lia.
    + eexists. split; [exact Hk|]. right. right. split; [exact Hr|exact Hcl].
Qed.

(** X4. What a call of [clone_single_module] on a module of the
    configuration leaves behind. A call that returns [True] leaves the
    module cloned. A call that returns [False] was made on a module that was
    not cloned and leaves the configuration exactly as it was. A call that
    raises was made on a module that was not cloned and leaves it not
    cloned. In each case no other module is written and the only effects are
    [rmtree] and git commands. *)
Theorem clone_single_module_outcome
        (env : Env) (build_loc k : string) (st : state) (m : InstallModule)
        (r : outcome bool) (st' : state) :
  dict_get k (modules (config st)) = Some m ->
  clone_single_module env build_loc k st = (r, st') ->
  (forall f, f <> k ->
     dict_get f (modules (config st')) = dict_get f (modules (config st)))
  /\ extends clone_event st st'
  /\ exists m',
       dict_get k (modules (config st')) = Some m'
       /\ match r with
          | Ret true => cloned m' <> 0
          | Ret false => cloned m = 0 /\ config st' = config st
          | Raise _ => cloned m = 0 /\ cloned m' = 0
          end.
Proof.
  intros Hget Hrun.
  destruct (clone_single_module_ends env build_loc k st m r st' Hget Hrun)
    as (Hother & Hext & m' & Hget' & Hend).
  split; [exact Hother|]. split; [exact Hext|].
  exists m'. split; [exact Hget'|].
  destruct Hend as [[-> Hc]|[[-> Hc]|[(dir & ->) Hc]]]; [exact Hc|exact Hc|].
  split; [|exact Hc].
  destruct (Z.eq_dec (cloned m) 0) as [Hz|Hnz]; [exact Hz|].
  rewrite (clone_single_module_cloned env build_loc k st m Hget Hnz) in Hrun.
  discriminate.
Qed.

Lemma clone_single_module_outcome_witness :
  (forall f, f <> "ASYN" ->
     dict_get f (modules (config asyn_release_local))
     = dict_get f (modules (config fresh_asyn)))
  /\ extends clone_event fresh_asyn asyn_release_local
  /\ exists m',
       dict_get "ASYN" (modules (config asyn_release_local)) = Some m'
       /\ cloned (module_of "ASYN" asyn_url "R4-41" 0 []) = 0 /\ cloned m' = 0.
Proof.
  apply (clone_single_module_outcome release_local_env "/epics/build" "ASYN"
           fresh_asyn (module_of "ASYN" asyn_url "R4-41" 0 [])
           (Raise (FileNotFoundError "/epics/build/asyn/configure/RELEASE"))
           asyn_release_local); reflexivity.
Defined.

(** The first effects of a call of [clone_single_module] on a module not
    yet cloned. *)
Lemma clone_single_module_first_effects
        (env : Env) (build_loc k : string) (st : state) (m : InstallModule)
        (r : outcome bool) (st' : state) :
  dict_get k (modules (config st)) = Some m ->
  cloned m = 0 ->
  clone_single_module env build_loc k st = (r, st') ->
  let p := module_abs_path_of build_loc m in
  let git_clone :=
    Git (["git"; "clone"] ++ (if recursive_clone m then ["--recursive"] else [])
         ++ [url m; p]) in
  exists rest,
    Forall (fun e => exists cmd, e = Git cmd) rest
    /\ history st'
       = history st
         ++ (if path_exists env (history st) p then [Rmtree p] else [])
         ++ git_clone :: rest.
Proof.
  intros Hget Hcl Hrun p git_clone.
  unfold clone_single_module in Hrun.
  unfold bind at 1 in Hrun. unfold get_module at 1 in Hrun. rewrite Hget in Hrun.
  rewrite Hcl in Hrun. simpl truthy in Hrun. cbv iota in Hrun.
  fold p in Hrun. fold git_clone in Hrun.
  unfold bind at 1, os_path_exists at 1 in Hrun.
  apply bind_inv in Hrun.
  destruct Hrun as [([] & s2 & Hrm & Hrun)|(e & Hrm & _)].
  2:{ destruct (path_exists env (history st) p); discriminate. }
  assert (H2 : config s2 = config st
               /\ history s2 = history st
                               ++ (if path_exists env (history st) p
                                   then [Rmtree p] else [])).
  { destruct (path_exists env (history st) p); inversion Hrm; subst; simpl; auto.
    now rewrite app_nil_r. }
  destruct H2 as [C2 H2].
  apply bind_inv in Hrun.
  destruct Hrun as [(r1 & s3 & Hp1 & Hrun)|(e & Hp1 & _)].
  2:{ apply popen_wait_outcome in Hp1. destruct Hp1; discriminate. }
  apply popen_wait_outcome in Hp1. destruct Hp1 as [_ ->].
  set (s3 := mkState (config s2) (history s2 ++ [git_clone])) in *.
  assert (Hget3 : dict_get k (modules (config s3)) = Some m) by (simpl; now rewrite C2).
  assert (K : exists rest, Forall (fun e => exists cmd, e = Git cmd) rest
                           /\ history st' = history s3 ++ rest).
  { destruct (negb (r1 =? 0)).
    { inversion Hrun; subst. exists []. split; [constructor|now rewrite app_nil_r]. }
    apply bind_inv in Hrun.
    destruct Hrun as [(r2 & s4 & Hp2 & Hrun)|(e & Hp2 & _)].
    2:{ apply popen_wait_outcome in Hp2. destruct Hp2; discriminate. }
    apply popen_wait_outcome in Hp2. destruct Hp2 as [_ ->].
    destruct (negb (r2 =? 0)).
    { inversion Hrun; subst. eexists. split; [|reflexivity]. repeat constructor. eauto. }
    apply bind_inv in Hrun.
    destruct Hrun as [(r3 & s5 & Hp3 & Hrun)|(e & Hp3 & _)].
    2:{ destruct (recursive_clone m); [|discriminate].
        apply popen_wait_outcome in Hp3. destruct Hp3; discriminate. }
    assert (H5 : config s5 = config s3
                 /\ exists sub, Forall (fun e => exists cmd, e = Git cmd) sub
                                /\ history s5 = history s3 ++ sub).
    { destruct (recursive_clone m).
      - apply popen_wait_outcome in Hp3. destruct Hp3 as [_ ->]. simpl.
        split; [reflexivity|]. eexists. split; [|now rewrite <- app_assoc].
        repeat constructor; eauto.
      - inversion Hp3; subst. simpl. split; [reflexivity|].
        eexists. split; [|reflexivity]. repeat constructor. eauto. }
    destruct H5 as [C5 (sub & Fsub & H5)].
    destruct (negb (r3 =? 0)).
    { inversion Hrun; subst. eauto. }
    assert (Hget5 : dict_get k (modules (config s5)) = Some m) by now rewrite C5.
    destruct (discover_dependencies_outcome env k p s5 m r st' Hget5 Hrun)
      as (_ & _ & Hh & _).
    exists sub. split; [exact Fsub|]. now rewrite Hh. }
  destruct K as (rest & Frest & Hh). exists rest. split; [exact Frest|].
  rewrite Hh. simpl. rewrite H2. now rewrite <- !app_assoc.
Qed.

(** X5. When a call of [clone_single_module] on a module not yet cloned
    returns, with [True] or with [False], a directory that existed at the
    target path of the module was removed before anything else and the git
    clone into that path came next; when nothing existed there, the git
    clone came first and the call removed no directory at all. Every later
    effect is a git command. *)
Theorem clone_single_module_stale_directory
        (env : Env) (build_loc k : string) (st : state) (m : InstallModule)
        (b : bool) (st' : state) :
  dict_get k (modules (config st)) = Some m ->
  cloned m = 0 ->
  clone_single_module env build_loc k st = (Ret b, st') ->
  let p := module_abs_path_of build_loc m in
  let git_clone :=
    Git (["git"; "clone"] ++ (if recursive_clone m then ["--recursive"] else [])
         ++ [url m; p]) in
  exists rest,
    Forall (fun e => exists cmd, e = Git cmd) rest
    /\ history st'
       = history st
         ++ (if path_exists env (history st) p then [Rmtree p] else [])
         ++ git_clone :: rest.
Proof.
  intros Hget Hcl Hrun.
  exact (clone_single_module_first_effects env build_loc k st m (Ret b) st'
           Hget Hcl Hrun).
Qed.

Lemma clone_single_module_stale_directory_witness :
  exists rest,
    Forall (fun e => exists cmd, e = Git cmd) rest
    /\ history (snd (clone_single_module stale_directory_env "/epics/build" "ASYN"
                       fresh_asyn))
       = history fresh_asyn
         ++ [Rmtree "/epics/build/asyn"]
         ++ Git ["git"; "clone"; asyn_url; "/epics/build/asyn"] :: rest.
Proof.
  apply (clone_single_module_stale_directory stale_directory_env "/epics/build"
           "ASYN" fresh_asyn (module_of "ASYN" asyn_url "R4-41" 0 []) true
           (snd (clone_single_module stale_directory_env "/epics/build" "ASYN"
                   fresh_asyn))); reflexivity.
Defined.

(** X6. Memoization of the clone: after a call of [clone_single_module]
    that returned [True], whether it cloned the module or found it cloned,
    another call on the same module returns [True] and changes nothing; in
    particular it runs no git command and reads no RELEASE file again, so
    the dependencies are recorded once. *)
Theorem clone_single_module_twice
        (env : Env) (build_loc k : string) (st st1 : state) :
  clone_single_module env build_loc k st = (Ret true, st1) ->
  clone_single_module env build_loc k st1 = (Ret true, st1).
Proof. apply clone_single_module_second_call. Qed.

Lemma clone_single_module_twice_witness :
  clone_single_module two_configure_env "/epics/build" "ASYN" cloned_asyn
  = (Ret true, cloned_asyn).
Proof.
  apply (clone_single_module_twice two_configure_env "/epics/build" "ASYN"
           (start [uncloned_asyn]) cloned_asyn).
  reflexivity.
Defined.

Lemma clone_single_module_evolves_witness : evolves fresh_asyn asyn_release_local.
Proof.
  apply (clone_single_module_evolves release_local_env "/epics/build" "ASYN"
           fresh_asyn (Raise (FileNotFoundError "/epics/build/asyn/configure/RELEASE"))
           asyn_release_local).
  reflexivity.
Defined.

(** ** Build orchestrator: results *)

Section BuildResults.

Variable env : Env.
Variable num_threads : Z.

(** The build step proper, for a module of the configuration: it never
    raises; it writes configuration files unless the module is EPICS_BASE,
    starts the build command as its last effect, and sets [built] exactly
    when the exit code is 0. *)
Lemma run_build_command_outcome (k : string) (st : state) (m : InstallModule)
      (r : outcome bool) (st' : state) :
  dict_get k (modules (config st)) = Some m ->
  run_build_command env num_threads k st = (r, st') ->
  exists files,
    Forall file_event files
    /\ history st'
       = history st ++ files
         ++ [Build k (build_command m
                        (module_abs_path_of (build_location (config st)) m)
                        num_threads)]
    /\ ((r = Ret true
         /\ returncode env (history st') = 0
         /\ config st'
            = set_modules (dict_set k (set_built 1 m) (modules (config st)))
                          (config st))
        \/ (r = Ret false
            /\ returncode env (history st') <> 0
            /\ config st' = config st)).
Proof.
  intros Hget Hrun. unfold run_build_command in Hrun.
  unfold bind at 1, get_config at 1 in Hrun.
  unfold bind at 1, get_module at 1 in Hrun. rewrite Hget in Hrun.
  apply bind_inv in Hrun.
  assert (Hfiles : forall o s,
             (if negb (String.eqb (name m) "EPICS_BASE")
              then
                bind (get_module_configure_dirs env
                        (module_abs_path_of (build_location (config st)) m))
                     (fun dirs => for_each (replace_config_files (config st)) dirs)
              else ret tt) st = (o, s) ->
             o = Ret tt /\ config s = config st /\ extends file_event st s).
  { intros o s H. destruct (negb (String.eqb (name m) "EPICS_BASE")).
    - unfold bind at 1, get_module_configure_dirs at 1 in H.
      destruct (emits_for_each file_event _
                  (List.filter
                     (fun d => String.eqb (os_path_basename (fst d)) "configure")
                     (os_walk env (history st)
                        (module_abs_path_of (build_location (config st)) m)))
                  (replace_config_files_emits (config st)) st)
        as (s0 & E & C & X).
      rewrite E in H. inversion H; subst. auto.
    - inversion H; subst. split; auto. split; auto. apply extends_refl. }
  destruct Hrun as [([] & s1 & H1 & Hrun)|(e & H1 & _)].
  2:{ apply Hfiles in H1. destruct H1; discriminate. }
  apply Hfiles in H1. destruct H1 as (_ & C1 & files & Hh1 & Ff).
  exists files. split; [exact Ff|].
  apply bind_inv in Hrun.
  destruct Hrun as [(z & s2 & Hp & Hrun)|(e & Hp & _)].
  2:{ apply popen_wait_outcome in Hp. destruct Hp; discriminate. }
  apply popen_wait_outcome in Hp. destruct Hp as [Hz ->]. inversion Hz; subst z.
  simpl history in Hrun.
  destruct (returncode env _ =? 0) eqn:Ez.
  - unfold bind, update_module in Hrun. simpl in Hrun.
    rewrite C1, Hget in Hrun. inversion Hrun; subst r st'. simpl.
    split; [now rewrite Hh1, <- app_assoc|]. left.
    split; [reflexivity|]. split; [now apply Z.eqb_eq|reflexivity].
  - inversion Hrun; subst r st'. simpl.
    split; [now rewrite Hh1, <- app_assoc|]. right.
    split; [reflexivity|]. split; [now apply Z.eqb_neq|exact C1].
Qed.

(** X7. A call of [build_single_module] that returns [True] for a module
    that was not built went through its three phases: the module was cloned
    unless it was cloned already, reaching [s1]; the loop over the
    dependencies it then had returned [True], reaching [s2]; and the
    replacing of the configuration files and the build command, run from
    [s2], returned [True]. In [s2], before any of that last phase, every
    dependency of the module was built already. The build command, with
    exit code 0, is the last effect of the call; the module is the one of
    [s1] with [built] set to [True], and its dependencies are still built at
    the return. *)
Theorem build_single_module_success
        (depth : nat) (k : string) (st : state) (m : InstallModule) (st' : state) :
  dict_get k (modules (config st)) = Some m ->
  built m = 0 ->
  build_single_module env depth num_threads k st = (Ret true, st') ->
  exists depth' s1 m1 s2 files cmd,
    depth = S depth'
    /\ clone_unless_cloned env k st = (Ret true, s1)
    /\ dict_get k (modules (config s1)) = Some m1
    /\ build_dependencies (build_single_module env depth' num_threads)
         (dependencies m1) s1 = (Ret true, s2)
    /\ Forall (fun d => is_built d s2) (dependencies m1)
    /\ run_build_command env num_threads k s2 = (Ret true, st')
    /\ Forall file_event files
    /\ history st' = history s2 ++ files ++ [Build k cmd]
    /\ returncode env (history st') = 0
    /\ dict_get k (modules (config st')) = Some (set_built 1 m1)
    /\ Forall (fun d => is_built d st') (dependencies m1).
Proof.
  intros Hget Hb Hrun. destruct depth as [|d]; [discriminate|].
  simpl in Hrun. unfold bind at 1, get_module at 1 in Hrun.
  rewrite Hget, Hb in Hrun. simpl in Hrun.
  apply bind_Ret in Hrun. destruct Hrun as (ok & s1 & Hclone & Hrun).
  destruct (clone_unless_cloned_effect env k st m ok s1 Hget Hclone)
    as (_ & _ & G1 & m1 & Hget1 & Hb1 & Hcl1).
  destruct ok; simpl in Hrun; [|discriminate].
  unfold bind at 1, get_module at 1 in Hrun. rewrite Hget1 in Hrun.
  apply bind_Ret in Hrun. destruct Hrun as (ok2 & s2 & Hdeps & Hrun).
  rewrite Hb in Hb1.
  destruct (build_dependencies_frames env num_threads d k [] m1 []
              (build_single_module_frames env num_threads d) Hb1 (Hcl1 eq_refl)
              (dependencies m1) [] s1 ok2 s2)
    as (U2 & G2 & F2); auto.
  { now rewrite app_nil_r. }
  { constructor. }
  destruct ok2; simpl in Hrun; [|discriminate].
  specialize (F2 eq_refl). simpl in F2.
  assert (Hget2 : dict_get k (modules (config s2)) = Some m1).
  { rewrite (untouched_modules _ _ _ U2); [exact Hget1|now left]. }
  destruct (run_build_command_outcome k s2 m1 _ st' Hget2 Hrun)
    as (files & Ff & Hh & [(_ & Hz & Hc)|(Hr & _)]); [|discriminate].
  destruct (run_build_command_effect env num_threads k s2 m1 true st' Hget2 Hrun)
    as (_ & G3 & _).
  exists d, s1, m1, s2, files.
  eexists. split; [reflexivity|]. split; [exact Hclone|]. split; [exact Hget1|].
  split; [exact Hdeps|]. split; [exact F2|]. split; [exact Hrun|].
  split; [exact Ff|]. split; [exact Hh|]. split; [exact Hz|]. split.
  { rewrite Hc. simpl. apply dict_get_set_same. }
  eapply Forall_impl; [|exact F2]. intros p. apply (grows_built _ _ G3).
Qed.

(** X8. A call of [build_single_module] that returns [False] leaves the
    module not built: the return value and the [built] flag agree, whether
    the clone, a dependency or the module's own build command failed. *)
Theorem build_single_module_failure
        (depth : nat) (k : string) (st st' : state) :
  build_single_module env depth num_threads k st = (Ret false, st') ->
  exists m', dict_get k (modules (config st')) = Some m' /\ built m' = 0.
Proof.
  intros Hrun. destruct depth as [|d]; [discriminate|].
  simpl in Hrun. apply bind_Ret in Hrun. destruct Hrun as (m & s0 & Hm & Hrun).
  unfold get_module in Hm.
  destruct (dict_get k (modules (config st))) as [m0|] eqn:Hget;
    inversion Hm; subst m0 s0. clear Hm.
  destruct (truthy (built m)) eqn:Hb; [discriminate|].
  apply truthy_false in Hb.
  apply bind_Ret in Hrun. destruct Hrun as (ok & s1 & Hclone & Hrun).
  destruct (clone_unless_cloned_effect env k st m ok s1 Hget Hclone)
    as (_ & _ & G1 & m1 & Hget1 & Hb1 & Hcl1).
  rewrite Hb in Hb1.
  destruct ok; simpl in Hrun.
  2:{ inversion Hrun; subst. eauto. }
  unfold bind at 1, get_module at 1 in Hrun. rewrite Hget1 in Hrun.
  apply bind_Ret in Hrun. destruct Hrun as (ok2 & s2 & Hdeps & Hrun).
  destruct (build_dependencies_frames env num_threads d k [] m1 []
              (build_single_module_frames env num_threads d) Hb1 (Hcl1 eq_refl)
              (dependencies m1) [] s1 ok2 s2)
    as (U2 & G2 & F2); auto.
  { now rewrite app_nil_r. }
  { constructor. }
  assert (Hget2 : dict_get k (modules (config s2)) = Some m1).
  { rewrite (untouched_modules _ _ _ U2); [exact Hget1|now left]. }
  destruct ok2; simpl in Hrun.
  2:{ inversion Hrun; subst. eauto. }
  destruct (run_build_command_outcome k s2 m1 _ st' Hget2 Hrun)
    as (files & Ff & Hh & [(Hr & _)|(_ & _ & Hc)]); [discriminate|].
  exists m1. rewrite Hc. auto.
Qed.

(** X9. Memoization: after a call of [build_single_module] that returned
    [True], another call on the same module returns [True] at once and
    changes nothing, neither the configuration nor the outside world. *)
Theorem build_single_module_twice
        (depth depth' : nat) (k : string) (st st' : state) :
  build_single_module env depth num_threads k st = (Ret true, st') ->
  build_single_module env (S depth') num_threads k st' = (Ret true, st').
Proof.
  intros Hrun. apply build_single_module_built.
  now apply (build_single_module_grows env num_threads depth k st true st').
Qed.

End BuildResults.

Lemma build_single_module_success_witness :
  exists depth' s1 m1 s2 files cmd,
    3%nat = S depth'
    /\ clone_unless_cloned quiet_env "ASYN" three_modules = (Ret true, s1)
    /\ dict_get "ASYN" (modules (config s1)) = Some m1
    /\ build_dependencies (build_single_module quiet_env depth' 0)
         (dependencies m1) s1 = (Ret true, s2)
    /\ Forall (fun d => is_built d s2) (dependencies m1)
    /\ run_build_command quiet_env 0 "ASYN" s2 = (Ret true, asyn_built)
    /\ Forall file_event files
    /\ history asyn_built = history s2 ++ files ++ [Build "ASYN" cmd]
    /\ returncode quiet_env (history asyn_built) = 0
    /\ dict_get "ASYN" (modules (config asyn_built)) = Some (set_built 1 m1)
    /\ Forall (fun d => is_built d asyn_built) (dependencies m1).
Proof.
  apply (build_single_module_success quiet_env 0 3 "ASYN" three_modules
           asyn_with_dependencies asyn_built); reflexivity.
Defined.

Lemma build_single_module_failure_witness :
  exists m',
    dict_get "SNCSEQ" (modules (config sncseq_failed)) = Some m' /\ built m' = 0.
Proof.
  apply (build_single_module_failure failing_build_env 0 2 "SNCSEQ" three_modules
           sncseq_failed).
  reflexivity.
Defined.

Lemma build_single_module_twice_witness :
  build_single_module quiet_env 1 0 "ASYN" asyn_built = (Ret true, asyn_built).
Proof.
  apply (build_single_module_twice quiet_env 0 3 0 "ASYN" three_modules asyn_built).
  reflexivity.
Defined.

(** ** Build orchestrator: effects, and the run over all modules *)

Lemma extends_emit (P : event -> Prop) (e : event) :
  P e -> keeps (extends P) (emit e).
Proof.
  intros He st r st' H. unfold emit in H. inversion H; subst.
  exists [e]. simpl. auto.
Qed.

Lemma extends_update_module (P : event -> Prop) (k : string)
      (f : InstallModule -> InstallModule) :
  keeps (extends P) (update_module k f).
Proof.
  intros st r st' H. unfold update_module in H.
  destruct (dict_get k (modules (config st))); inversion H; subst;
    now apply extends_same_history.
Qed.

Ltac keeps_extends P known :=
  keeps_steps (extends_refl P) (extends_trans P)
    ltac:(first [ known
                | apply extends_update_module
                | apply extends_emit; exact I ]).

Lemma clone_single_module_build_effects (env : Env) (build_loc k : string) :
  keeps (extends build_effect) (clone_single_module env build_loc k).
Proof.
  unfold clone_single_module, scan_configure_file, scan_release_line.
  keeps_extends build_effect fail.
Qed.

Lemma build_single_module_build_effects (env : Env) (num_threads : Z) (depth : nat) :
  forall k, keeps (extends build_effect) (build_single_module env depth num_threads k).
Proof.
  induction depth as [|d IH]; intros k; simpl.
  - apply (keeps_raise _ (extends_refl build_effect)).
  - unfold clone_unless_cloned, run_build_command, replace_config_files.
    keeps_extends build_effect
      ltac:(first [ apply clone_single_module_build_effects
                  | apply (keeps_build_dependencies _ (extends_refl build_effect)
                             (extends_trans build_effect));
                    exact IH ]).
Qed.

(** X10. [build_single_module] never writes the configuration document and
    never lists a remote, however it ends: every effect it performs is an
    [rmtree], a git command of a clone, the removal or writing of a
    CONFIG_SITE or RELEASE file, or a build command. Saving is left to the
    caller. *)
Theorem build_single_module_never_saves
        (env : Env) (num_threads : Z) (depth : nat) (k : string)
        (st : state) (r : outcome bool) (st' : state) :
  build_single_module env depth num_threads k st = (r, st') ->
  exists evs,
    history st' = history st ++ evs
    /\ forall e, In e evs ->
         (forall p doc, e <> WriteJson p doc) /\ (forall cmd, e <> LsRemote cmd).
Proof.
  intros H. destruct (build_single_module_build_effects env num_threads depth k _ _ _ H)
    as (evs & Hh & F).
  exists evs. split; [exact Hh|]. intros e He.
  rewrite Forall_forall in F. specialize (F e He).
  split; intros; intros ->; exact F.
Qed.

Lemma save_outcome (env : Env) (st : state) (r : outcome unit) (st' : state) :
  save env None true st = (r, st') ->
  (config_file_path (config st) = None /\ r = Raise TypeError /\ st' = st)
  \/ (exists p, config_file_path (config st) = Some p /\ r = Ret tt
                /\ st' = saved env p st).
Proof.
  destruct (config_file_path (config st)) as [p|] eqn:Hp.
  - rewrite (save_to_own_path env st p Hp). intros H. inversion H; subst. eauto.
  - unfold save, bind, get_config. rewrite Hp. intros H. inversion H; subst. auto.
Qed.

Lemma count_saves_app (a b : list event) :
  count_saves (a ++ b) = (count_saves a + count_saves b)%nat.
Proof. unfold count_saves. now rewrite List.filter_app, List.length_app. Qed.

Lemma count_saves_build_effects (evs : list event) :
  Forall build_effect evs -> count_saves evs = 0%nat.
Proof.
  unfold count_saves. induction 1 as [|e evs He _ IH]; [reflexivity|].
  simpl. destruct e; simpl in *; tauto.
Qed.

Lemma saved_history (env : Env) (p : string) (st : state) :
  exists evs, history (saved env p st) = history st ++ evs
              /\ count_saves evs = 1%nat.
Proof.
  unfold saved. simpl. eexists. split; [reflexivity|].
  destruct (path_exists env (history st) p); reflexivity.
Qed.

Lemma saved_in_sync (env : Env) (p : string) (st : state) :
  in_sync p (saved env p st).
Proof.
  unfold in_sync, saved. simpl. rewrite app_assoc, written_document_app.
  now rewrite String.eqb_refl.
Qed.

Section BuildAll.

Variable env : Env.
Variable num_threads : Z.
Variable depth : nat.

(** The loop of [build_all] when it returns. *)
Lemma build_all_loop_returns (keys : list string) :
  forall (failed : list pyval) (st : state) (result : list pyval) (st' : state),
    build_all_loop env depth num_threads keys failed st = (Ret result, st') ->
    (exists fails,
        result = failed ++ List.map PyModule fails
        /\ subsequence fails keys)
    /\ (forall k, In k keys -> In (PyModule k) result \/ is_built k st')
    /\ (exists evs, history st' = history st ++ evs
                    /\ count_saves evs = List.length keys)
    /\ (forall p, config_file_path (config st) = Some p ->
                  (keys = [] -> in_sync p st) -> in_sync p st').
Proof.
  induction keys as [|k keys IH]; intros failed st result st' Hrun.
  - inversion Hrun; subst. split; [|split; [|split]].
    + exists []. simpl. rewrite app_nil_r. split; [reflexivity|constructor].
    + intros k [].
    + exists []. now rewrite app_nil_r.
    + auto.
  - simpl in Hrun.
    apply bind_Ret in Hrun. destruct Hrun as (b & s1 & Hb & Hrun).
    apply bind_Ret in Hrun. destruct Hrun as ([] & s2 & Hs & Hrun).
    pose proof (build_single_module_keeps env num_threads depth k _ _ _ Hb) as E1.
    destruct (build_single_module_build_effects env num_threads depth k _ _ _ Hb)
      as (ev1 & Hh1 & F1).
    destruct (build_single_module_grows env num_threads depth k st b s1 Hb) as [_ B1].
    apply save_outcome in Hs. destruct Hs as [(_ & Hr & _)|(p & Hp & _ & ->)];
      [discriminate|].
    destruct (IH _ _ _ _ Hrun) as ((fails & Hres & Hsub) & Hbuilt
                                   & (ev3 & Hh3 & Hc3) & Hsync).
    pose proof (build_all_loop_keeps env num_threads depth keys _ _ _ _ Hrun) as E3.
    split; [|split; [|split]].
    + destruct b; simpl in Hres.
      * exists fails. split; [exact Hres|now constructor].
      * exists (k :: fails). split.
        -- rewrite Hres, <- app_assoc. reflexivity.
        -- now constructor.
    + intros x [<-|Hx]; [|auto].
      destruct b; simpl in Hres.
      * right. apply (evolves_is_built _ _ _ E3). exact (B1 eq_refl).
      * left. rewrite Hres. apply in_or_app. left. apply in_or_app. right. now left.
    + destruct (saved_history env p s1) as (ev2 & Hh2 & Hc2).
      exists (ev1 ++ ev2 ++ ev3). split.
      * now rewrite Hh3, Hh2, Hh1, <- !app_assoc.
      * rewrite !count_saves_app, (count_saves_build_effects _ F1), Hc2, Hc3.
        reflexivity.
    + intros q Hq _. apply Hsync.
      * simpl. rewrite <- (evolves_path _ _ E1) in Hq. exact Hq.
      * intros _. rewrite <- (evolves_path _ _ E1) in Hq. rewrite Hp in Hq.
        inversion Hq; subst q. apply saved_in_sync.
Qed.

(** X11. When [build_all] returns, the list it returns holds module
    objects of keys of the configuration, in the order of the configuration
    and at most one per module (it is the list of the keys with some of
    them left out), and every module that is not in the list is built: a
    module is either reported or built. *)
Theorem build_all_reports_or_builds
        (st : state) (result : list pyval) (st' : state) :
  build_all env depth num_threads st = (Ret result, st') ->
  (exists fails,
      result = List.map PyModule fails
      /\ subsequence fails (dict_keys (modules (config st))))
  /\ forall k, In k (dict_keys (modules (config st))) ->
               In (PyModule k) result \/ is_built k st'.
Proof.
  unfold build_all, bind, get_config. intros Hrun.
  destruct (build_all_loop_returns _ _ _ _ _ Hrun) as (H1 & H2 & _).
  split; [exact H1|exact H2].
Qed.

(** X12. When [build_all] returns, the configuration document was written
    exactly once per module of the configuration, and, if there is at least
    one module, the file at the configuration's path holds the
    configuration as it is in memory at the return. *)
Theorem build_all_persists
        (st : state) (result : list pyval) (st' : state) :
  build_all env depth num_threads st = (Ret result, st') ->
  (exists evs, history st' = history st ++ evs
               /\ count_saves evs = List.length (modules (config st)))
  /\ forall p, config_file_path (config st) = Some p ->
               modules (config st) <> [] -> in_sync p st'.
Proof.
  unfold build_all, bind, get_config. intros Hrun.
  destruct (build_all_loop_returns _ _ _ _ _ Hrun) as (_ & _ & H3 & H4).
  split.
  - destruct H3 as (evs & Hh & Hc). exists evs. split; [exact Hh|].
    unfold dict_keys in Hc. now rewrite List.length_map in Hc.
  - intros p Hp Hne. apply (H4 p Hp). intros Hk.
    destruct (modules (config st)); [congruence|discriminate].
Qed.

End BuildAll.

Lemma build_single_module_never_saves_witness :
  exists evs,
    history asyn_built = history three_modules ++ evs
    /\ forall e, In e evs ->
         (forall p doc, e <> WriteJson p doc) /\ (forall cmd, e <> LsRemote cmd).
Proof.
  apply (build_single_module_never_saves quiet_env 0 3 "ASYN" three_modules
           (Ret true) asyn_built).
  reflexivity.
Defined.

Lemma build_all_reports_or_builds_witness :
  (exists fails,
      [PyModule "ASYN"; PyModule "SNCSEQ"] = List.map PyModule fails
      /\ subsequence fails (dict_keys (modules (config three_modules))))
  /\ forall k, In k (dict_keys (modules (config three_modules))) ->
               In (PyModule k) [PyModule "ASYN"; PyModule "SNCSEQ"]
               \/ is_built k all_failed.
Proof.
  apply (build_all_reports_or_builds failing_build_env 0 3 three_modules
           [PyModule "ASYN"; PyModule "SNCSEQ"] all_failed).
  reflexivity.
Defined.

Lemma build_all_persists_witness :
  (exists evs, history all_failed = history three_modules ++ evs
               /\ count_saves evs = List.length (modules (config three_modules)))
  /\ forall p, config_file_path (config three_modules) = Some p ->
               modules (config three_modules) <> [] -> in_sync p all_failed.
Proof.
  apply (build_all_persists failing_build_env 0 3 three_modules
           [PyModule "ASYN"; PyModule "SNCSEQ"] all_failed).
  reflexivity.
Defined.

(** ** Version resolver: selection and update decision *)

Lemma nth_after_prefix (p : list Z) (x : Z) (l : list Z) :
  List.nth (List.length p) (p ++ x :: l) 0 = x.
Proof. induction p; simpl; auto. Qed.

Lemma length_prefix_neq (p q : list Z) (x : Z) (l : list Z) :
  List.length p = List.length q ->
  Nat.eqb (List.length q) (List.length (p ++ x :: l)) = false.
Proof.
  intros H. apply Nat.eqb_neq. rewrite List.length_app. simpl. lia.
Qed.

(** The selection loop entered at index [length pt], when the two tags are
    of the same prefix class. *)
Lemma select_best_tag_from (best tag : string) :
  PyStr.startswith "R" best = PyStr.startswith "R" tag ->
  forall ts bs pb pt,
    List.length pb = List.length pt ->
    select_best_tag (List.length ts) (List.length pt) best tag (pb ++ bs) (pt ++ ts)
    = if lex_ltb bs ts then (tag, pt ++ ts) else (best, pb ++ bs).
Proof.
  intros HR. induction ts as [|t ts IH]; intros bs pb pt Hlen.
  - destruct bs; reflexivity.
  - simpl select_best_tag. rewrite HR.
    rewrite andb_negb_r. rewrite andb_comm, andb_negb_r.
    destruct bs as [|b bs].
    + rewrite app_nil_r, Hlen, Nat.eqb_refl. reflexivity.
    + rewrite (length_prefix_neq pb pt b bs Hlen). simpl orb.
      rewrite nth_after_prefix. rewrite <- Hlen, nth_after_prefix.
      rewrite Z.gtb_ltb. simpl lex_ltb.
      destruct (b <? t) eqn:E1; [reflexivity|].
      destruct (t <? b) eqn:E2; [reflexivity|].
      assert (t = b) by (apply Z.ltb_ge in E1, E2; lia). subst t.
      specialize (IH bs (pb ++ [b]) (pt ++ [b])).
      rewrite <- !app_assoc in IH. simpl in IH.
      rewrite !List.length_app in IH. simpl in IH.
      rewrite Hlen, Nat.add_1_r in *. apply IH. reflexivity.
Qed.

(** X13. Best-tag selection between the running best tag and a candidate, on
    any two lists of numeric components. A candidate without numeric
    component never becomes the best tag. Otherwise a candidate with the
    prefix R displaces a best tag without it, a candidate without the
    prefix R never displaces a best tag with it, and between tags of the
    same class the candidate wins exactly when its components come after
    those of the best tag in the lexicographic order (a longer list beats
    its proper prefix, equal lists keep the best tag). *)
Theorem select_best_tag_lexicographic
        (best tag : string) (best_numbers tag_numbers : list Z) :
  select_best_tag (List.length tag_numbers) 0 best tag best_numbers tag_numbers
  = match tag_numbers with
    | [] => (best, best_numbers)
    | _ :: _ =>
        if PyStr.startswith "R" best && negb (PyStr.startswith "R" tag)
        then (best, best_numbers)
        else if negb (PyStr.startswith "R" best) && PyStr.startswith "R" tag
        then (tag, tag_numbers)
        else if lex_ltb best_numbers tag_numbers then (tag, tag_numbers)
        else (best, best_numbers)
    end.
Proof.
  destruct tag_numbers as [|t ts]; [reflexivity|].
  destruct (PyStr.startswith "R" best) eqn:Rb, (PyStr.startswith "R" tag) eqn:Rt;
    simpl andb; cbv iota.
  - apply (select_best_tag_from best tag) with (pb := []) (pt := []) (ts := t :: ts);
      [congruence|reflexivity].
  - simpl. now rewrite Rb, Rt.
  - simpl. now rewrite Rb, Rt.
  - apply (select_best_tag_from best tag) with (pb := []) (pt := []) (ts := t :: ts);
      [congruence|reflexivity].
Qed.

Section UpdateDecision.

Variable depth : nat.
Variable k : string.
Variable best_tag : string.

Lemma update_applied (st : state) (m : InstallModule) :
  dict_get k (modules (config st)) = Some m ->
  bind (update_module k (set_version best_tag))
       (fun _ => clear_clone_and_build_state (S depth) k) st
  = (Ret tt, updated_to best_tag k m st).
Proof.
  intros Hget. unfold bind at 1, update_module at 1. rewrite Hget.
  rewrite (clear_clone_and_build_state_resets_argument_only depth k _
             (set_version best_tag m)).
  - unfold flags_cleared, updated_to. simpl. now rewrite dict_set_set.
  - simpl. apply dict_get_set_same.
Qed.

Lemma update_decision_from (st : state) (m : InstallModule) :
  dict_get k (modules (config st)) = Some m ->
  forall bs ms pb pm,
    List.length pb = List.length pm ->
    update_decision (S depth) k best_tag (pb ++ bs) (pm ++ ms)
      (List.length bs) (List.length pb) st
    = if lex_ltb ms bs then (Ret tt, updated_to best_tag k m st) else (Ret tt, st).
Proof.
  intros Hget. induction bs as [|b bs IH]; intros ms pb pm Hlen.
  - destruct ms; reflexivity.
  - simpl update_decision.
    destruct ms as [|x ms].
    + rewrite app_nil_r, Hlen, Nat.eqb_refl. simpl orb. cbv iota.
      simpl lex_ltb. exact (update_applied st m Hget).
    + rewrite (length_prefix_neq pm pb x ms (eq_sym Hlen)). simpl orb.
      rewrite nth_after_prefix. rewrite Hlen, nth_after_prefix.
      rewrite Z.gtb_ltb. simpl lex_ltb.
      destruct (x <? b) eqn:E1; [exact (update_applied st m Hget)|].
      destruct (b <? x) eqn:E2; [reflexivity|].
      assert (x = b) by (apply Z.ltb_ge in E1, E2; lia). subst x.
      specialize (IH ms (pb ++ [b]) (pm ++ [b])).
      rewrite <- !app_assoc in IH. simpl in IH.
      rewrite !List.length_app in IH. simpl in IH.
      rewrite !Nat.add_1_r in IH. rewrite <- Hlen. apply IH. now rewrite Hlen.
Qed.

(** X14. The update decision (lines 268 to 277) for the best tag, on any two
    lists of numeric components: the module is updated exactly when its
    version's components come before those of the best tag in the
    lexicographic order (a best tag with more components than a version it
    extends counts as newer; a best tag without components never does).
    On update the version becomes the best tag and [cloned], [built] and
    [installed] of this module are cleared; nothing else changes, in
    particular no other module. Otherwise nothing changes at all. *)
Theorem update_decision_lexicographic
        (st : state) (m : InstallModule)
        (best_numbers module_numbers : list Z) :
  dict_get k (modules (config st)) = Some m ->
  update_decision (S depth) k best_tag best_numbers module_numbers
    (List.length best_numbers) 0 st
  = if lex_ltb module_numbers best_numbers
    then (Ret tt, updated_to best_tag k m st)
    else (Ret tt, st).
Proof.
  intros Hget.
  exact (update_decision_from st m Hget best_numbers module_numbers [] [] eq_refl).
Qed.

End UpdateDecision.

Lemma update_decision_lexicographic_witness :
  update_decision 1 "ASYN" "R3-7-2" [3; 7; 2] [3; 7; 1] 3 0 asyn_R3_7_1
  = if lex_ltb [3; 7; 1] [3; 7; 2]
    then (Ret tt, updated_to "R3-7-2" "ASYN" (module_of "ASYN" asyn_url "R3-7-1" 1 [])
                    asyn_R3_7_1)
    else (Ret tt, asyn_R3_7_1).
Proof.
  apply (update_decision_lexicographic 0 "ASYN" "R3-7-2" asyn_R3_7_1
           (module_of "ASYN" asyn_url "R3-7-1" 1 []) [3; 7; 2] [3; 7; 1]).
  reflexivity.
Defined.

(** ** Version resolver: the run over all modules, and freeze *)

Lemma dict_get_In {V : Type} (k : string) (v : V) (d : dict V) :
  NoDup (dict_keys d) -> In (k, v) d -> dict_get k d = Some v.
Proof.
  unfold dict_keys. induction d as [|[k0 v0] d IH]; simpl; intros Hnd Hin.
  - contradiction.
  - inversion Hnd as [|x l Hnin Hnd']; subst.
    destruct Hin as [E|Hin].
    + inversion E; subst. now rewrite String.eqb_refl.
    + destruct (String.eqb_spec k k0) as [->|Hne]; [|now apply IH].
      exfalso. apply Hnin. apply (List.in_map fst) in Hin. exact Hin.
Qed.

(** The loop of [auto_update_modules] over modules of the configuration. *)
Lemma auto_update_loop_listings (env : Env) (depth : nat)
      (cfg : InstallConfiguration) (ms : dict InstallModule) :
  (forall k m, In (k, m) ms -> dict_get k (modules cfg) = Some m) ->
  forall h : list event,
    for_each (auto_update_module_tag env depth) (dict_keys ms) (mkState cfg h)
    = (match snd (tag_listings env ms h) with
       | None => Ret tt
       | Some _ => Raise (UnboundLocalError "best_tag_version_numbers")
       end,
       mkState cfg (fst (tag_listings env ms h))).
Proof.
  induction ms as [|[k m] ms IH]; intros Hms h.
  - reflexivity.
  - assert (Hget : dict_get k (modules cfg) = Some m) by (apply Hms; now left).
    assert (Hrest : forall x mx, In (x, mx) ms -> dict_get x (modules cfg) = Some mx).
    { intros x mx Hx. apply Hms. now right. }
    specialize (IH Hrest).
    change (dict_keys ((k, m) :: ms)) with (k :: dict_keys ms).
    cbn [for_each tag_listings].
    unfold bind at 1, auto_update_module_tag, bind at 1, get_module at 1.
    cbn [config]. rewrite Hget. fold (looked_up m).
    destruct (looked_up m).
    + unfold bind at 1, popen_communicate, bind at 1, emit. cbn [config history].
      fold (ls_remote_tags m).
      destruct (stdout_lines env (h ++ [ls_remote_tags m])) as [|tag_info lines].
      * cbn [scan_tags ret]. apply IH.
      * rewrite (scan_tags_first_iteration depth k
                   (mkState cfg (h ++ [ls_remote_tags m])) m tag_info lines Hget).
        reflexivity.
    + cbn [ret]. apply IH.
Qed.

(** X15. What a run of [auto_update_modules] does, in terms of what the
    remotes list, every [git ls-remote] being run and answered. The modules that are looked up (version not master or
    main, name not in the blacklist) are asked for their tags in the order
    of the configuration. The run returns exactly when the listing of every
    one of them is empty. Otherwise it ends at the first module whose
    remote lists a tag: the [git ls-remote] of that module is its last
    effect and it raises [UnboundLocalError] for
    [best_tag_version_numbers]; the modules after it are not asked. In
    both cases the configuration is as it was, and the only effects are
    those [git ls-remote] commands. *)
Theorem auto_update_modules_listings
        (env : Env) (depth : nat) (st : state) :
  NoDup (dict_keys (modules (config st))) ->
  auto_update_modules env depth st
  = (match snd (tag_listings env (modules (config st)) (history st)) with
     | None => Ret tt
     | Some _ => Raise (UnboundLocalError "best_tag_version_numbers")
     end,
     mkState (config st)
       (fst (tag_listings env (modules (config st)) (history st)))).
Proof.
  intros Hnd. unfold auto_update_modules, bind at 1, get_config at 1.
  destruct st as [cfg h]. cbn [config history].
  apply auto_update_loop_listings.
  intros k m Hin. now apply dict_get_In.
Qed.

Lemma auto_update_modules_listings_witness :
  auto_update_modules (remote_env ["R7.0.6"]) 100 base_asyn_busy
  = (match snd (tag_listings (remote_env ["R7.0.6"])
                  (modules (config base_asyn_busy)) (history base_asyn_busy)) with
     | None => Ret tt
     | Some _ => Raise (UnboundLocalError "best_tag_version_numbers")
     end,
     mkState (config base_asyn_busy)
       (fst (tag_listings (remote_env ["R7.0.6"])
               (modules (config base_asyn_busy)) (history base_asyn_busy)))).
Proof.
  apply (auto_update_modules_listings (remote_env ["R7.0.6"]) 100
           base_asyn_busy).
  vm_compute. repeat constructor; simpl; intuition discriminate.
Defined.

(** X16. [freeze] freezes nothing: on a configuration with at least one
    module it runs [git ls-remote] on the URL of the first module and then
    raises [TypeError] (line 136 of utils.py subscripts the method
    [splitlines]), with every version as it was. *)
Theorem freeze_raises
        (env : Env) (st : state) (k : string) (m : InstallModule)
        (rest : dict InstallModule) :
  modules (config st) = (k, m) :: rest ->
  freeze env st
  = (Raise TypeError,
     mkState (config st) (history st ++ [LsRemote ["git"; "ls-remote"; url m]])).
Proof.
  intros Hm. unfold freeze, bind at 1, get_config at 1. rewrite Hm. simpl.
  unfold bind at 1. unfold bind at 1, get_module at 1. rewrite Hm. simpl.
  rewrite String.eqb_refl. reflexivity.
Qed.

Lemma freeze_raises_witness :
  freeze quiet_env asyn_R3_7_1
  = (Raise TypeError,
     mkState (config asyn_R3_7_1)
       (history asyn_R3_7_1 ++ [LsRemote ["git"; "ls-remote"; asyn_url]])).
Proof.
  apply (freeze_raises quiet_env asyn_R3_7_1 "ASYN"
           (module_of "ASYN" asyn_url "R3-7-1" 1 []) []).
  reflexivity.
Defined.

(** ** The run of the acquirer over all modules *)

Lemma clone_and_checkout_loop_keeps (env : Env) (keys : list string) :
  forall failed, keeps evolves (clone_and_checkout_loop env keys failed).
Proof.
  induction keys as [|k keys IH]; intros failed; simpl.
  - apply (keeps_ret _ evolves_refl).
  - keeps_evolves_with
      ltac:(first [ apply clone_single_module_keeps
                  | apply save_evolves
                  | apply IH ]).
Qed.

Lemma evolves_lookup_back (st st' : state) (k : string) (m' : InstallModule) :
  evolves st st' ->
  dict_get k (modules (config st')) = Some m' ->
  exists m, dict_get k (modules (config st)) = Some m /\ module_kept m m'.
Proof.
  intros E H'.
  destruct (dict_get k (modules (config st))) as [m|] eqn:Hget.
  - destruct (evolves_modules _ _ E k m Hget) as (m2 & H2 & K).
    exists m. split; [reflexivity|]. congruence.
  - apply dict_get_None in Hget. rewrite <- (evolves_keys _ _ E) in Hget.
    apply dict_get_None in Hget. congruence.
Qed.

Lemma evolves_is_cloned (st st' : state) (k : string) :
  evolves st st' -> is_cloned k st -> is_cloned k st'.
Proof.
  intros E (m & Hm & Hc). destruct (evolves_modules _ _ E k m Hm) as (m' & Hm' & K).
  exists m'. split; [exact Hm'|]. now apply (kept_cloned _ _ K).
Qed.


Section CloneAll.

Variable env : Env.

(** The loop of [clone_and_checkout_config] when it returns. *)
Lemma clone_and_checkout_loop_returns (keys : list string) :
  forall (failed : list pyval) (st : state) (result : list pyval) (st' : state),
    clone_and_checkout_loop env keys failed st = (Ret result, st') ->
    (exists ks names,
        result = failed ++ List.map PyStrV names
        /\ subsequence ks keys
        /\ names_of_keys st ks names)
    /\ (forall k m, In k keys -> dict_get k (modules (config st)) = Some m ->
                    In (PyStrV (name m)) result \/ is_cloned k st')
    /\ (exists evs, history st' = history st ++ evs
                    /\ count_saves evs = List.length keys)
    /\ (forall p, config_file_path (config st) = Some p ->
                  (keys = [] -> in_sync p st) -> in_sync p st').
Proof.
  induction keys as [|k keys IH]; intros failed st result st' Hrun.
  - inversion Hrun; subst. split; [|split; [|split]].
    + exists [], []. simpl. rewrite app_nil_r. split; [reflexivity|].
      split; constructor.
    + intros k m [].
    + exists []. now rewrite app_nil_r.
    + auto.
  - simpl in Hrun. unfold bind at 1, get_config at 1 in Hrun.
    apply bind_Ret in Hrun. destruct Hrun as (b & s1 & Hb & Hrun).
    apply bind_Ret in Hrun. destruct Hrun as ([] & s2 & Hs & Hrun).
    apply bind_Ret in Hrun. destruct Hrun as (module & s3 & Hm & Hrun).
    pose proof (clone_single_module_keeps env _ k _ _ _ Hb) as E1.
    destruct (clone_single_module_build_effects env _ k _ _ _ Hb) as (ev1 & Hh1 & F1).
    apply save_outcome in Hs. destruct Hs as [(_ & Hr & _)|(p & Hp & _ & ->)];
      [discriminate|].
    unfold get_module in Hm. simpl in Hm.
    destruct (dict_get k (modules (config s1))) as [m1|] eqn:Hget1;
      inversion Hm; subst module s3. clear Hm.
    destruct (evolves_lookup_back st s1 k m1 E1 Hget1) as (m0 & Hget0 & K0).
    assert (E2 : evolves st (saved env p s1)).
    { eapply evolves_trans; [exact E1|].
      apply (save_evolves env None true s1 (Ret tt)).
      now apply save_to_own_path. }
    destruct (IH _ _ _ _ Hrun) as ((ks & names & Hres & Hsub & Hnames) & Hcl
                                   & (ev3 & Hh3 & Hc3) & Hsync).
    pose proof (clone_and_checkout_loop_keeps env keys _ _ _ _ Hrun) as E3.
    assert (Hback : names_of_keys st ks names).
    { eapply Forall2_impl; [|exact Hnames]. intros x n (m2 & Hm2 & Hn).
      destruct (evolves_lookup_back st _ x m2 E2 Hm2) as (mx & Hmx & Kx).
      exists mx. split; [exact Hmx|]. now rewrite <- (kept_name _ _ Kx). }
    split; [|split; [|split]].
    + destruct b; simpl in Hres.
      * exists ks, names. split; [exact Hres|]. split; [now constructor|exact Hback].
      * exists (k :: ks), (name m1 :: names). split.
        -- rewrite Hres, <- app_assoc. reflexivity.
        -- split; [now constructor|]. constructor; [|exact Hback].
           exists m0. split; [exact Hget0|]. now rewrite (kept_name _ _ K0).
    + intros x m [<-|Hx] Hget.
      * rewrite Hget0 in Hget. inversion Hget; subst m0.
        destruct b; simpl in Hres.
        -- right. apply (evolves_is_cloned _ _ _ E3).
           destruct (clone_single_module_ends env _ k st m (Ret true) s1 Hget0 Hb)
             as (_ & _ & m' & Hm' & [[_ Hc]|[[Hr _]|[(d & Hr) _]]]);
             try discriminate.
           exists m'. split; [exact Hm'|exact Hc].
        -- left. rewrite Hres, <- (kept_name _ _ K0).
           apply in_or_app. left. apply in_or_app. right. now left.
      * destruct (evolves_modules _ _ E2 x m Hget) as (m2 & Hget2 & K2).
        rewrite <- (kept_name _ _ K2). now apply Hcl.
    + destruct (saved_history env p s1) as (ev2 & Hh2 & Hc2).
      exists (ev1 ++ ev2 ++ ev3). split.
      * now rewrite Hh3, Hh2, Hh1, <- !app_assoc.
      * rewrite !count_saves_app, (count_saves_build_effects _ F1), Hc2, Hc3.
        reflexivity.
    + intros q Hq _. apply Hsync.
      * simpl. rewrite <- (evolves_path _ _ E1) in Hq. exact Hq.
      * intros _. rewrite <- (evolves_path _ _ E1) in Hq. rewrite Hp in Hq.
        inversion Hq; subst q. apply saved_in_sync.
Qed.

(** X17. When [clone_and_checkout_config] returns, the list it returns
    holds the names of modules of the configuration, in the order of the
    configuration and at most one per module (the names of the keys with
    some of them left out); every module whose name is not in the list is
    cloned; the configuration document was written once per module; and,
    with at least one module, the file at the configuration's path holds
    the configuration as it is in memory. *)
Theorem clone_and_checkout_config_reports_or_clones
        (st : state) (result : list pyval) (st' : state) :
  clone_and_checkout_config env st = (Ret result, st') ->
  (exists ks names,
      result = List.map PyStrV names
      /\ subsequence ks (dict_keys (modules (config st)))
      /\ names_of_keys st ks names)
  /\ (forall k m, dict_get k (modules (config st)) = Some m ->
                  In (PyStrV (name m)) result \/ is_cloned k st')
  /\ (exists evs, history st' = history st ++ evs
                  /\ count_saves evs = List.length (modules (config st)))
  /\ (forall p, config_file_path (config st) = Some p ->
                modules (config st) <> [] -> in_sync p st').
Proof.
  unfold clone_and_checkout_config, bind, get_config. intros Hrun.
  destruct (clone_and_checkout_loop_returns _ _ _ _ _ Hrun)
    as (H1 & H2 & (evs & Hh & Hc) & H4).
  unfold dict_keys in Hc. rewrite List.length_map in Hc.
  split; [exact H1|]. split; [|split].
  - intros k m Hget. apply H2; [|exact Hget].
    destruct (in_dec string_dec k (dict_keys (modules (config st)))) as [Hin|Hin];
      [exact Hin|].
    apply dict_get_None in Hin. congruence.
  - exists evs. auto.
  - intros p Hp Hne. apply (H4 p Hp). intros Hk.
    destruct (modules (config st)); [congruence|discriminate].
Qed.

End CloneAll.

Lemma clone_and_checkout_config_reports_or_clones_witness :
  let st' := snd (clone_and_checkout_config failing_env fresh_asyn) in
  (exists ks names,
      [PyStrV "ASYN"] = List.map PyStrV names
      /\ subsequence ks (dict_keys (modules (config fresh_asyn)))
      /\ names_of_keys fresh_asyn ks names)
  /\ (forall k m, dict_get k (modules (config fresh_asyn)) = Some m ->
                  In (PyStrV (name m)) [PyStrV "ASYN"] \/ is_cloned k st')
  /\ (exists evs, history st' = history fresh_asyn ++ evs
                  /\ count_saves evs = List.length (modules (config fresh_asyn)))
  /\ (forall p, config_file_path (config fresh_asyn) = Some p ->
                modules (config fresh_asyn) <> [] -> in_sync p st').
Proof.
  apply (clone_and_checkout_config_reports_or_clones failing_env fresh_asyn
           [PyStrV "ASYN"] (snd (clone_and_checkout_config failing_env fresh_asyn))).
  reflexivity.
Defined.

(** ** Configuration store: loading, and saving then loading *)

Lemma land_pow2 (s n : Z) :
  0 <= n -> Z.land s (2 ^ n) = if Z.testbit s n then 2 ^ n else 0.
Proof.
  intros Hn. apply Z.bits_inj'. intros i Hi.
  rewrite Z.land_spec, Z.pow2_bits_eqb by exact Hn.
  destruct (Z.eqb_spec n i) as [->|Hne].
  - destruct (Z.testbit s i); simpl.
    + now rewrite Z.pow2_bits_true.
    + now rewrite Z.bits_0.
  - rewrite andb_false_r. destruct (Z.testbit s n).
    + rewrite Z.pow2_bits_false; auto.
    + now rewrite Z.bits_0.
Qed.

Lemma InstallModule_init_loaded (k : string) (mc : module_config) :
  loaded_module k (InstallModule_init k mc).
Proof.
  split; simpl; auto.
  - destruct (STATE mc) as [s|]; [|now left].
    pose proof (land_pow2 s 0 ltac:(lia)) as H. change (2 ^ 0) with 1 in H.
    rewrite H. destruct (Z.testbit s 0); auto.
  - destruct (STATE mc) as [s|]; [|now left].
    pose proof (land_pow2 s 1 ltac:(lia)) as H. change (2 ^ 1) with 2 in H.
    rewrite H. destruct (Z.testbit s 1); auto.
  - destruct (STATE mc) as [s|]; [|now left].
    pose proof (land_pow2 s 2 ltac:(lia)) as H. change (2 ^ 2) with 4 in H.
    rewrite H. destruct (Z.testbit s 2); auto.
Qed.

Lemma NoDup_dict_set {V : Type} (k : string) (v : V) (d : dict V) :
  NoDup (dict_keys d) -> NoDup (dict_keys (dict_set k v d)).
Proof.
  intros H. destruct (dict_get k d) as [v0|] eqn:Hget.
  - rewrite dict_keys_set; [exact H|congruence].
  - apply dict_get_None in Hget. rewrite (dict_set_fresh k v d Hget).
    unfold dict_keys in *. rewrite List.map_app. simpl.
    apply NoDup_app; [exact H|repeat constructor; auto|].
    intros x Hx [<-|[]]. contradiction.
Qed.

Lemma load_modules_invariant (entries : dict module_config) :
  forall acc : dict InstallModule,
    NoDup (dict_keys acc) ->
    (forall k m, dict_get k acc = Some m -> loaded_module k m) ->
    let ms :=
      List.fold_left
        (fun ms entry => dict_set (fst entry)
                           (InstallModule_init (fst entry) (snd entry)) ms)
        entries acc in
    NoDup (dict_keys ms)
    /\ (forall k m, dict_get k ms = Some m -> loaded_module k m)
    /\ (forall k, In k (dict_keys ms) <-> In k (dict_keys acc) \/ In k (dict_keys entries)).
Proof.
  induction entries as [|[k mc] entries IH]; intros acc Hnd Hall; simpl.
  - split; [exact Hnd|]. split; [exact Hall|]. intros k. tauto.
  - destruct (IH (dict_set k (InstallModule_init k mc) acc)) as (H1 & H2 & H3).
    + now apply NoDup_dict_set.
    + intros x m. destruct (String.eqb_spec x k) as [->|Hne].
      * rewrite dict_get_set_same. intros E. inversion E; subst.
        apply InstallModule_init_loaded.
      * rewrite dict_get_set_other by exact Hne. apply Hall.
    + split; [exact H1|]. split; [exact H2|]. intros x. rewrite H3.
      assert (Hk : In x (dict_keys (dict_set k (InstallModule_init k mc) acc))
                   <-> In x (dict_keys acc) \/ k = x).
      { destruct (dict_get k acc) as [v0|] eqn:Hget.
        - rewrite dict_keys_set by congruence. split; [auto|].
          intros [H|<-]; [exact H|].
          destruct (in_dec string_dec k (dict_keys acc)) as [Hin|Hin]; [exact Hin|].
          apply dict_get_None in Hin. congruence.
        - apply dict_get_None in Hget. rewrite (dict_set_fresh k _ acc Hget).
          unfold dict_keys. rewrite List.map_app, List.in_app_iff. simpl. tauto. }
      rewrite Hk. tauto.
Qed.

(** X19. What loading establishes, for any configuration document: the
    module map has each key once, holds
    exactly the keys of MODULES, every module's name is its key, its
    dependency list is empty whatever DEPS was, and its flags are the
    masked bits of STATE, so [cloned] is 0 or 1, [built] is 0 or 2 and
    [installed] is 0 or 4, never the booleans the rest of the code
    assigns. *)
Theorem InstallConfiguration_init_invariants (path : string) (doc : configuration_json) :
  NoDup (dict_keys (modules (InstallConfiguration_init path doc)))
  /\ (forall k m, dict_get k (modules (InstallConfiguration_init path doc)) = Some m ->
                  loaded_module k m)
  /\ (forall k, In k (dict_keys (modules (InstallConfiguration_init path doc)))
                <-> In k (dict_keys (MODULES doc))).
Proof.
  destruct (load_modules_invariant (MODULES doc) []) as (H1 & H2 & H3).
  - constructor.
  - intros k m H. discriminate.
  - split; [exact H1|]. split; [exact H2|]. intros k. simpl. rewrite H3.
    simpl. tauto.
Qed.

Lemma dict_get_map {A B : Type} (f : string -> A -> B) (k : string) (d : dict A) :
  dict_get k (List.map (fun e => (fst e, f (fst e) (snd e))) d)
  = option_map (f k) (dict_get k d).
Proof.
  induction d as [|[k0 a] d IH]; simpl; [reflexivity|].
  destruct (String.eqb_spec k k0) as [->|Hne]; [reflexivity|exact IH].
Qed.

Lemma InstallModule_init_reloaded (k : string) (m : InstallModule) :
  reloaded_from k m (InstallModule_init k (as_dict m)).
Proof.
  rewrite InstallModule_init_as_dict. split; simpl; auto.
  intros ([-> | ->] & [-> | ->] & [-> | ->]); auto.
Qed.

(** X20. Saving a configuration and loading the file again. The paths, the
    macros and the keys in their order come back, and every module comes
    back with its key as name and with its version, URL, build command and
    recursion flag. The dependencies come back empty. Where the flags were
    booleans, [cloned] comes back as it was, [built] comes back doubled and
    [installed] multiplied by 4, so each flag keeps its truth value over one
    round trip and no longer is a boolean. *)
Theorem save_reload_round_trip (env : Env) (st : state) (p : string) :
  config_file_path (config st) = Some p ->
  NoDup (dict_keys (modules (config st))) ->
  exists cfg',
    reload p (history (snd (save env None true st))) = Some cfg'
    /\ config_file_path cfg' = Some p
    /\ build_location cfg' = build_location (config st)
    /\ install_location cfg' = install_location (config st)
    /\ build_options cfg' = build_options (config st)
    /\ dict_keys (modules cfg') = dict_keys (modules (config st))
    /\ forall k m, dict_get k (modules (config st)) = Some m ->
         exists m', dict_get k (modules cfg') = Some m' /\ reloaded_from k m m'.
Proof.
  intros Hp Hnd.
  destruct (reload_after_save env st p Hp Hnd) as (cfg' & Hr & Hm & Hb & Hi & Ho).
  exists cfg'. split; [exact Hr|]. split.
  { unfold reload in Hr.
    destruct (written_document p _); inversion Hr; subst. reflexivity. }
  split; [exact Hb|]. split; [exact Hi|]. split; [exact Ho|]. split.
  - rewrite Hm. unfold reloaded_modules, dict_keys. rewrite List.map_map.
    reflexivity.
  - intros k m Hget. rewrite Hm. unfold reloaded_modules.
    rewrite (dict_get_map (fun k m => InstallModule_init k (as_dict m))), Hget.
    simpl. eexists. split; [reflexivity|]. apply InstallModule_init_reloaded.
Qed.

Lemma save_reload_round_trip_witness :
  exists cfg',
    reload config_path (history (snd (save quiet_env None true asyn_built)))
    = Some cfg'
    /\ config_file_path cfg' = Some config_path
    /\ build_location cfg' = build_location (config asyn_built)
    /\ install_location cfg' = install_location (config asyn_built)
    /\ build_options cfg' = build_options (config asyn_built)
    /\ dict_keys (modules cfg') = dict_keys (modules (config asyn_built))
    /\ forall k m, dict_get k (modules (config asyn_built)) = Some m ->
         exists m', dict_get k (modules cfg') = Some m' /\ reloaded_from k m m'.
Proof.
  apply (save_reload_round_trip quiet_env asyn_built config_path).
  - reflexivity.
  - vm_compute. repeat constructor; simpl; intuition discriminate.
Defined.

(** ** Strings: paths, RELEASE lines and version numbers *)

Lemma split_no_separator (c : ascii) (s : string) :
  PyStr.contains c s = false -> PyStr.split c s = [s].
Proof.
  induction s as [|a s IH]; simpl; intros H; [reflexivity|].
  apply orb_false_iff in H. destruct H as [Ha Hs].
  rewrite Ha, (IH Hs). reflexivity.
Qed.

Lemma split_not_nil (c : ascii) (s : string) : PyStr.split c s <> [].
Proof.
  destruct s as [|a s]; simpl; [discriminate|].
  destruct (Ascii.eqb a c); [discriminate|].
  destruct (PyStr.split c s); discriminate.
Qed.

Lemma first_item_split (c : ascii) (s r : string) :
  PyStr.contains c s = false ->
  PyStr.first_item (PyStr.split c (s ++ String c r)) = s.
Proof.
  unfold PyStr.first_item.
  induction s as [|a s IH]; simpl; intros H.
  - now rewrite Ascii.eqb_refl.
  - apply orb_false_iff in H. destruct H as [Ha Hs]. rewrite Ha.
    specialize (IH Hs).
    destruct (PyStr.split c (s ++ String c r)); simpl in *; now rewrite IH.
Qed.

Lemma last_item_split (c : ascii) (p t : string) :
  PyStr.contains c t = false ->
  PyStr.last_item (PyStr.split c (p ++ String c t)) = t.
Proof.
  unfold PyStr.last_item. intros Ht.
  induction p as [|a p IH]; simpl.
  - rewrite Ascii.eqb_refl, (split_no_separator c t Ht). reflexivity.
  - pose proof (split_not_nil c (p ++ String c t)) as Hne.
    destruct (Ascii.eqb a c).
    + destruct (PyStr.split c (p ++ String c t)) as [|h l]; [congruence|exact IH].
    + destruct (PyStr.split c (p ++ String c t)) as [|h l] eqn:E; [congruence|].
      destruct l as [|x l]; [|exact IH].
      exfalso. clear IH Hne. revert h E.
      induction p as [|b p IHp]; simpl; intros h E.
      * rewrite Ascii.eqb_refl in E. rewrite (split_no_separator c t Ht) in E.
        discriminate.
      * destruct (Ascii.eqb b c).
        -- pose proof (split_not_nil c (p ++ String c t)) as Hne.
           destruct (PyStr.split c (p ++ String c t)); [congruence|discriminate].
        -- destruct (PyStr.split c (p ++ String c t)) as [|h' l'] eqn:E'.
           ++ now apply (split_not_nil c (p ++ String c t)).
           ++ inversion E; subst. now apply (IHp h').
Qed.

(** X21. The directory a module is cloned into and built in depends on the
    URL only through the repository name: for a URL that ends in a slash
    and a name [stem] without slash or dot, with or without an extension
    such as [.git], it is the build location joined with [stem]. Modules
    whose URLs end in the same repository name therefore share the
    directory, whatever the host, the organisation and the extension. *)
Theorem module_abs_path_of_repository_name
        (build_loc prefix stem extension : string) (m : InstallModule) :
  url m = (prefix ++ "/" ++ stem ++ extension)%string ->
  PyStr.contains "/" stem = false ->
  PyStr.contains "." stem = false ->
  PyStr.contains "/" extension = false ->
  extension = EmptyString \/ PyStr.startswith "." extension = true ->
  module_abs_path_of build_loc m = os_path_join build_loc stem.
Proof.
  intros Hurl Hs1 Hs2 He Hext. unfold module_abs_path_of. rewrite Hurl.
  change (prefix ++ "/" ++ stem ++ extension)%string
    with (prefix ++ String "/" (stem ++ extension))%string.
  rewrite last_item_split.
  2:{ clear - Hs1 He. induction stem as [|a s IH]; simpl in *; [exact He|].
      apply orb_false_iff in Hs1. destruct Hs1 as [Ha Hs]. rewrite Ha. now apply IH. }
  destruct Hext as [->|Hdot].
  - replace (stem ++ EmptyString)%string with stem.
    + now rewrite (split_no_separator "." stem Hs2).
    + clear. induction stem; simpl; congruence.
  - destruct extension as [|a ext]; [discriminate|].
    change (PyStr.startswith "." (String a ext))
      with (if ascii_dec "." a then String.prefix EmptyString ext else false) in Hdot.
    destruct (ascii_dec "." a) as [<-|Hne]; [|discriminate].
    now rewrite (first_item_split "." stem ext Hs2).
Qed.

Lemma module_abs_path_of_repository_name_witness :
  module_abs_path_of "/epics/build"
    (module_of "ASYN" "git@gitlab.example.org:controls/asyn.git" "R4-41" 0 [])
  = os_path_join "/epics/build" "asyn".
Proof.
  apply (module_abs_path_of_repository_name "/epics/build"
           "git@gitlab.example.org:controls" "asyn" ".git");
    [reflexivity|reflexivity|reflexivity|reflexivity|right; reflexivity].
Defined.

Lemma lines_keepends_line (body : string) :
  PyStr.contains PyStr.newline body = false ->
  PyStr.lines_keepends (body ++ nl) = [(body ++ nl)%string].
Proof.
  induction body as [|a s IH]; simpl; intros H.
  - reflexivity.
  - apply orb_false_iff in H. destruct H as [Ha Hs]. rewrite Ha, (IH Hs).
    reflexivity.
Qed.

Lemma lines_keepends_last_line (a : ascii) (s : string) :
  PyStr.contains PyStr.newline (String a s) = false ->
  PyStr.lines_keepends (String a s) = [String a s].
Proof.
  revert a. induction s as [|b s IH]; simpl; intros a H.
  - apply orb_false_iff in H. destruct H as [Ha _]. now rewrite Ha.
  - apply orb_false_iff in H. destruct H as [Ha Hs]. rewrite Ha.
    simpl in IH. rewrite (IH b Hs). reflexivity.
Qed.

Lemma comment_line_ending (body : string) :
  PyStr.comment_line (body ++ nl) = PyStr.comment_line body.
Proof.
  induction body as [|a s IH]; simpl; [reflexivity|].
  destruct (Ascii.eqb a " "); [exact IH|reflexivity].
Qed.

Lemma contains_app (c : ascii) (s t : string) :
  PyStr.contains c (s ++ t) = PyStr.contains c s || PyStr.contains c t.
Proof.
  induction s as [|a s IH]; simpl; [reflexivity|].
  now rewrite IH, orb_assoc.
Qed.

Lemma contains_separator (c : ascii) (s : string) :
  PyStr.contains c s = true ->
  exists k r, s = (k ++ String c r)%string /\ PyStr.contains c k = false.
Proof.
  induction s as [|a s IH]; simpl; intros H; [discriminate|].
  destruct (Ascii.eqb_spec a c) as [->|Hne].
  - exists EmptyString, s. auto.
  - simpl in H. destruct (IH H) as (k & r & -> & Hk).
    exists (String a k), r. split; [reflexivity|]. simpl.
    destruct (Ascii.eqb_spec a c); [contradiction|exact Hk].
Qed.

Lemma append_assoc (a b c : string) : ((a ++ b) ++ c = a ++ (b ++ c))%string.
Proof. induction a as [|x a IH]; simpl; congruence. Qed.

Lemma append_empty (a : string) : (a ++ EmptyString)%string = a.
Proof. induction a as [|x a IH]; simpl; congruence. Qed.

Lemma re_sub_comment_line (body ending : string) :
  PyStr.contains PyStr.newline body = false ->
  ending = EmptyString \/ ending = nl ->
  PyStr.re_sub_comment (body ++ ending)
  = if PyStr.comment_line body then EmptyString else (body ++ ending)%string.
Proof.
  intros Hb [-> | ->]; unfold PyStr.re_sub_comment.
  - rewrite append_empty. destruct body as [|a s]; [reflexivity|].
    rewrite (lines_keepends_last_line a s Hb). cbn [List.filter].
    destruct (PyStr.comment_line (String a s)); reflexivity.
  - rewrite (lines_keepends_line body Hb). cbn [List.filter].
    rewrite comment_line_ending.
    destruct (PyStr.comment_line body); reflexivity.
Qed.

(** X22. What a line of a RELEASE file contributes, for a line as
    [readlines] yields it (no line end inside; a line end or nothing at its
    end). A line that starts with any number of spaces and then [#] sets no
    key, whatever follows. Any other line sets a key exactly when it
    holds [=], and the key is the text before the first [=] with the
    surrounding white space removed; a [#] later in the line, or after a
    tab, does not make it a comment. *)
Theorem release_key_of_line (body ending : string) :
  PyStr.contains PyStr.newline body = false ->
  ending = EmptyString \/ ending = nl ->
  release_key (body ++ ending)
  = if PyStr.comment_line body then None
    else if PyStr.contains "=" body
         then Some (PyStr.strip (PyStr.first_item (PyStr.split "=" body)))
         else None.
Proof.
  intros Hb He. unfold release_key.
  rewrite (re_sub_comment_line body ending Hb He).
  destruct (PyStr.comment_line body); [reflexivity|].
  rewrite contains_app.
  assert (Hend : PyStr.contains "=" ending = false).
  { destruct He as [-> | ->]; reflexivity. }
  rewrite Hend, orb_false_r.
  destruct (PyStr.contains "=" body) eqn:Hc; [|reflexivity].
  destruct (contains_separator "=" body Hc) as (k & r & -> & Hk).
  rewrite append_assoc. simpl append.
  now rewrite !first_item_split.
Qed.

Lemma release_key_of_line_witness :
  release_key ("SNCSEQ = $(SUPPORT)/sequencer-mirror  # sequencer" ++ nl)
  = if PyStr.comment_line "SNCSEQ = $(SUPPORT)/sequencer-mirror  # sequencer"
    then None
    else if PyStr.contains "=" "SNCSEQ = $(SUPPORT)/sequencer-mirror  # sequencer"
         then Some (PyStr.strip
                      (PyStr.first_item
                         (PyStr.split "="
                            "SNCSEQ = $(SUPPORT)/sequencer-mirror  # sequencer")))
         else None.
Proof.
  apply (release_key_of_line "SNCSEQ = $(SUPPORT)/sequencer-mirror  # sequencer" nl);
    [reflexivity|right; reflexivity].
Defined.

Lemma filter_numeric_after_separator (s : string) :
  List.filter PyStr.isnumeric (PyStr.re_split_nondigits_from EmptyString true s)
  = List.filter PyStr.isnumeric (PyStr.re_split_nondigits_from EmptyString false s).
Proof.
  destruct s as [|a s]; simpl; [reflexivity|].
  destruct (PyStr.is_digit a); reflexivity.
Qed.

(** X23. The numeric components of a version or tag do not see a prefix
    without digits: [R4-41], [v4-41] and [4-41] have the same components,
    which is why the comparison loop looks at the prefix R separately. *)
Theorem version_numbers_prefix (p s : string) :
  no_digits p = true ->
  PyStr.version_numbers (p ++ s) = PyStr.version_numbers s.
Proof.
  unfold PyStr.version_numbers, PyStr.re_split_nondigits. intros Hp. f_equal.
  induction p as [|a p IH]; [reflexivity|].
  simpl in Hp. apply andb_true_iff in Hp. destruct Hp as [Ha Hp].
  apply negb_true_iff in Ha. simpl. rewrite Ha. simpl.
  rewrite filter_numeric_after_separator. now apply IH.
Qed.

Lemma version_numbers_prefix_witness :
  PyStr.version_numbers ("R" ++ "4-41") = PyStr.version_numbers "4-41".
Proof. apply (version_numbers_prefix "R" "4-41"). reflexivity. Defined.

(** ** The settings file: the active environment *)

Lemma rstrip_line_end (s : string) : PyStr.rstrip (s ++ nl) = PyStr.rstrip s.
Proof.
  induction s as [|a s IH]; [reflexivity|].
  change (String a s ++ nl)%string with (String a (s ++ nl)).
  cbn [PyStr.rstrip]. now rewrite IH.
Qed.

Lemma strip_line_end (s : string) : PyStr.strip (s ++ nl) = PyStr.strip s.
Proof.
  unfold PyStr.strip. induction s as [|a s IH]; [reflexivity|].
  change (String a s ++ nl)%string with (String a (s ++ nl)).
  cbn [PyStr.lstrip]. destruct (PyStr.is_space a); [exact IH|].
  apply (rstrip_line_end (String a s)).
Qed.

Lemma active_env_line_value (p : string) :
  PyStr.strip (List.nth 1 (PyStr.split "=" (active_env_line p)) EmptyString)
  = PyStr.strip (PyStr.first_item (PyStr.split "=" p)).
Proof.
  unfold active_env_line.
  change ("ACTIVE_ENV=" ++ p ++ nl)%string
    with ("ACTIVE_ENV" ++ String "=" (p ++ nl))%string.
  assert (H : forall r, List.nth 1 (PyStr.split "=" ("ACTIVE_ENV" ++ String "=" r))
                          EmptyString
                        = PyStr.first_item (PyStr.split "=" r)).
  { intros r. cbn. pose proof (split_not_nil "=" r) as Hne.
    destruct (PyStr.split "=" r); [congruence|reflexivity]. }
  rewrite H. clear H.
  destruct (PyStr.contains "=" p) eqn:Hc.
  - destruct (contains_separator "=" p Hc) as (k & r & -> & Hk).
    rewrite append_assoc. simpl append. now rewrite !first_item_split.
  - rewrite (split_no_separator "=" p Hc).
    rewrite (split_no_separator "=" (p ++ nl)).
    + apply strip_line_end.
    + rewrite contains_app, Hc. reflexivity.
Qed.

Lemma active_env_of_lines_found (before after : list string) (p : string) :
  Forall (fun l => PyStr.startswith "ACTIVE_ENV=" l = false) before ->
  active_env_of_lines (before ++ active_env_line p :: after)
  = Some (PyStr.strip (PyStr.first_item (PyStr.split "=" p))).
Proof.
  induction 1 as [|l before Hl _ IH]; cbn [app active_env_of_lines].
  - assert (Hs : PyStr.startswith "ACTIVE_ENV=" (active_env_line p) = true).
    { unfold active_env_line, PyStr.startswith. cbn.
      destruct (p ++ nl)%string; reflexivity. }
    rewrite Hs. f_equal. apply active_env_line_value.
  - rewrite Hl. exact IH.
Qed.

(** X24. Reading back the active environment. When the settings file exists
    and its first line that starts with [ACTIVE_ENV=] is the line that
    [use_env] writes for the path [p], [get_active_environment] returns a
    string, never [None], also for the empty path that [init_env] writes:
    the text of [p] before its first [=], with surrounding white space
    removed. So a path without [=] and without surrounding white space is
    read back as it was written, and any other path is not. *)
Theorem get_active_environment_reads_back
        (env : Env) (CONFIG_DIR : string) (st : state)
        (before after : list string) (p : string) :
  path_exists env (history st) (os_path_join CONFIG_DIR "epicsenv.ini") = true ->
  readlines env (history st) (os_path_join CONFIG_DIR "epicsenv.ini")
  = Some (before ++ active_env_line p :: after) ->
  Forall (fun l => PyStr.startswith "ACTIVE_ENV=" l = false) before ->
  exists value,
    get_active_environment env CONFIG_DIR st = (Ret (Some value), st)
    /\ value = PyStr.strip (PyStr.first_item (PyStr.split "=" p))
    /\ (PyStr.contains "=" p = false -> PyStr.strip p = p -> value = p).
Proof.
  intros Hex Hread Hbefore. eexists. split; [|split; [reflexivity|]].
  - unfold get_active_environment, bind, os_path_exists, open_readlines.
    simpl. rewrite Hex. simpl. rewrite Hread.
    now rewrite (active_env_of_lines_found before after p Hbefore).
  - intros Hc Hs. now rewrite (split_no_separator "=" p Hc).
Qed.

Lemma get_active_environment_reads_back_witness :
  exists value,
    get_active_environment settings_env "/home/user/.config/epicsenv" fresh_asyn
    = (Ret (Some value), fresh_asyn)
    /\ value = PyStr.strip (PyStr.first_item (PyStr.split "=" config_path))
    /\ (PyStr.contains "=" config_path = false ->
        PyStr.strip config_path = config_path -> value = config_path).
Proof.
  apply (get_active_environment_reads_back settings_env
           "/home/user/.config/epicsenv" fresh_asyn
           [("# epicsenv settings" ++ nl)%string] [] config_path).
  - reflexivity.
  - reflexivity.
  - repeat constructor.
Defined.
